(** * The Grounded One: policy-gated execution orchestrator

    A shallow embedding of the session memory store ([memory_manager.py]),
    the filter agent's retry bookkeeping ([filter.py]) and the root
    orchestrator ([root.py]), with the properties the design document
    states about them; then of the lookup, validation and JSON-file helpers
    ([utils.py]) and of the operations behind the registered tools
    ([tools/]), with further properties of all of these.

    Conventions.
    - Python [None] for an optional string is [None : option string];
      Python truthiness is written out ([py_true], [truthy]).
    - Instants are microseconds since the epoch ([Z]).  The program stores
      [datetime.utcnow().isoformat()] text and lets SQLite compare the text;
      for ISO-8601 text of one format that order is the chronological one.
    - [json.dumps]/[json.loads] of the history column is the identity on the
      lists stored here, so the column holds the list itself.
    - Every function that reads the clock takes the instant as [now]: the
      clock reads of one call are one instant, SQLite's own reading for a
      column default included (in whole seconds).  The audit logger, whose
      readings end up in different places, takes one text per reading.
    - Library functions whose behaviour is not written out here
      ([str.isdigit], [datetime.fromisoformat], [str]) are parameters of
      the sections that use them. *)

From Stdlib Require Import ZArith Lia Ascii.
From stdpp Require Import gmap strings list fin_maps.

#[local] Set Warnings "-register-all".

(** ** Configuration ([config_template.py]) *)

Record Config := {
  MEMORY_ENABLED : bool;
  MEMORY_DURATION_HOURS : Z;
  MAX_CONVERSATION_HISTORY : Z;
  FILTER_MAX_RETRIES : nat;
  FILTER_REQUIRE_USER_CONSENT : bool
}.

Definition config_template : Config := {|
  MEMORY_ENABLED := true;
  MEMORY_DURATION_HOURS := 12;
  MAX_CONVERSATION_HISTORY := 5;
  FILTER_MAX_RETRIES := 3;
  FILTER_REQUIRE_USER_CONSENT := true
|}.

(** ** Python helpers *)

(** [bool(x)] for [x : Optional[str]]: [None] and the empty string are false. *)
Definition py_true (o : option string) : bool :=
  match o with
  | Some s => negb (String.eqb s "")
  | None => false
  end.

(** [l[start:]] with Python's treatment of a negative or too large start. *)
Definition py_slice_from {A} (start : Z) (l : list A) : list A :=
  let n := Z.of_nat (length l) in
  let i := if (start <? 0)%Z then Z.max 0 (n + start) else Z.min start n in
  drop (Z.to_nat i) l.

(** SQL [COALESCE(?, column)]. *)
Definition COALESCE {A} (param column : option A) : option A :=
  match param with
  | Some _ => param
  | None => column
  end.

(** [timedelta(hours=h)] in microseconds. *)
Definition hours (h : Z) : Z := (h * 3600 * 1000000)%Z.

(** The instants a [datetime] holds, [datetime.min] to [datetime.max]:
    0001-01-01T00:00:00 to 9999-12-31T23:59:59.999999.  A sum
    [datetime + timedelta] outside of them raises [OverflowError]. *)
Definition datetime_min : Z := (-62135596800000000)%Z.
Definition datetime_max : Z := 253402300799999999%Z.
Definition representable (t : Z) : Prop := (datetime_min <= t <= datetime_max)%Z.

(** ** The [session_memory] table *)

Module Schema.

Record HistoryEntry := {
  entry_timestamp : Z;
  entry_action : string;
  entry_patient_id : option string;
  entry_clinician_id : option string
}.

Record Row := {
  session_id : string;
  clinician_id : option string;
  last_patient_id : option string;
  last_action : option string;
  conversation_history : list HistoryEntry;
  created_at : Z;
  expires_at : Z
}.

(** [self.conn]: the rows by primary key, and whether [close()] was called.
    A closed connection raises on every use. *)
Record Conn := {
  rows : gmap string Row;
  closed : bool
}.

Definition empty_conn : Conn := {| rows := ∅; closed := false |}.

End Schema.
Import Schema.

(** ** Storage layer: statements that may raise *)

Inductive outcome (A : Type) :=
| Return (a : A)
| Raise (e : string).
Arguments Return {A} a.
Arguments Raise {A} e.

Module Sql.

Definition DB (A : Type) : Type := Conn -> outcome A * Conn.

Definition ret {A} (a : A) : DB A := fun c => (Return a, c).

Definition bind {A B} (m : DB A) (k : A -> DB B) : DB B :=
  fun c =>
    match m c with
    | (Return a, c') => k a c'
    | (Raise e, c') => (Raise e, c')
    end.

(** [try: ... except Exception: handler] *)
Definition try_except {A} (m : DB A) (handler : string -> A) : Conn -> A * Conn :=
  fun c =>
    match m c with
    | (Return a, c') => (a, c')
    | (Raise e, c') => (handler e, c')
    end.

Definition ProgrammingError : string := "Cannot operate on a closed database.".

(** [self.conn.cursor()] followed by one statement [stmt]. *)
Definition execute {A} (stmt : gmap string Row -> A * gmap string Row) : DB A :=
  fun c =>
    if closed c then (Raise ProgrammingError, c)
    else let '(a, rs) := stmt (rows c) in
         (Return a, {| rows := rs; closed := closed c |}).

Definition commit : DB unit := execute (fun rs => (tt, rs)).

(** SELECT conversation_history FROM session_memory WHERE session_id = ? *)
Definition select_history (sid : string) : DB (option (list HistoryEntry)) :=
  execute (fun rs => (conversation_history <$> rs !! sid, rs)).

(** The row an UPDATE ... SET c = COALESCE(?, c), ... leaves. *)
Definition merged_row (clinician patient action : option string)
    (history : list HistoryEntry) (expires : Z) (r : Row) : Row :=
  {| session_id := session_id r;
     clinician_id := COALESCE clinician (clinician_id r);
     last_patient_id := COALESCE patient (last_patient_id r);
     last_action := COALESCE action (last_action r);
     conversation_history := history;
     created_at := created_at r;
     expires_at := expires |}.

(** SQLite's [CURRENT_TIMESTAMP]: the clock in whole seconds
    (['YYYY-MM-DD HH:MM:SS'], UTC), read at the instant [now] of the call. *)
Definition CURRENT_TIMESTAMP (now : Z) : Z := (now / 1000000 * 1000000)%Z.

(** The row an INSERT writes.  The statement does not name [created_at]:
    the column takes its declared default, [CURRENT_TIMESTAMP]. *)
Definition new_row (sid : string) (clinician patient action : option string)
    (history : list HistoryEntry) (expires now : Z) : Row :=
  {| session_id := sid;
     clinician_id := clinician;
     last_patient_id := patient;
     last_action := action;
     conversation_history := history;
     created_at := CURRENT_TIMESTAMP now;
     expires_at := expires |}.

(** UPDATE session_memory SET clinician_id = COALESCE(?, clinician_id),
    last_patient_id = COALESCE(?, last_patient_id),
    last_action = COALESCE(?, last_action),
    conversation_history = ?, expires_at = ?  WHERE session_id = ? *)
Definition update_session (clinician patient action : option string)
    (history : list HistoryEntry) (expires : Z) (sid : string) : DB unit :=
  execute (fun rs =>
    (tt, alter (merged_row clinician patient action history expires) sid rs)).

(** INSERT INTO session_memory (session_id, clinician_id, last_patient_id,
    last_action, conversation_history, expires_at) VALUES (?, ?, ?, ?, ?, ?) *)
Definition insert_session (sid : string) (clinician patient action : option string)
    (history : list HistoryEntry) (expires now : Z) : DB unit :=
  fun c =>
    if closed c then (Raise ProgrammingError, c)
    else
      match rows c !! sid with
      | Some _ => (Raise "UNIQUE constraint failed: session_memory.session_id", c)
      | None =>
          execute (fun rs =>
            (tt, <[sid := new_row sid clinician patient action history expires now]> rs)) c
      end.

(** SELECT * FROM session_memory WHERE session_id = ? AND expires_at > ? *)
Definition select_active (sid : string) (now : Z) : DB (option Row) :=
  execute (fun rs =>
    (match rs !! sid with
     | Some r => if (now <? expires_at r)%Z then Some r else None
     | None => None
     end, rs)).

(** DELETE FROM session_memory WHERE session_id = ? *)
Definition delete_session (sid : string) : DB unit :=
  execute (fun rs => (tt, delete sid rs)).

(** DELETE FROM session_memory WHERE expires_at < ?   (returns rowcount) *)
Definition delete_expired (now : Z) : DB nat :=
  execute (fun rs =>
    (size (filter (fun kr => (expires_at kr.2 < now)%Z) rs),
     filter (fun kr => ¬ (expires_at kr.2 < now)%Z) rs)).

(** SELECT COUNT( * ) as count FROM session_memory *)
Definition count_all : DB nat :=
  execute (fun rs => (size rs, rs)).

(** SELECT COUNT( * ) as count FROM session_memory WHERE expires_at > ? *)
Definition count_active (now : Z) : DB nat :=
  execute (fun rs => (size (filter (fun kr => (now < expires_at kr.2)%Z) rs), rs)).

(** DELETE FROM session_memory *)
Definition delete_all : DB unit :=
  execute (fun rs => (tt, ∅)).

End Sql.

Notation "x <- m ;; k" := (Sql.bind m (fun x => k))
  (at level 90, m at next level, right associativity).
Notation "m ;;; k" := (Sql.bind m (fun _ => k))
  (at level 90, right associativity).

(** ** MemoryManager ([memory_manager.py]) *)

Module MemoryManager.

Section WithConfig.
Variable config : Config.

Definition new_entry (now : Z) (patient_id clinician_id : option string)
    (action : string) : HistoryEntry :=
  {| entry_timestamp := now;
     entry_action := action;
     entry_patient_id := patient_id;
     entry_clinician_id := clinician_id |}.

(** The history list after the [if action:] block of the update branch. *)
Definition updated_history (now : Z) (patient_id clinician_id action : option string)
    (conversation_history : list HistoryEntry) : list HistoryEntry :=
  match action with
  | Some a =>
      if py_true action then
        let h := conversation_history ++ [new_entry now patient_id clinician_id a] in
        if (MAX_CONVERSATION_HISTORY config <? Z.of_nat (length h))%Z
        then py_slice_from (- MAX_CONVERSATION_HISTORY config) h
        else h
      else conversation_history
  | None => conversation_history
  end.

(** The history list of a new session. *)
Definition initial_history (now : Z) (patient_id clinician_id action : option string)
    : list HistoryEntry :=
  match action with
  | Some a => if py_true action then [new_entry now patient_id clinician_id a] else []
  | None => []
  end.

Definition remember (now : Z) (session_id : string)
    (patient_id clinician_id action : option string) : Conn -> bool * Conn :=
  Sql.try_except
    (let expires_at := (now + hours (MEMORY_DURATION_HOURS config))%Z in
     existing <- Sql.select_history session_id ;;
     match existing with
     | Some conversation_history =>
         Sql.update_session clinician_id patient_id action
           (updated_history now patient_id clinician_id action conversation_history)
           expires_at session_id
     | None =>
         Sql.insert_session session_id clinician_id patient_id action
           (initial_history now patient_id clinician_id action)
           expires_at now
     end ;;;
     Sql.commit ;;;
     Sql.ret true)
    (fun _ => false).

Definition recall (now : Z) (session_id : string) : Conn -> option Row * Conn :=
  Sql.try_except
    (row <- Sql.select_active session_id now ;;
     Sql.ret row)
    (fun _ => None).

Definition forget (session_id : string) : Conn -> bool * Conn :=
  Sql.try_except
    (Sql.delete_session session_id ;;;
     Sql.commit ;;;
     Sql.ret true)
    (fun _ => false).

Definition cleanup_expired_sessions (now : Z) : Conn -> nat * Conn :=
  Sql.try_except
    (deleted_count <- Sql.delete_expired now ;;
     Sql.commit ;;;
     Sql.ret deleted_count)
    (fun _ => 0).

Definition close (c : Conn) : Conn := {| rows := rows c; closed := true |}.

(** The helper methods: each is one [recall]. *)
Definition is_expired (now : Z) (session_id : string) (c : Conn) : bool * Conn :=
  let '(memory, c) := recall now session_id c in
  (match memory with None => true | Some _ => false end, c).

Definition get_last_patient (now : Z) (session_id : string) (c : Conn)
    : option string * Conn :=
  let '(memory, c) := recall now session_id c in
  (match memory with Some row => last_patient_id row | None => None end, c).

Definition get_last_clinician (now : Z) (session_id : string) (c : Conn)
    : option string * Conn :=
  let '(memory, c) := recall now session_id c in
  (match memory with Some row => Schema.clinician_id row | None => None end, c).

Definition get_conversation_history (now : Z) (session_id : string) (c : Conn)
    : list HistoryEntry * Conn :=
  let '(memory, c) := recall now session_id c in
  (match memory with Some row => conversation_history row | None => [] end, c).

Definition get_active_sessions_count (now : Z) : Conn -> nat * Conn :=
  Sql.try_except
    (count <- Sql.count_active now ;;
     Sql.ret count)
    (fun _ => 0).

Definition clear_all_memory : Conn -> bool * Conn :=
  Sql.try_except
    (Sql.delete_all ;;;
     Sql.commit ;;;
     Sql.ret true)
    (fun _ => false).

(** The dictionary of [get_statistics] without its ['database_path'] entry
    (the path is not part of this model); [None] is the empty dictionary
    returned on a storage error. *)
Record Statistics := {
  total_sessions : nat;
  active_sessions : nat;
  expired_sessions : Z;
  memory_duration_hours : Z
}.

Definition get_statistics (now : Z) : Conn -> option Statistics * Conn :=
  Sql.try_except
    (total <- Sql.count_all ;;
     active <- Sql.count_active now ;;
     Sql.ret (Some {| total_sessions := total;
                      active_sessions := active;
                      expired_sessions := (Z.of_nat total - Z.of_nat active)%Z;
                      memory_duration_hours := MEMORY_DURATION_HOURS config |}))
    (fun _ => None).

End WithConfig.

End MemoryManager.

(** ** JSON values and dictionaries *)

Inductive value :=
| VNone
| VBool (b : bool)
| VInt (z : Z)
| VStr (s : string)
| VList (l : list value)
| VDict (d : gmap string value).

Abbreviation dict := (gmap string value).

(** Python truthiness. *)
Definition truthy (v : value) : bool :=
  match v with
  | VNone => false
  | VBool b => b
  | VInt z => negb (z =? 0)%Z
  | VStr s => negb (String.eqb s "")
  | VList l => match l with [] => false | _ => true end
  | VDict d => negb (Nat.eqb (size d) 0)
  end.

(** [d.get(k)] and [d.get(k, dflt)]. *)
Definition get (d : dict) (k : string) : value := default VNone (d !! k).
Definition get_default (d : dict) (k : string) (dflt : value) : value :=
  default dflt (d !! k).

(** [v == s] for a string literal [s]. *)
Definition is_str (s : string) (v : value) : bool :=
  match v with
  | VStr s' => String.eqb s' s
  | _ => false
  end.

Definition opt_value (o : option string) : value :=
  match o with
  | Some s => VStr s
  | None => VNone
  end.

(** [utils.handle_error(e, context)] *)
Definition handle_error (error error_type context : string) : dict :=
  {[ "success" := VBool false;
     "error" := VStr (context +:+ ": " +:+ error);
     "error_type" := VStr error_type ]}.

(** ** Plans, validation results, responses *)

(** One planned call [{"tool": name, "params": {...}}]; [params = None] when
    the key is missing. *)
Record Step := {
  tool : string;
  params : option dict
}.

(** A validation dictionary.  Its scalar entries stay a dictionary; the one
    structured entry, ["corrected_sequence"], is kept as the step list it
    denotes ([None] for a missing or null entry). *)
Record Validation := {
  fields : dict;
  corrected_sequence : option (list Step)
}.

(** The ["reason"] texts of [FilterAgent.handle_retry]. *)
Inductive RetryReason :=
| CriticalNoRetry              (* "Critical violations cannot be retried. Requires admin review." *)
| MaxRetriesExceeded (max : nat) (* f"Maximum retry attempts ({max}) exceeded." *)
| NoCorrection.                (* "Unable to generate valid correction." *)

(** The dictionary returned by [FilterAgent.handle_retry]. *)
Record RetryInfo := {
  allow_retry : bool;
  reason : option RetryReason;
  corrected_request : option (list Step);
  retry_number : option nat
}.

Inductive Message :=
| Literal (s : string)
| PolicyViolation (explanation : value).  (* f"Policy violation: {explanation}" *)

(** What [process_request] returns: [_format_response], [_error_response]
    or [utils.handle_error]. *)
Inductive Response :=
| Formatted (success : value) (session_token : option string)
    (executed_sequence : list Step) (results : list dict)
    (validation : Validation) (message : string)
| Rejected (error : Message) (violation_info : option Validation)
    (session_token : option string)
| Crashed (error : dict).

(** What an LLM call followed by [json.loads] gives. *)
Inductive reply (A : Type) :=
| Parsed (a : A)                          (* the expected JSON *)
| BadJSON (error : string)                (* json.JSONDecodeError *)
| Failed (error error_type : string).     (* any other exception *)
Arguments Parsed {A} a.
Arguments BadJSON {A} error.
Arguments Failed {A} error error_type.

(** Calls that leave the process, in call order (observation only). *)
Inductive Event :=
| EvToken (token : option string)
| EvRecall (key : string)
| EvPlan (clinician_id patient_id : option string) (token : string)
| EvValidatePlanned (sequence : list Step)
| EvConfirm (answer : bool)
| EvCorrect (sequence : list Step)
| EvInvoke (tool : string) (params : dict)
| EvValidateExecuted (sequence : list Step) (results : list dict)
| EvRemember (key : string).

Definition is_invoke (e : Event) : bool :=
  match e with EvInvoke _ _ => true | _ => false end.
Definition is_validate_planned (e : Event) : bool :=
  match e with EvValidatePlanned _ => true | _ => false end.
Definition is_validate_executed (e : Event) : bool :=
  match e with EvValidateExecuted _ _ => true | _ => false end.
Definition is_correct (e : Event) : bool :=
  match e with EvCorrect _ => true | _ => false end.
Definition is_confirm (e : Event) : bool :=
  match e with EvConfirm _ => true | _ => false end.
Definition is_memory_or_plan (e : Event) : bool :=
  match e with EvRecall _ | EvRemember _ | EvPlan _ _ _ => true | _ => false end.

(** A memory access under a key other than [token]. *)
Definition is_memory_access_not_under (token : string) (e : Event) : bool :=
  match e with
  | EvRecall key | EvRemember key => negb (String.eqb key token)
  | _ => false
  end.

Definition count (p : Event -> bool) (evs : list Event) : nat :=
  length (List.filter p evs).

(** ** The world outside the orchestrator

    [D] is what the registered operations persist (records, audit trail,
    reports); [X] is everything else outside the process: the LLM service,
    the operator's console, the clock, the violations log.  The filter agent
    and the planner reach [X] only; operations may reach both. *)

Section Orchestrator.
Context {D X : Type}.

Definition Tool : Type := dict -> D -> X -> outcome dict * D * X.

Record Env := {
  (** [self.tools] *)
  tools : gmap string Tool;
  (** [token_generator_tool()]: the token, or [None] on failure *)
  token_generator_tool : X -> option string * X;
  (** [datetime.utcnow()] *)
  utcnow : X -> Z;
  (** the planner: query, clinician, patient, session token *)
  plan_oracle : string -> option string -> option string -> string ->
                X -> reply (list Step) * X;
  (** the filter agent's model, once per kind of question *)
  validate_oracle : list Step -> dict -> X -> reply Validation * X;
  post_oracle : list Step -> list dict -> X -> reply Validation * X;
  correct_oracle : list Step -> Validation -> X -> option (list Step) * X;
  (** [utils.get_user_confirmation(action)] *)
  get_user_confirmation : value -> X -> bool * X;
  (** [utils.log_violation(violation_type, description, ...)] *)
  log_violation : value -> value -> X -> X
}.

(** The process: the two singletons' fields, and the world. *)
Record State := {
  data : D;
  ext : X;
  violation_count : nat;                   (* FilterAgent *)
  retry_count : nat;                       (* FilterAgent *)
  current_session_token : option string;   (* RootAgent *)
  memory : Conn;                           (* MemoryManager *)
  events : list Event
}.

Definition with_world (d : D) (x : X) (st : State) : State :=
  {| data := d; ext := x;
     violation_count := violation_count st; retry_count := retry_count st;
     current_session_token := current_session_token st;
     memory := memory st; events := events st |}.

Definition with_ext (x : X) (st : State) : State := with_world (data st) x st.

Definition with_counters (v r : nat) (st : State) : State :=
  {| data := data st; ext := ext st;
     violation_count := v; retry_count := r;
     current_session_token := current_session_token st;
     memory := memory st; events := events st |}.

Definition with_token (t : option string) (st : State) : State :=
  {| data := data st; ext := ext st;
     violation_count := violation_count st; retry_count := retry_count st;
     current_session_token := t;
     memory := memory st; events := events st |}.

Definition with_memory (c : Conn) (st : State) : State :=
  {| data := data st; ext := ext st;
     violation_count := violation_count st; retry_count := retry_count st;
     current_session_token := current_session_token st;
     memory := c; events := events st |}.

Definition emit (e : Event) (st : State) : State :=
  {| data := data st; ext := ext st;
     violation_count := violation_count st; retry_count := retry_count st;
     current_session_token := current_session_token st;
     memory := memory st; events := events st ++ [e] |}.

Variable config : Config.
Variable env : Env.

(** *** FilterAgent ([filter.py]) *)

Definition decode_error_validation : Validation :=
  {| fields := {[ "valid" := VBool false;
                  "violation_type" := VStr "validation_error";
                  "severity" := VStr "error";
                  "explanation" := VStr "Filter agent produced invalid response format";
                  "allow_retry" := VBool false ]};
     corrected_sequence := None |}.

Definition error_validation (error error_type context : string) : Validation :=
  {| fields := handle_error error error_type context;
     corrected_sequence := None |}.

Definition validate_planned_execution (planned_sequence : list Step)
    (context : dict) (st : State) : Validation * State :=
  let '(r, x) := validate_oracle env planned_sequence context (ext st) in
  let st := emit (EvValidatePlanned planned_sequence) (with_ext x st) in
  match r with
  | Parsed validation_result =>
      if negb (truthy (get (fields validation_result) "valid")) then
        let st := with_counters (violation_count st + 1) (retry_count st) st in
        let x := log_violation env
                   (get_default (fields validation_result) "violation_type" (VStr "unknown"))
                   (get_default (fields validation_result) "explanation" (VStr "Unknown violation"))
                   (ext st) in
        (validation_result, with_ext x st)
      else (validation_result, st)
  | BadJSON _ => (decode_error_validation, st)
  | Failed e t => (error_validation e t "validate_planned_execution", st)
  end.

Definition validate_execution_result (executed_sequence : list Step)
    (results : list dict) (st : State) : Validation * State :=
  let '(r, x) := post_oracle env executed_sequence results (ext st) in
  let st := emit (EvValidateExecuted executed_sequence results) (with_ext x st) in
  match r with
  | Parsed validation_result =>
      if negb (truthy (get (fields validation_result) "valid")) then
        let x := log_violation env
                   (get_default (fields validation_result) "violation_type" (VStr "unknown"))
                   (get_default (fields validation_result) "explanation" (VStr "Unknown violation"))
                   (ext st) in
        (validation_result, with_ext x st)
      else (validation_result, st)
  | BadJSON e => (error_validation e "JSONDecodeError" "validate_execution_result", st)
  | Failed e t => (error_validation e t "validate_execution_result", st)
  end.

Definition generate_corrected_sequence (invalid_sequence : list Step)
    (violation_info : Validation) (st : State) : option (list Step) * State :=
  let '(corrected, x) := correct_oracle env invalid_sequence violation_info (ext st) in
  (corrected, emit (EvCorrect invalid_sequence) (with_ext x st)).

(** [not corrected] for an optional list. *)
Definition no_sequence (corrected : option (list Step)) : bool :=
  match corrected with
  | Some (_ :: _) => false
  | _ => true
  end.

Definition handle_retry (sequence : list Step) (violation_info : Validation)
    (st : State) : RetryInfo * State :=
  let severity := get_default (fields violation_info) "severity" (VStr "error") in
  if is_str "critical" severity then
    ({| allow_retry := false;
        reason := Some CriticalNoRetry;
        corrected_request := None; retry_number := None |}, st)
  else if (FILTER_MAX_RETRIES config <=? retry_count st)%nat then
    ({| allow_retry := false;
        reason := Some (MaxRetriesExceeded (FILTER_MAX_RETRIES config));
        corrected_request := None; retry_number := None |}, st)
  else
    let '(corrected, st) := generate_corrected_sequence sequence violation_info st in
    if no_sequence corrected then
      ({| allow_retry := false;
          reason := Some NoCorrection;
          corrected_request := None; retry_number := None |}, st)
    else
      let st := with_counters (violation_count st) (retry_count st + 1) st in
      ({| allow_retry := true;
          reason := None;
          corrected_request := corrected;
          retry_number := Some (retry_count st) |}, st).

Definition reset_counters (st : State) : State := with_counters 0 0 st.

(** *** RootAgent ([root.py]) *)

Definition token_value (st : State) : value := opt_value (current_session_token st).

(** [params.get("token_id") in ["SESSION_TOKEN", "TOKEN"]] *)
Definition is_placeholder (v : value) : bool :=
  is_str "SESSION_TOKEN" v || is_str "TOKEN" v.

(** The two [if tool_name == "log_access_to_audit_trail" ...] assignments. *)
Definition normalize_params (tool_name : string) (token : value) (params : dict) : dict :=
  let params :=
    if String.eqb tool_name "log_access_to_audit_trail"
       && negb (bool_decide (is_Some (params !! "token_id")))
    then <["token_id" := token]> params else params in
  if String.eqb tool_name "log_access_to_audit_trail"
     && is_placeholder (get params "token_id")
  then <["token_id" := token]> params else params.

(** The condition under which the loop of [_execute_sequence] breaks after
    appending [result]. *)
Definition stops (tool_name : string) (result : dict) : bool :=
  if truthy (get result "success") then
    String.eqb tool_name "check_patient_consent_status"
    && negb (truthy (get_default result "consent_granted" (VBool true)))
  else true.

(** One iteration of the loop up to [results.append(result)]: the step as
    the in-place parameter assignments leave it, its result, the state. *)
Definition run_step (step : Step) (st : State) : Step * dict * State :=
  let tool_name := tool step in
  match tools env !! tool_name with
  | None =>
      (step,
       {[ "success" := VBool false;
          "error" := VStr ("Tool '" +:+ tool_name +:+ "' not found") ]},
       st)
  | Some tool_func =>
      let params' := normalize_params tool_name (token_value st) (default ∅ (params step)) in
      let '(out, d, x) := tool_func params' (data st) (ext st) in
      let result :=
        match out with
        | Return r => r
        | Raise e => {[ "success" := VBool false; "error" := VStr e ]}
        end in
      ({| tool := tool_name;
          params := match params step with Some _ => Some params' | None => None end |},
       result,
       emit (EvInvoke tool_name params') (with_world d x st))
  end.

(** [_execute_sequence]: the sequence after the in-place assignments, and
    the results. *)
Fixpoint _execute_sequence (sequence : list Step) (st : State)
    : list Step * list dict * State :=
  match sequence with
  | [] => ([], [], st)
  | step :: rest =>
      let '(step', result, st) := run_step step st in
      if stops (tool step) result then (step' :: rest, [result], st)
      else
        let '(rest', results, st) := _execute_sequence rest st in
        (step' :: rest', result :: results, st)
  end.

(** The stop condition as the design document words it: the result is not
    a success, or it is a success of the consent check that reports a
    denial. *)
Definition stop_condition (step : Step) (result : dict) : Prop :=
  truthy (get result "success") = false \/
  (truthy (get result "success") = true /\
   tool step = "check_patient_consent_status" /\
   truthy (get_default result "consent_granted" (VBool true)) = false).

(** Every step of [sequence] run in order, whatever the results: what the
    loop would do without its two [break]s. *)
Fixpoint invoke_all (sequence : list Step) (st : State)
    : list Step * list dict * State :=
  match sequence with
  | [] => ([], [], st)
  | step :: rest =>
      let '(step', result, st) := run_step step st in
      let '(rest', results, st) := invoke_all rest st in
      (step' :: rest', result :: results, st)
  end.

Definition _format_response (planned_sequence : list Step)
    (execution_results : list dict) (validation : Validation) (st : State) : Response :=
  let all_success :=
    forallb (fun r => truthy (get_default r "success" (VBool false))) execution_results in
  Formatted
    (if all_success then get_default (fields validation) "valid" (VBool true)
     else VBool false)
    (current_session_token st)
    planned_sequence
    execution_results
    validation
    (if all_success then "Request completed" else "Request completed with errors").

Definition _error_response (error_message : Message)
    (violation_info : option Validation) (st : State) : Response :=
  Rejected error_message violation_info (current_session_token st).

(** [{"valid": True, "retry": True}] *)
Definition retry_marker : Validation :=
  {| fields := {[ "valid" := VBool true; "retry" := VBool true ]};
     corrected_sequence := None |}.

Definition _handle_retry (original_plan : list Step) (validation : Validation)
    (context : dict) (st : State) : Response * State :=
  let '(consent, st) :=
    if FILTER_REQUIRE_USER_CONSENT config then
      let '(consent, x) :=
        get_user_confirmation env (get (fields validation) "violation_type") (ext st) in
      (consent, emit (EvConfirm consent) (with_ext x st))
    else (true, st) in
  if negb consent then
    (_error_response (Literal "User declined retry") (Some validation) st, st)
  else
    let '(corrected, st) :=
      if no_sequence (corrected_sequence validation) then
        let '(retry_info, st) := handle_retry original_plan validation st in
        (corrected_request retry_info, st)
      else (corrected_sequence validation, st) in
    match corrected with
    | Some ((_ :: _) as corrected) =>
        let '(corrected, execution_results, st) := _execute_sequence corrected st in
        (_format_response corrected execution_results retry_marker st, st)
    | _ =>
        (_error_response (Literal "Unable to generate corrected sequence") None st, st)
    end.

(** [request_context]: the caller's [context] entries override the four
    built here. *)
Definition request_context (user_query : string) (clinician_id patient_id : option string)
    (context : dict) (st : State) : dict :=
  context ∪ {[ "user_query" := VStr user_query;
               "clinician_id" := opt_value clinician_id;
               "patient_id" := opt_value patient_id;
               "session_token" := token_value st ]}.

(** Step 2 of [process_request]: the ids after context recall. *)
Definition recall_context (token : string) (clinician_id patient_id : option string)
    (st : State) : option string * option string * State :=
  if MEMORY_ENABLED config && (negb (py_true patient_id) || negb (py_true clinician_id)) then
    let '(recalled, c) := MemoryManager.recall (utcnow env (ext st)) token (memory st) in
    let st := emit (EvRecall token) (with_memory c st) in
    match recalled with
    | Some row =>
        let patient_id :=
          if negb (py_true patient_id) && py_true (last_patient_id row)
          then last_patient_id row else patient_id in
        let clinician_id :=
          if negb (py_true clinician_id) && py_true (Schema.clinician_id row)
          then Schema.clinician_id row else clinician_id in
        (clinician_id, patient_id, st)
    | None => (clinician_id, patient_id, st)
    end
  else (clinician_id, patient_id, st).

(** Step 7 of [process_request]. *)
Definition update_memory (token user_query : string) (clinician_id patient_id : option string)
    (st : State) : State :=
  if MEMORY_ENABLED config && py_true patient_id && py_true clinician_id then
    let '(_, c) :=
      MemoryManager.remember config (utcnow env (ext st)) token
        patient_id clinician_id (Some user_query) (memory st) in
    emit (EvRemember token) (with_memory c st)
  else st.

Definition process_request (user_query : string) (clinician_id patient_id : option string)
    (context : dict) (st : State) : Response * State :=
  (* 1. session token *)
  let '(token_result, x) := token_generator_tool env (ext st) in
  let st := emit (EvToken token_result) (with_ext x st) in
  match token_result with
  | None => (_error_response (Literal "Failed to generate session token") None st, st)
  | Some token =>
      let st := with_token (Some token) st in
      (* 2. context recall *)
      let '(clinician_id, patient_id, st) := recall_context token clinician_id patient_id st in
      (* 3. planning *)
      let '(plan, x) := plan_oracle env user_query clinician_id patient_id token (ext st) in
      let st := emit (EvPlan clinician_id patient_id token) (with_ext x st) in
      match plan with
      | Failed e t => (Crashed (handle_error e t "process_request"), st)
      | BadJSON _ =>
          (_error_response (Literal "Agent failed to generate a valid plan") None st, st)
      | Parsed planned_sequence =>
          (* 4. policy validation *)
          let ctx := request_context user_query clinician_id patient_id context st in
          let '(validation, st) := validate_planned_execution planned_sequence ctx st in
          if negb (truthy (get (fields validation) "valid")) then
            if truthy (get (fields validation) "allow_retry") then
              _handle_retry planned_sequence validation ctx st
            else
              (_error_response (PolicyViolation (get (fields validation) "explanation"))
                 (Some validation) st, st)
          else
            (* 5. execution *)
            let '(planned_sequence, execution_results, st) :=
              _execute_sequence planned_sequence st in
            (* 6. post-execution validation *)
            let '(post_validation, st) :=
              validate_execution_result planned_sequence execution_results st in
            (* 7. memory update *)
            let st := update_memory token user_query clinician_id patient_id st in
            (_format_response planned_sequence execution_results post_validation st, st)
      end
  end.

End Orchestrator.

Arguments Env : clear implicits.
Arguments State : clear implicits.
Arguments Tool : clear implicits.

(** ** Runs of the store, for stating its invariants *)

Module StoreRuns.

Record RememberCall := {
  call_now : Z;
  call_session : string;
  call_patient : option string;
  call_clinician : option string;
  call_action : option string
}.

Inductive StoreOp :=
| OpRemember (k : RememberCall)
| OpRecall (now : Z) (sid : string)
| OpForget (sid : string)
| OpCleanup (now : Z)
| OpClose.

Section WithConfig.
Variable config : Config.

Definition run_call (c : Conn) (k : RememberCall) : Conn :=
  (MemoryManager.remember config (call_now k) (call_session k)
     (call_patient k) (call_clinician k) (call_action k) c).2.

Definition run_calls (ks : list RememberCall) (c : Conn) : Conn :=
  foldl run_call c ks.

Definition run_op (c : Conn) (o : StoreOp) : Conn :=
  match o with
  | OpRemember k => run_call c k
  | OpRecall now sid => (MemoryManager.recall now sid c).2
  | OpForget sid => (MemoryManager.forget sid c).2
  | OpCleanup now => (MemoryManager.cleanup_expired_sessions now c).2
  | OpClose => MemoryManager.close c
  end.

Definition run_ops (os : list StoreOp) (c : Conn) : Conn := foldl run_op c os.

End WithConfig.

(** The history entry a call appends, if it appends one to session [sid]. *)
Definition appends (sid : string) (k : RememberCall) : list HistoryEntry :=
  match call_action k with
  | Some a =>
      if py_true (call_action k) && String.eqb (call_session k) sid
      then [MemoryManager.new_entry (call_now k) (call_patient k) (call_clinician k) a]
      else []
  | None => []
  end.

(** All entries a run of calls appends to session [sid], in call order. *)
Definition appended (sid : string) (ks : list RememberCall) : list HistoryEntry :=
  concat (map (appends sid) ks).

(** The last [n] elements of a list, in their order. *)
Definition lastn {A} (n : nat) (l : list A) : list A := drop (length l - n) l.

(** The stored history of a session, empty when there is no row. *)
Definition stored (sid : string) (c : Conn) : list HistoryEntry :=
  default [] (conversation_history <$> rows c !! sid).

(** Every stored history is within the configured bound. *)
Definition bounded (config : Config) (c : Conn) : Prop :=
  forall sid r,
    rows c !! sid = Some r ->
    (Z.of_nat (length (conversation_history r)) <= MAX_CONVERSATION_HISTORY config)%Z.


(** What every row written by [remember] satisfies: it is stored under its
    own [session_id], its history entries have a non-empty action, and a row
    with a history has a last action. *)
Definition well_formed_row (sid : string) (r : Row) : Prop :=
  session_id r = sid /\
  Forall (fun e => entry_action e <> "") (conversation_history r) /\
  (conversation_history r <> [] -> is_Some (last_action r)).

Definition well_formed (c : Conn) : Prop :=
  forall sid r, rows c !! sid = Some r -> well_formed_row sid r.

(** Seven appending calls for one session, with a call for another session
    and a call without an action in between. *)
Definition call (now : Z) (sid : string) (action : option string) : RememberCall :=
  {| call_now := now; call_session := sid;
     call_patient := Some "PT_0001"; call_clinician := Some "DR_0001";
     call_action := action |}.

Definition seven_calls : list RememberCall :=
  [ call 1 "S1" (Some "a1"); call 2 "S1" (Some "a2"); call 3 "S2" (Some "b1");
    call 4 "S1" (Some "a3"); call 5 "S1" None; call 6 "S1" (Some "a4");
    call 7 "S1" (Some "a5"); call 8 "S1" (Some "a6"); call 9 "S1" (Some "a7") ].

End StoreRuns.

(** [RootAgent._register_tools] *)
Definition _register_tools {D X}
    (token_generator_tool verify_credentials_tool check_consent_tool
     fetch_record_tool audit_logger_tool record_appender_tool
     pdf_generator_tool report_summarizer_tool : Tool D X) : gmap string (Tool D X) :=
  list_to_map [
    ("token_generator", token_generator_tool);
    ("verify_clinician_credentials", verify_credentials_tool);
    ("check_patient_consent_status", check_consent_tool);
    ("fetch_patient_record", fetch_record_tool);
    ("log_access_to_audit_trail", audit_logger_tool);
    ("record_appender", record_appender_tool);
    ("pdf_generator", pdf_generator_tool);
    ("report_summarizer", report_summarizer_tool) ].

(** ** A concrete world, for running the orchestrator

    The persisted data is the list of operations that ran; the outside is
    the list of tokens still to be minted.  The LLM's answers are fixed by a
    script. *)

Module Scenario.

Record Script := {
  the_plan : list Step;
  verdict : Validation;
  post_verdict : reply Validation;
  correction : option (list Step);
  confirm : bool
}.

(** An operation that succeeds and leaves its name behind. *)
Definition ok_tool (name : string) : Tool (list string) (list string) :=
  fun _ d x => (Return {[ "success" := VBool true ]}, d ++ [name], x).

(** A consent check that succeeds and reports a denial. *)
Definition denying_consent_tool : Tool (list string) (list string) :=
  fun _ d x =>
    (Return {[ "success" := VBool true; "consent_granted" := VBool false ]},
     d ++ ["check_patient_consent_status"], x).

(** An operation that raises. *)
Definition raising_tool (name : string) : Tool (list string) (list string) :=
  fun _ d x => (Raise "boom", d ++ [name], x).

Definition registry : gmap string (Tool (list string) (list string)) :=
  _register_tools
    (ok_tool "token_generator")
    (ok_tool "verify_clinician_credentials")
    (ok_tool "check_patient_consent_status")
    (ok_tool "fetch_patient_record")
    (ok_tool "log_access_to_audit_trail")
    (ok_tool "record_appender")
    (ok_tool "pdf_generator")
    (ok_tool "report_summarizer").

(** The registry with a consent check that denies, and with a record fetch
    that raises. *)
Definition registry_denying : gmap string (Tool (list string) (list string)) :=
  <["check_patient_consent_status" := denying_consent_tool]> registry.

Definition registry_raising : gmap string (Tool (list string) (list string)) :=
  <["fetch_patient_record" := raising_tool "fetch_patient_record"]> registry.

Definition scripted_env (tools : gmap string (Tool (list string) (list string)))
    (s : Script) : Env (list string) (list string) :=
  {| tools := tools;
     token_generator_tool := fun x =>
       match x with
       | t :: x' => (Some t, x')
       | [] => (None, [])
       end;
     utcnow := fun _ => 1000%Z;
     plan_oracle := fun _ _ _ _ x => (Parsed (the_plan s), x);
     validate_oracle := fun _ _ x => (Parsed (verdict s), x);
     post_oracle := fun _ _ x => (post_verdict s, x);
     correct_oracle := fun _ _ x => (correction s, x);
     get_user_confirmation := fun _ x => (confirm s, x);
     log_violation := fun _ _ x => x |}.

Definition boot (tokens : list string) : State (list string) (list string) :=
  {| data := []; ext := tokens;
     violation_count := 0; retry_count := 0;
     current_session_token := None;
     memory := empty_conn; events := [] |}.

Definition step_of (name : string) (ps : list (string * value)) : Step :=
  {| tool := name; params := Some (list_to_map ps) |}.

Definition verify := step_of "verify_clinician_credentials" [("clinician_id", VStr "DR_0001")].
Definition consent := step_of "check_patient_consent_status"
  [("patient_id", VStr "PT_0001"); ("clinician_id", VStr "DR_0001")].
Definition fetch := step_of "fetch_patient_record" [("patient_id", VStr "PT_0001")].
Definition audit := step_of "log_access_to_audit_trail"
  [("clinician_id", VStr "DR_0001"); ("patient_id", VStr "PT_0001");
   ("action", VStr "fetch_record"); ("success", VBool true)].

Definition compliant_plan : list Step := [verify; consent; fetch; audit].

Definition verdict_ok : Validation :=
  {| fields := {[ "valid" := VBool true; "severity" := VStr "none" ]};
     corrected_sequence := None |}.

(** A critical violation that the oracle nevertheless marks retryable and
    for which it supplies the corrected sequence itself. *)
Definition verdict_critical : Validation :=
  {| fields := {[ "valid" := VBool false;
                  "violation_type" := VStr "skipped_steps";
                  "severity" := VStr "critical";
                  "explanation" := VStr "Record fetched without verification or consent";
                  "allow_retry" := VBool true ]};
     corrected_sequence := Some compliant_plan |}.

(** An ordinary violation without a corrected sequence: the correction is
    asked of the filter agent. *)
Definition verdict_error : Validation :=
  {| fields := {[ "valid" := VBool false;
                  "violation_type" := VStr "skipped_steps";
                  "severity" := VStr "error";
                  "explanation" := VStr "Consent check skipped";
                  "allow_retry" := VBool true ]};
     corrected_sequence := None |}.

Definition verdict_post_invalid : Validation :=
  {| fields := {[ "valid" := VBool false;
                  "violation_type" := VStr "missing_audit";
                  "explanation" := VStr "Audit logging was not performed" ]};
     corrected_sequence := None |}.

Definition script_critical : Script :=
  {| the_plan := [fetch]; verdict := verdict_critical;
     post_verdict := Parsed verdict_post_invalid;
     correction := None; confirm := true |}.

(** The same critical violation without a corrected sequence in the verdict:
    the correction is asked of the filter agent. *)
Definition script_critical_bare : Script :=
  {| the_plan := [fetch];
     verdict := {| fields := fields verdict_critical; corrected_sequence := None |};
     post_verdict := Parsed verdict_post_invalid;
     correction := Some compliant_plan; confirm := true |}.

Definition script_error : Script :=
  {| the_plan := [verify; fetch]; verdict := verdict_error;
     post_verdict := Parsed verdict_post_invalid;
     correction := Some [verify; consent; fetch]; confirm := true |}.

Definition script_ok : Script :=
  {| the_plan := compliant_plan; verdict := verdict_ok;
     post_verdict := Parsed verdict_ok;
     correction := None; confirm := true |}.

(** [process_request] in the scripted world, keeping only the state. *)
Definition serve (s : Script) (query : string) (clinician patient : option string)
    (st : State (list string) (list string)) : State (list string) (list string) :=
  (process_request config_template (scripted_env registry s) query clinician patient ∅ st).2.

(** Three requests by different clinicians, each granted a retry by the
    filter agent, and a fourth token left to mint. *)
Definition after_three_retries : State (list string) (list string) :=
  serve script_error "Fetch PT_0003" (Some "DR_0003") (Some "PT_0003")
    (serve script_error "Fetch PT_0002" (Some "DR_0002") (Some "PT_0002")
       (serve script_error "Fetch PT_0001" (Some "DR_0001") (Some "PT_0001")
          (boot ["T1"; "T2"; "T3"; "T4"]))).

(** The states of one request for PT_0001 by DR_0001, up to the verdict. *)
Definition minted : State (list string) (list string) :=
  with_token (Some "T1") (emit (EvToken (Some "T1")) (with_ext [] (boot ["T1"]))).

Definition asked_plan : State (list string) (list string) :=
  emit (EvPlan (Some "DR_0001") (Some "PT_0001") "T1") (with_ext [] minted).

Definition judged (s : Script) : State (list string) (list string) :=
  (validate_planned_execution (scripted_env registry s) (the_plan s)
     (request_context "Fetch PT_0001" (Some "DR_0001") (Some "PT_0001") ∅ asked_plan)
     asked_plan).2.

(** The state once the operator has confirmed the retry, and the state
    once the filter agent has answered the request for a correction. *)
Definition confirmed (s : Script) : State (list string) (list string) :=
  emit (EvConfirm true) (with_ext [] (judged s)).

Definition corrected_by_agent (s : Script) : State (list string) (list string) :=
  (handle_retry config_template (scripted_env registry s) (the_plan s) (verdict s)
     (confirmed s)).2.

(** A world whose filter model cannot be reached when asked for the
    verdict on a plan. *)
Definition unreachable_validator_env : Env (list string) (list string) :=
  {| tools := registry;
     token_generator_tool := token_generator_tool (scripted_env registry script_ok);
     utcnow := utcnow (scripted_env registry script_ok);
     plan_oracle := plan_oracle (scripted_env registry script_ok);
     validate_oracle := fun _ _ x => (Failed "timed out" "TimeoutError", x);
     post_oracle := post_oracle (scripted_env registry script_ok);
     correct_oracle := correct_oracle (scripted_env registry script_ok);
     get_user_confirmation := get_user_confirmation (scripted_env registry script_ok);
     log_violation := log_violation (scripted_env registry script_ok) |}.

(** A compliant plan judged valid, with a filter model that cannot be
    reached when asked for the verdict on the execution. *)
Definition script_post_unreachable : Script :=
  {| the_plan := compliant_plan; verdict := verdict_ok;
     post_verdict := Failed "timed out" "TimeoutError";
     correction := None; confirm := true |}.

End Scenario.

(** ** Runs of requests on one agent *)

Record Request := {
  req_query : string;
  req_clinician : option string;
  req_patient : option string;
  req_context : dict
}.

Definition serve_request {D X} (config : Config) (env : Env D X)
    (st : State D X) (r : Request) : State D X :=
  (process_request config env (req_query r) (req_clinician r) (req_patient r)
     (req_context r) st).2.

Definition serve_requests {D X} (config : Config) (env : Env D X)
    (rs : list Request) (st : State D X) : State D X :=
  foldl (serve_request config env) st rs.

(** ** Helpers of [utils.py] and the token generator *)

Module Utils.

(** [s.split(sep)] for a separator of one character. *)
Fixpoint split (sep : Ascii.ascii) (s : string) : list string :=
  match s with
  | EmptyString => [EmptyString]
  | String c s' =>
      if Ascii.eqb c sep then EmptyString :: split sep s'
      else
        match split sep s' with
        | part :: parts => String c part :: parts
        | [] => [String c EmptyString]
        end
  end.

(** [c in s] *)
Fixpoint has_char (c : Ascii.ascii) (s : string) : bool :=
  match s with
  | EmptyString => false
  | String c' s' => Ascii.eqb c' c || has_char c s'
  end.

Section WithLibrary.
(** [str.isdigit], a library function (it accepts the digits of every
    script, which a byte string does not single out). *)
Variable isdigit : string -> bool.
(** [datetime.fromisoformat] as an instant; [None] when it raises or when
    the text carries an offset (the comparison with [datetime.now()] then
    raises). *)
Variable fromisoformat : string -> option Z.

Definition validate_id_format (id_string expected_prefix : string) : bool :=
  if String.eqb id_string "" then false
  else
    match split "_"%char id_string with
    | [prefix; number] => String.eqb prefix expected_prefix && isdigit number
    | _ => false
    end.

Definition validate_clinician_id (clinician_id : string) : bool :=
  validate_id_format clinician_id "DR".

Definition validate_patient_id (patient_id : string) : bool :=
  validate_id_format patient_id "PT".

Definition validate_token_format (TOKEN_PREFIX token : string) : bool :=
  if String.eqb token "" then false
  else String.prefix TOKEN_PREFIX token
       && (String.length TOKEN_PREFIX <? String.length token)%nat.

(** [find_by_id]: the first item whose [id_field] is the string [id_value]. *)
Fixpoint find_by_id (data : list dict) (id_field id_value : string) : option dict :=
  match data with
  | [] => None
  | item :: data' =>
      if is_str id_value (get item id_field) then Some item
      else find_by_id data' id_field id_value
  end.

(** The loop of [get_consent_record] over the loaded consent records. *)
Fixpoint get_consent_record (consents : list dict) (patient_id clinician_id : string)
    : option dict :=
  match consents with
  | [] => None
  | consent :: consents' =>
      if is_str patient_id (get consent "patient_id")
         && is_str clinician_id (get consent "clinician_id")
      then Some consent
      else get_consent_record consents' patient_id clinician_id
  end.

Definition is_consent_valid (now : Z) (consent : dict) : bool :=
  if negb (is_str "active" (get consent "status")) then false
  else
    let expiry_str := get consent "expiry_date" in
    if negb (truthy expiry_str) then false
    else
      match expiry_str with
      | VStr s =>
          match fromisoformat s with
          | Some expiry_date => (now <? expiry_date)%Z
          | None => false
          end
      | _ => false
      end.

End WithLibrary.

End Utils.

Module TokenGenerator.

(** [generate_session_token], given the random part and the timestamp text. *)
Definition generate_session_token (TOKEN_PREFIX random_part timestamp : string) : string :=
  TOKEN_PREFIX +:+ "_" +:+ random_part +:+ "_" +:+ timestamp.

End TokenGenerator.

(** ** JSON files ([utils.py]) *)

Module JsonFiles.

(** A file as [load_json_file] finds it. *)
Inductive File :=
| Missing
| Unreadable              (* present, but reading or decoding it raises *)
| Holds (data : value).

(** What happens when [save_json_file] writes. *)
Inductive WriteOutcome :=
| Written
| OpenFails               (* [open(filepath, 'w')] raises: the file is as before *)
| DumpFails.              (* [json.dump] raises after [open] has truncated the file *)

Definition load_json_file (f : File) : value :=
  match f with
  | Holds data => data
  | Missing | Unreadable => VList []
  end.

Definition save_json_file (w : WriteOutcome) (f : File) (data : value) : bool * File :=
  match w with
  | Written => (true, Holds data)
  | OpenFails => (false, f)
  | DumpFails => (false, Unreadable)
  end.

Definition append_to_json_array (w : WriteOutcome) (f : File) (new_item : dict)
    : bool * File :=
  let data := load_json_file f in
  let data := match data with VList l => l | _ => [] end in
  save_json_file w f (VList (data ++ [VDict new_item])).

(** [details or {}] *)
Definition or_empty (details : option dict) : dict :=
  match details with
  | Some d => if truthy (VDict d) then d else ∅
  | None => ∅
  end.

Definition audit_entry (timestamp clinician_id patient_id action : string)
    (success : bool) (details : option dict) (token_id : option string) : dict :=
  {[ "timestamp" := VStr timestamp;
     "clinician_id" := VStr clinician_id;
     "patient_id" := VStr patient_id;
     "action" := VStr action;
     "success" := VBool success;
     "token_id" := opt_value token_id;
     "details" := VDict (or_empty details) ]}.

(** [utils.log_to_audit_trail], on the file [config.AUDIT_LOG]. *)
Definition log_to_audit_trail (w : WriteOutcome) (audit_log : File)
    (timestamp clinician_id patient_id action : string) (success : bool)
    (details : option dict) (token_id : option string) : bool * File :=
  append_to_json_array w audit_log
    (audit_entry timestamp clinician_id patient_id action success details token_id).

(** Appends that all get written, one after the other. *)
Definition append_all (f : File) (items : list dict) : File :=
  foldl (fun f item => (append_to_json_array Written f item).2) f items.

End JsonFiles.

(** ** The operations behind four registered tools

    The functions the tool wrappers call, over the loaded JSON files
    ([utils.load_json_file] gives the list, or the empty list on any
    error). *)

Module Tools.

(** [not d] for an optional dictionary. *)
Definition missing (d : option dict) : bool :=
  match d with
  | Some d => negb (truthy (VDict d))
  | None => true
  end.

Section WithLibrary.
Variable isdigit : string -> bool.
Variable fromisoformat : string -> option Z.
(** [str(v)] inside an f-string. *)
Variable py_str : value -> string.

Variable clinicians patients consents : list dict.

Definition verify_clinician_credentials (clinician_id : string) : dict :=
  if negb (Utils.validate_clinician_id isdigit clinician_id) then
    {[ "success" := VBool false; "verified" := VBool false;
       "error" := VStr "Invalid clinician ID format. Expected format: DR_XXXX";
       "clinician_id" := VStr clinician_id ]}
  else
    let clinician := Utils.find_by_id clinicians "clinician_id" clinician_id in
    if missing clinician then
      {[ "success" := VBool true; "verified" := VBool false;
         "error" := VStr ("Clinician " +:+ clinician_id +:+ " not found in database");
         "clinician_id" := VStr clinician_id ]}
    else
      let clinician := default ∅ clinician in
      if negb (truthy (get_default clinician "active" (VBool false))) then
        {[ "success" := VBool true; "verified" := VBool false;
           "error" := VStr ("Clinician " +:+ clinician_id +:+ " is inactive");
           "clinician_id" := VStr clinician_id;
           "clinician_name" := get clinician "full_name" ]}
      else
        {[ "success" := VBool true; "verified" := VBool true;
           "clinician_id" := VStr clinician_id;
           "clinician_name" := get clinician "full_name";
           "specialization" := get clinician "specialization";
           "department" := get clinician "department";
           "clearance_level" := get clinician "clearance_level";
           "license_number" := get clinician "license_number";
           "message" := VStr ("Credentials verified for "
                              +:+ py_str (get clinician "full_name")) ]}.

Definition check_patient_consent_status (now : Z) (patient_id clinician_id : string)
    : dict :=
  if negb (Utils.validate_patient_id isdigit patient_id) then
    {[ "success" := VBool false; "consent_granted" := VBool false;
       "error" := VStr "Invalid patient ID format. Expected format: PT_XXXX";
       "patient_id" := VStr patient_id; "clinician_id" := VStr clinician_id ]}
  else if negb (Utils.validate_clinician_id isdigit clinician_id) then
    {[ "success" := VBool false; "consent_granted" := VBool false;
       "error" := VStr "Invalid clinician ID format. Expected format: DR_XXXX";
       "patient_id" := VStr patient_id; "clinician_id" := VStr clinician_id ]}
  else
    let patient := Utils.find_by_id patients "patient_id" patient_id in
    if missing patient then
      {[ "success" := VBool true; "consent_granted" := VBool false;
         "error" := VStr ("Patient " +:+ patient_id +:+ " not found in database");
         "patient_id" := VStr patient_id; "clinician_id" := VStr clinician_id ]}
    else
      let clinician := Utils.find_by_id clinicians "clinician_id" clinician_id in
      if missing clinician then
        {[ "success" := VBool true; "consent_granted" := VBool false;
           "error" := VStr ("Clinician " +:+ clinician_id +:+ " not found in database");
           "patient_id" := VStr patient_id; "clinician_id" := VStr clinician_id ]}
      else
        let patient_name := get (default ∅ patient) "full_name" in
        let clinician_name := get (default ∅ clinician) "full_name" in
        let consent := Utils.get_consent_record consents patient_id clinician_id in
        if missing consent then
          {[ "success" := VBool true; "consent_granted" := VBool false;
             "error" := VStr ("No consent record found for patient " +:+ patient_id
                              +:+ " and clinician " +:+ clinician_id);
             "patient_id" := VStr patient_id; "patient_name" := patient_name;
             "clinician_id" := VStr clinician_id; "clinician_name" := clinician_name;
             "recommendation" := VStr "Patient must grant consent before access" ]}
        else
          let consent := default ∅ consent in
          if negb (Utils.is_consent_valid fromisoformat now consent) then
            let status := get_default consent "status" (VStr "unknown") in
            let expiry := get_default consent "expiry_date" (VStr "unknown") in
            {[ "success" := VBool true; "consent_granted" := VBool false;
               "error" := VStr ("Consent is " +:+ py_str status
                                +:+ " or expired (expiry: " +:+ py_str expiry +:+ ")");
               "patient_id" := VStr patient_id; "patient_name" := patient_name;
               "clinician_id" := VStr clinician_id; "clinician_name" := clinician_name;
               "consent_id" := get consent "consent_id";
               "consent_status" := status;
               "expiry_date" := expiry;
               "recommendation" := VStr "Patient must renew consent" ]}
          else
            {[ "success" := VBool true; "consent_granted" := VBool true;
               "patient_id" := VStr patient_id; "patient_name" := patient_name;
               "clinician_id" := VStr clinician_id; "clinician_name" := clinician_name;
               "consent_id" := get consent "consent_id";
               "consent_status" := get consent "status";
               "granted_date" := get consent "granted_date";
               "expiry_date" := get consent "expiry_date";
               "scope" := get consent "scope";
               "purpose" := get consent "purpose";
               "message" := VStr ("Consent granted: " +:+ py_str (get consent "scope")
                                  +:+ " access for " +:+ py_str (get consent "purpose")) ]}.

(** The dictionary built under [if fields:]. *)
Definition filter_fields (fields : list string) (patient_data : dict) : dict :=
  foldl (fun filtered_data field =>
           match patient_data !! field with
           | Some v => <[field := v]> filtered_data
           | None => filtered_data
           end)
        {[ "patient_id" := get patient_data "patient_id" ]}
        fields.

Definition fetch_patient_record (patient_id : string) (fields : option (list string))
    (include_sensitive : bool) : dict :=
  if negb (Utils.validate_patient_id isdigit patient_id) then
    {[ "success" := VBool false;
       "error" := VStr "Invalid patient ID format. Expected format: PT_XXXX";
       "patient_id" := VStr patient_id ]}
  else
    let patient := Utils.find_by_id patients "patient_id" patient_id in
    if missing patient then
      {[ "success" := VBool false;
         "error" := VStr ("Patient " +:+ patient_id +:+ " not found in database");
         "patient_id" := VStr patient_id ]}
    else
      let patient_data := default ∅ patient in
      let patient_data :=
        match fields with
        | Some ((_ :: _) as fields) => filter_fields fields patient_data
        | _ => patient_data
        end in
      let patient_data :=
        if negb include_sensitive
        then <["_note" := VStr "Sensitive data filtering applied"]> patient_data
        else patient_data in
      {[ "success" := VBool true;
         "patient_id" := VStr patient_id;
         "patient_data" := VDict patient_data;
         "message" := VStr ("Record retrieved for "
                            +:+ py_str (get patient_data "full_name")) ]}.

(** [audit_logger.log_access_to_audit_trail]; the three timestamps are the
    three readings of the clock, in call order. *)
Definition log_access_to_audit_trail (w : JsonFiles.WriteOutcome) (audit_log : JsonFiles.File)
    (action_timestamp entry_timestamp timestamp : string)
    (clinician_id patient_id action : string) (success : bool)
    (token_id : option string) (details : option dict) : dict * JsonFiles.File :=
  if negb (truthy (VStr clinician_id)) || negb (truthy (VStr patient_id))
     || negb (truthy (VStr action)) then
    ({[ "success" := VBool false; "logged" := VBool false;
        "error" := VStr "Missing required parameters: clinician_id, patient_id, or action" ]},
     audit_log)
  else
    let clinician := Utils.find_by_id clinicians "clinician_id" clinician_id in
    let patient := Utils.find_by_id patients "patient_id" patient_id in
    let clinician_name :=
      if missing clinician then VStr "Unknown" else get (default ∅ clinician) "full_name" in
    let patient_name :=
      if missing patient then VStr "Unknown" else get (default ∅ patient) "full_name" in
    let enhanced_details : dict :=
      {[ "clinician_name" := clinician_name;
         "patient_name" := patient_name;
         "action_timestamp" := VStr action_timestamp ]} ∪ JsonFiles.or_empty details in
    let '(logged, audit_log) :=
      JsonFiles.log_to_audit_trail w audit_log entry_timestamp clinician_id patient_id
        action success (Some enhanced_details) token_id in
    if negb logged then
      ({[ "success" := VBool false; "logged" := VBool false;
          "error" := VStr "Failed to write to audit trail file" ]},
       audit_log)
    else
      ({[ "success" := VBool true; "logged" := VBool true;
          "clinician_id" := VStr clinician_id;
          "patient_id" := VStr patient_id;
          "action" := VStr action;
          "action_success" := VBool success;
          "token_id" := opt_value token_id;
          "timestamp" := VStr timestamp;
          "message" := VStr ("Access logged: " +:+ action +:+ " by "
                             +:+ py_str clinician_name +:+ " for "
                             +:+ py_str patient_name) ]},
       audit_log).

End WithLibrary.

End Tools.

(** ** Sample data, for running the operations *)

Module Fixtures.

(** [str.isdigit] on ASCII text. *)
Definition is_ascii_digit (c : Ascii.ascii) : bool :=
  (48 <=? Ascii.nat_of_ascii c)%nat && (Ascii.nat_of_ascii c <=? 57)%nat.

Fixpoint all_digits (s : string) : bool :=
  match s with
  | EmptyString => true
  | String c s' => is_ascii_digit c && all_digits s'
  end.

Definition isdigit (s : string) : bool := negb (String.eqb s "") && all_digits s.

(** [str(v)] on the scalars of the sample records. *)
Definition py_str (v : value) : string :=
  match v with
  | VStr s => s
  | VBool true => "True"
  | VBool false => "False"
  | _ => "None"
  end.

Definition sample_patients : list dict :=
  [ {[ "patient_id" := VStr "PT_0001"; "full_name" := VStr "Ada Moreau";
       "ssn" := VStr "123-45-6789"; "blood_type" := VStr "O+" ]};
    {[ "patient_id" := VStr "PT_0002"; "full_name" := VStr "Ben Ito";
       "ssn" := VStr "987-65-4321"; "blood_type" := VStr "A-" ]} ].

(** Four requests of four clinicians. *)
Definition four_requests : list Request :=
  [ {| req_query := "Fetch PT_0001"; req_clinician := Some "DR_0001";
       req_patient := Some "PT_0001"; req_context := ∅ |};
    {| req_query := "Fetch PT_0002"; req_clinician := Some "DR_0002";
       req_patient := Some "PT_0002"; req_context := ∅ |};
    {| req_query := "Fetch PT_0003"; req_clinician := Some "DR_0003";
       req_patient := Some "PT_0003"; req_context := ∅ |};
    {| req_query := "Fetch PT_0004"; req_clinician := Some "DR_0004";
       req_patient := Some "PT_0004"; req_context := ∅ |} ].

End Fixtures.
(** * Properties of the session memory store *)

Module MemoryFacts.
Import MemoryManager StoreRuns.

(** The row [remember] leaves under its session id. *)
Lemma remember_open config now sid p cl a c :
  closed c = false ->
  remember config now sid p cl a c =
    (true,
     {| rows :=
          <[sid :=
              match rows c !! sid with
              | Some r =>
                  Sql.merged_row cl p a
                    (updated_history config now p cl a (conversation_history r))
                    (now + hours (MEMORY_DURATION_HOURS config)) r
              | None =>
                  Sql.new_row sid cl p a (initial_history now p cl a)
                    (now + hours (MEMORY_DURATION_HOURS config)) now
              end]> (rows c);
        closed := false |}).
Proof.
  intros Hopen.
  unfold remember, Sql.try_except, Sql.bind, Sql.select_history, Sql.update_session,
    Sql.insert_session, Sql.commit, Sql.ret, Sql.execute.
  rewrite Hopen. cbn.
  destruct (rows c !! sid) as [r|] eqn:Hr; cbn.
  - rewrite (alter_alt_Some _ _ _ _ Hr). reflexivity.
  - rewrite Hr. reflexivity.
Qed.

Lemma remember_closed config now sid p cl a c :
  closed c = true -> remember config now sid p cl a c = (false, c).
Proof.
  intros Hc.
  unfold remember, Sql.try_except, Sql.bind, Sql.select_history, Sql.execute.
  rewrite Hc. reflexivity.
Qed.

Lemma recall_open now sid c :
  closed c = false ->
  recall now sid c =
    (match rows c !! sid with
     | Some r => if (now <? expires_at r)%Z then Some r else None
     | None => None
     end, c).
Proof.
  intros Hopen.
  unfold recall, Sql.try_except, Sql.bind, Sql.select_active, Sql.ret, Sql.execute.
  rewrite Hopen. cbn. destruct c as [rs cl]; cbn in *. subst cl. reflexivity.
Qed.

Lemma recall_closed now sid c : closed c = true -> recall now sid c = (None, c).
Proof.
  intros Hc.
  unfold recall, Sql.try_except, Sql.bind, Sql.select_active, Sql.execute.
  rewrite Hc. reflexivity.
Qed.

Lemma recall_leaves_store now sid c : (recall now sid c).2 = c.
Proof.
  destruct (closed c) eqn:Hc;
    [rewrite recall_closed by done | rewrite recall_open by done]; reflexivity.
Qed.

Lemma forget_open sid c :
  closed c = false ->
  forget sid c = (true, {| rows := delete sid (rows c); closed := false |}).
Proof.
  intros Hopen.
  unfold forget, Sql.try_except, Sql.bind, Sql.delete_session, Sql.commit, Sql.ret,
    Sql.execute.
  rewrite Hopen. cbn. reflexivity.
Qed.

Lemma forget_closed sid c : closed c = true -> forget sid c = (false, c).
Proof.
  intros Hc.
  unfold forget, Sql.try_except, Sql.bind, Sql.delete_session, Sql.execute.
  rewrite Hc. reflexivity.
Qed.

Lemma cleanup_open now c :
  closed c = false ->
  cleanup_expired_sessions now c =
    (size (filter (fun kr => (expires_at kr.2 < now)%Z) (rows c)),
     {| rows := filter (fun kr => ¬ (expires_at kr.2 < now)%Z) (rows c);
        closed := false |}).
Proof.
  intros Hopen.
  unfold cleanup_expired_sessions, Sql.try_except, Sql.bind, Sql.delete_expired,
    Sql.commit, Sql.ret, Sql.execute.
  rewrite Hopen. cbn. reflexivity.
Qed.

Lemma cleanup_closed now c :
  closed c = true -> cleanup_expired_sessions now c = (0, c).
Proof.
  intros Hc.
  unfold cleanup_expired_sessions, Sql.try_except, Sql.bind, Sql.delete_expired,
    Sql.execute.
  rewrite Hc. reflexivity.
Qed.

End MemoryFacts.

Module MemoryClaims.
Import MemoryManager StoreRuns MemoryFacts.

(** C7. Field-preserving merge.  On an open connection,
    [remember(id, clinician=C, action=A)] followed by
    [remember(id, patient=P)] leaves clinician [C] (and action [A]) in the
    row next to patient [P]; and in general a [remember] on an existing row
    keeps the stored value of every optional field it is not given. *)
Theorem remember_merge_preserves_fields (config : Config) (c : Conn) (sid : string) :
  closed c = false ->
  (forall now1 now2 C A P,
     let c1 := (remember config now1 sid None (Some C) (Some A) c).2 in
     let c2 := (remember config now2 sid (Some P) None None c1).2 in
     exists r, rows c2 !! sid = Some r /\
               clinician_id r = Some C /\
               last_patient_id r = Some P /\
               last_action r = Some A)
  /\
  (forall now p cl a r,
     rows c !! sid = Some r ->
     exists r', rows (remember config now sid p cl a c).2 !! sid = Some r' /\
                (cl = None -> clinician_id r' = clinician_id r) /\
                (p = None -> last_patient_id r' = last_patient_id r) /\
                (a = None -> last_action r' = last_action r) /\
                (forall v, cl = Some v -> clinician_id r' = Some v) /\
                (forall v, p = Some v -> last_patient_id r' = Some v) /\
                (forall v, a = Some v -> last_action r' = Some v)).
Proof.
  intros Hopen. split.
  - intros now1 now2 C A P c1 c2. subst c1 c2.
    rewrite (remember_open _ _ _ _ _ _ _ Hopen). cbn [snd].
    rewrite remember_open by reflexivity. cbn [snd rows].
    rewrite !lookup_insert_eq. eexists. split; [reflexivity|].
    destruct (rows c !! sid); cbn; auto.
  - intros now p cl a r Hr.
    rewrite (remember_open _ _ _ _ _ _ _ Hopen). cbn [snd rows].
    rewrite lookup_insert_eq, Hr. eexists. split; [reflexivity|].
    cbn. repeat split; intros; subst; reflexivity.
Qed.

Lemma remember_merge_preserves_fields_witness :
  exists r,
    rows (remember config_template 2000 "S1" (Some "PT_0001") None None
            (remember config_template 1000 "S1" None (Some "DR_0001") (Some "access")
               empty_conn).2).2 !! "S1" = Some r /\
    clinician_id r = Some "DR_0001" /\
    last_patient_id r = Some "PT_0001" /\
    last_action r = Some "access".
Proof.
  destruct (remember_merge_preserves_fields config_template empty_conn "S1" eq_refl)
    as [H _].
  exact (H 1000%Z 2000%Z "DR_0001" "access" "PT_0001").
Defined.

(** C9. [recall] returns nothing for an absent row and for a row whose
    [expires_at] is not after the current instant (on an open connection it
    returns the row exactly when it is present and unexpired), and it never
    changes the store; on an open connection [cleanup_expired_sessions]
    keeps exactly the rows whose [expires_at] is not strictly before the
    current instant and returns the number of rows it removed. *)
Theorem recall_filters_and_cleanup_sweeps (now : Z) (sid : string) (c : Conn) :
  ((rows c !! sid = None \/ exists r, rows c !! sid = Some r /\ (expires_at r <= now)%Z) ->
     (recall now sid c).1 = None)
  /\ (forall r, closed c = false ->
        ((recall now sid c).1 = Some r <->
         rows c !! sid = Some r /\ (now < expires_at r)%Z))
  /\ (recall now sid c).2 = c
  /\ (closed c = false ->
        let n := (cleanup_expired_sessions now c).1 in
        let c' := (cleanup_expired_sessions now c).2 in
        (forall sid' r, rows c' !! sid' = Some r <->
                        rows c !! sid' = Some r /\ ¬ (expires_at r < now)%Z)
        /\ n = size (filter (fun kr => (expires_at kr.2 < now)%Z) (rows c))
        /\ size (rows c) = n + size (rows c')).
Proof.
  split; [|split; [|split]].
  - intros Habs. destruct (closed c) eqn:Hc.
    + rewrite recall_closed by done. reflexivity.
    + rewrite recall_open by done. cbn.
      destruct Habs as [-> | (r & -> & Hle)]; [reflexivity|].
      destruct (Z.ltb_spec now (expires_at r)); [lia | reflexivity].
  - intros r Hopen. rewrite recall_open by done. cbn. split.
    + destruct (rows c !! sid) as [r'|]; [|discriminate].
      destruct (Z.ltb_spec now (expires_at r')); [|discriminate].
      intros [= ->]. done.
    + intros [-> Hlt].
      destruct (Z.ltb_spec now (expires_at r)); [reflexivity | lia].
  - apply recall_leaves_store.
  - intros Hopen. rewrite cleanup_open by done. cbn. split; [|split].
    + intros sid' r. rewrite map_lookup_filter_Some. cbn. tauto.
    + reflexivity.
    + rewrite <- map_size_disj_union by apply map_disjoint_filter_complement.
      by rewrite map_filter_union_complement.
Qed.

(** C10. [forget] returns [True] whenever the storage layer does not raise,
    also when no row has the id; it returns [False] only when the DELETE
    (or the commit after it) raises; and after [forget(id)], [recall(id)]
    returns nothing. *)
Theorem forget_succeeds_without_row (sid : string) (c : Conn) :
  ((forget sid c).1 = false ->
     exists e, (Sql.bind (Sql.delete_session sid) (fun _ => Sql.commit) c).1 = Raise e)
  /\ ((forall e, (Sql.bind (Sql.delete_session sid) (fun _ => Sql.commit) c).1 <> Raise e) ->
        (forget sid c).1 = true /\ rows (forget sid c).2 = delete sid (rows c))
  /\ (forall now, (recall now sid (forget sid c).2).1 = None)
  /\ (closed c = false -> rows c !! sid = None ->
        (forget sid c).1 = true /\ rows (forget sid c).2 = rows c).
Proof.
  destruct (closed c) eqn:Hc.
  - rewrite forget_closed by done. cbn.
    unfold Sql.bind, Sql.delete_session, Sql.execute. rewrite Hc. cbn.
    split; [eauto|]. split; [|split].
    + intros Hno. by destruct (Hno Sql.ProgrammingError).
    + intros now. by rewrite recall_closed.
    + discriminate.
  - rewrite forget_open by done. cbn [fst snd rows].
    split; [discriminate|]. split; [done|]. split.
    + intros now. rewrite recall_open by done. cbn. by rewrite lookup_delete_eq.
    + intros _ Hnone. split; [done|]. by apply delete_id.
Qed.

(** The design document's scenarios: a first [remember], then [recall]; and a
    twelve-hour expiry read one second late and one microsecond early. *)
Example recall_after_first_remember :
  let c := (remember config_template 0 "S1" (Some "PT_0001") (Some "DR_0001")
              (Some "access") empty_conn).2 in
  (last_patient_id <$> (recall 1 "S1" c).1) = Some (Some "PT_0001") /\
  (length <$> (conversation_history <$> (recall 1 "S1" c).1)) = Some 1.
Proof. vm_compute. split; reflexivity. Qed.

Example recall_after_expiry :
  let c := (remember config_template 0 "S1" (Some "PT_0001") (Some "DR_0001")
              (Some "access") empty_conn).2 in
  (recall (hours 12 + 1000000) "S1" c).1 = None /\
  (recall (hours 12) "S1" c).1 = None /\
  is_Some (recall (hours 12 - 1) "S1" c).1 /\
  (cleanup_expired_sessions (hours 12) c).1 = 0 /\
  (cleanup_expired_sessions (hours 12 + 1000000) c).1 = 1.
Proof. vm_compute. repeat split; eauto. Qed.

End MemoryClaims.

Module HistoryBound.
Import MemoryManager StoreRuns MemoryFacts.

Section WithBound.
Variable config : Config.
Hypothesis bound_positive : (0 < MAX_CONVERSATION_HISTORY config)%Z.

Let H : nat := Z.to_nat (MAX_CONVERSATION_HISTORY config).

Local Abbreviation lastH := (lastn H).

Lemma within_bound (n : nat) :
  (Z.of_nat n <= MAX_CONVERSATION_HISTORY config)%Z <-> n <= H.
Proof. subst H. lia. Qed.

Lemma py_slice_last (l : list HistoryEntry) :
  py_slice_from (- MAX_CONVERSATION_HISTORY config) l = lastH l.
Proof.
  unfold py_slice_from, lastn.
  destruct (Z.ltb_spec (- MAX_CONVERSATION_HISTORY config) 0); [|lia].
  f_equal. subst H. lia.
Qed.

Lemma lastH_length (l : list HistoryEntry) : length (lastH l) <= H.
Proof. unfold lastn. rewrite length_drop. lia. Qed.

Lemma lastH_short (l : list HistoryEntry) : length l <= H -> lastH l = l.
Proof. intros Hl. unfold lastn. replace (length l - H) with 0 by lia. reflexivity. Qed.

Lemma lastH_app (a b : list HistoryEntry) :
  lastH (lastH a ++ b) = lastH (a ++ b).
Proof.
  destruct (Nat.le_gt_cases (length a) H) as [Hle|Hgt].
  - by rewrite (lastH_short a).
  - unfold lastn. rewrite !drop_app, !length_app, !length_drop, drop_drop.
    f_equal; f_equal; lia.
Qed.

Lemma updated_history_lastH now p cl a h :
  updated_history config now p cl a h =
    if py_true a then
      lastH (h ++ match a with Some s => [new_entry now p cl s] | None => [] end)
    else h.
Proof.
  unfold updated_history. destruct a as [s|]; [|reflexivity].
  destruct (py_true (Some s)); [|reflexivity].
  destruct (Z.ltb_spec (MAX_CONVERSATION_HISTORY config)
              (Z.of_nat (length (h ++ [new_entry now p cl s])))).
  - apply py_slice_last.
  - symmetry. apply lastH_short. subst H. lia.
Qed.

Lemma initial_history_length now p cl a :
  length (initial_history now p cl a) <= H.
Proof.
  unfold initial_history. subst H.
  destruct a; [destruct (py_true _)|]; cbn; lia.
Qed.

Local Abbreviation bounded := (bounded config).

Lemma run_call_bounded c k : bounded c -> bounded (run_call config c k).
Proof.
  intros Hb. unfold run_call. destruct (closed c) eqn:Hc.
  - by rewrite remember_closed.
  - rewrite remember_open by done. cbn [snd]. intros sid r. cbn [rows].
    destruct (decide (call_session k = sid)) as [->|Hne].
    + rewrite lookup_insert_eq. intros [= <-].
      destruct (rows c !! sid) as [r0|] eqn:Hr0; cbn.
      * rewrite updated_history_lastH. destruct (py_true _).
        -- apply within_bound, lastH_length.
        -- by apply (Hb sid).
      * apply within_bound, initial_history_length.
    + rewrite lookup_insert_ne by done. apply Hb.
Qed.

Lemma run_op_bounded c o : bounded c -> bounded (run_op config c o).
Proof.
  intros Hb. destruct o as [k|now sid|sid|now|]; cbn.
  - by apply run_call_bounded.
  - destruct (closed c) eqn:Hc;
      [rewrite recall_closed by done | rewrite recall_open by done]; done.
  - destruct (closed c) eqn:Hc;
      [rewrite forget_closed by done; done | rewrite forget_open by done].
    intros sid' r. cbn. intros Hl. apply lookup_delete_Some in Hl as [_ Hl].
    by apply (Hb sid').
  - destruct (closed c) eqn:Hc;
      [rewrite cleanup_closed by done; done | rewrite cleanup_open by done].
    intros sid' r. cbn. intros Hl. apply map_lookup_filter_Some in Hl as [Hl _].
    by apply (Hb sid').
  - exact Hb.
Qed.

Lemma run_ops_bounded os c : bounded c -> bounded (run_ops config os c).
Proof.
  revert c. induction os as [|o os IH]; intros c Hb; [done|].
  change (run_ops config (o :: os) c) with (run_ops config os (run_op config c o)).
  apply IH. by apply run_op_bounded.
Qed.

Lemma run_call_stored sid c k :
  closed c = false ->
  length (stored sid c) <= H ->
  closed (run_call config c k) = false /\
  stored sid (run_call config c k) = lastH (stored sid c ++ appends sid k) /\
  (is_Some (rows c !! sid) \/ call_session k = sid ->
   is_Some (rows (run_call config c k) !! sid)).
Proof.
  intros Hopen Hlen. unfold run_call, stored in *.
  rewrite remember_open by done. cbn [snd rows closed].
  split; [done|]. unfold appends.
  destruct (String.eqb_spec (call_session k) sid) as [->|Hne].
  - rewrite lookup_insert_eq. split; [|eauto].
    destruct (rows c !! sid) as [r0|] eqn:Hr0; cbn in *.
    + rewrite updated_history_lastH.
      destruct (call_action k) as [a|]; cbn -[lastn].
      * destruct (negb (String.eqb a "")); cbn -[lastn]; [done|].
        rewrite app_nil_r. symmetry. by apply lastH_short.
      * rewrite app_nil_r. symmetry. by apply lastH_short.
    + unfold initial_history.
      destruct (call_action k) as [a|]; cbn -[lastn]; [|done].
      destruct (negb (String.eqb a "")); cbn -[lastn]; [|done].
      symmetry. apply (lastH_short [_]). cbn. subst H. lia.
  - rewrite lookup_insert_ne by done. rewrite andb_false_r.
    split.
    + destruct (call_action k); rewrite app_nil_r; symmetry; by apply lastH_short.
    + intros [?|?]; done.
Qed.

Lemma run_calls_stored sid ks : forall c,
  closed c = false ->
  length (stored sid c) <= H ->
  stored sid (run_calls config ks c) = lastH (stored sid c ++ appended sid ks) /\
  (is_Some (rows c !! sid) \/ appended sid ks <> [] ->
   is_Some (rows (run_calls config ks c) !! sid)).
Proof.
  induction ks as [|k ks IH]; intros c Hopen Hlen.
  - cbn. rewrite app_nil_r. split; [symmetry; by apply lastH_short|].
    intros [?|?]; done.
  - destruct (run_call_stored sid c k Hopen Hlen) as (Hopen' & Hst & Hex).
    destruct (IH (run_call config c k) Hopen') as [IH1 IH2].
    { rewrite Hst. apply lastH_length. }
    change (run_calls config (k :: ks) c) with (run_calls config ks (run_call config c k)).
    split.
    + rewrite IH1, Hst. unfold appended. cbn. rewrite app_assoc. apply lastH_app.
    + intros Hor. apply IH2.
      destruct Hor as [?|Hne]; [left; apply Hex; by left|].
      unfold appended in Hne. cbn in Hne.
      destruct (appends sid k) eqn:Hap.
      * right. exact Hne.
      * left. apply Hex. right. unfold appends in Hap.
        destruct (call_action k); [|done].
        destruct (String.eqb_spec (call_session k) sid); [done|].
        by rewrite andb_false_r in Hap.
Qed.

End WithBound.

(** C8. With a positive bound [H = MAX_CONVERSATION_HISTORY], no history
    stored by any run of store operations from the empty table is longer
    than [H]; and once the [remember] calls made for a session (starting
    without a row for it) have appended [H + k] entries, the stored history
    is exactly the last [H] of them, in append order. *)
Theorem history_keeps_last_entries (config : Config) :
  (0 < MAX_CONVERSATION_HISTORY config)%Z ->
  (forall os, bounded config (run_ops config os empty_conn))
  /\ (forall c ks sid,
        closed c = false -> rows c !! sid = None ->
        stored sid (run_calls config ks c) =
          lastn (Z.to_nat (MAX_CONVERSATION_HISTORY config)) (appended sid ks))
  /\ (forall c ks sid k,
        closed c = false -> rows c !! sid = None ->
        length (appended sid ks) = Z.to_nat (MAX_CONVERSATION_HISTORY config) + k ->
        exists r,
          rows (run_calls config ks c) !! sid = Some r /\
          conversation_history r = drop k (appended sid ks) /\
          length (conversation_history r) = Z.to_nat (MAX_CONVERSATION_HISTORY config)).
Proof.
  intros Hpos. split; [|split].
  - intros os. apply run_ops_bounded; [done|]. intros sid r. cbn.
    by rewrite lookup_empty.
  - intros c ks sid Hopen Hnone.
    destruct (run_calls_stored config Hpos sid ks c Hopen) as [Hst _].
    { unfold stored. rewrite Hnone. cbn. lia. }
    rewrite Hst. unfold stored. by rewrite Hnone.
  - intros c ks sid k Hopen Hnone Hlen.
    destruct (run_calls_stored config Hpos sid ks c Hopen) as [Hst Hex].
    { unfold stored. rewrite Hnone. cbn. lia. }
    destruct Hex as [r Hr].
    { right. intros Hnil. rewrite Hnil in Hlen. cbn in Hlen. lia. }
    exists r. split; [done|].
    unfold stored in Hst. rewrite Hr, Hnone in Hst. cbn in Hst.
    rewrite Hst. unfold lastn. rewrite Hlen.
    replace (Z.to_nat (MAX_CONVERSATION_HISTORY config) + k
             - Z.to_nat (MAX_CONVERSATION_HISTORY config)) with k by lia.
    split; [done|]. rewrite length_drop. lia.
Qed.

Lemma history_keeps_last_entries_witness :
  exists r,
    rows (run_calls config_template seven_calls empty_conn) !! "S1" = Some r /\
    conversation_history r = drop 2 (appended "S1" seven_calls) /\
    length (conversation_history r) = 5.
Proof.
  destruct (history_keeps_last_entries config_template eq_refl) as (_ & _ & Hk).
  exact (Hk empty_conn seven_calls "S1" 2 eq_refl eq_refl eq_refl).
Defined.

End HistoryBound.

(** * Properties of the execution pipeline *)

Section PipelineFacts.
Context {D X : Type}.
Variable env : Env D X.

Lemma count_app (p : Event -> bool) (a b : list Event) :
  count p (a ++ b) = count p a + count p b.
Proof. unfold count. by rewrite List.filter_app, length_app. Qed.

Lemma count_emit (p : Event -> bool) (e : Event) (st : State D X) :
  count p (events (emit e st)) = count p (events st) + (if p e then 1 else 0).
Proof.
  unfold emit. cbn [events]. rewrite count_app. unfold count. cbn.
  by destruct (p e).
Qed.

(** The loop breaks exactly under the documented stop condition. *)
Lemma stops_iff (step : Step) (result : dict) :
  stops (tool step) result = true <-> stop_condition step result.
Proof.
  unfold stops, stop_condition. destruct (truthy (get result "success")).
  - rewrite andb_true_iff, negb_true_iff.
    destruct (String.eqb_spec (tool step) "check_patient_consent_status");
      intuition congruence.
  - intuition congruence.
Qed.

(** A step leaves the filter agent's counters, the session token and the
    memory store alone, and invokes at most one operation. *)
Lemma run_step_frame (step : Step) (st : State D X) :
  let st' := (run_step env step st).2 in
  violation_count st' = violation_count st /\
  retry_count st' = retry_count st /\
  current_session_token st' = current_session_token st /\
  memory st' = memory st /\
  exists evs, events st' = events st ++ evs /\
              forallb is_invoke evs = true /\ length evs <= 1.
Proof.
  unfold run_step. destruct (tools env !! tool step) as [f|].
  - destruct (f _ _ _) as [[out d] x]. cbn.
    repeat split; try done. eexists [_]. cbn. done.
  - cbn. repeat split; try done. exists []. rewrite app_nil_r. cbn. split; [done|]. split; [done|lia].
Qed.

Lemma execute_sequence_prefix (sequence : list Step) : forall st : State D X,
  let '(sequence', results, st') := _execute_sequence env sequence st in
  let n := length results in
  n <= length sequence
  /\ invoke_all env (take n sequence) st = (take n sequence', results, st')
  /\ drop n sequence' = drop n sequence
  /\ (forall i s r, sequence !! i = Some s -> results !! i = Some r ->
        stops (tool s) r = true -> S i = n)
  /\ (n < length sequence ->
        exists s r, sequence !! (n - 1) = Some s /\ results !! (n - 1) = Some r /\
                    stops (tool s) r = true).
Proof.
  induction sequence as [|step rest IH]; intros st.
  - cbn. split; [lia|]. split; [done|]. split; [done|]. split; [|lia].
    intros i s r Hs. done.
  - cbn [_execute_sequence].
    destruct (run_step env step st) as [[step' result] st1] eqn:Hstep.
    destruct (stops (tool step) result) eqn:Hstop.
    + cbn [length take invoke_all drop]. rewrite Hstep. cbn.
      split; [lia|]. split; [done|]. split; [done|]. split.
      * intros [|i] s r Hs Hr; cbn in *; [done|]. done.
      * intros _. exists step, result. done.
    + specialize (IH st1).
      destruct (_execute_sequence env rest st1) as [[rest' results] st2].
      cbn [length take invoke_all drop]. rewrite Hstep.
      destruct IH as (Hlen & Hall & Hdrop & Hlast & Hearly).
      rewrite Hall. split; [lia|]. split; [done|]. split; [done|]. split.
      * intros [|i] s r Hs Hr Hst; cbn in *.
        -- injection Hs as <-. injection Hr as <-. congruence.
        -- f_equal. by apply (Hlast i s r).
      * intros Hlt. destruct Hearly as (s & r & Hs & Hr & Hst); [lia|].
        assert (length results <> 0) as Hne.
        { intros Hz. destruct results; [|done]. cbn in *. done. }
        exists s, r.
        replace (S (length results) - 1) with (S (length results - 1)) by lia.
        done.
Qed.

Lemma execute_sequence_frame (sequence : list Step) : forall st : State D X,
  let st' := (_execute_sequence env sequence st).2 in
  violation_count st' = violation_count st /\
  retry_count st' = retry_count st /\
  current_session_token st' = current_session_token st /\
  memory st' = memory st /\
  exists evs, events st' = events st ++ evs /\
              forallb is_invoke evs = true /\
              length evs <= length (_execute_sequence env sequence st).1.2.
Proof.
  induction sequence as [|step rest IH]; intros st.
  - cbn. repeat split; try done. exists []. by rewrite app_nil_r.
  - cbn [_execute_sequence].
    pose proof (run_step_frame step st) as Hf.
    destruct (run_step env step st) as [[step' result] st1].
    cbn in Hf. destruct Hf as (Hv & Hr & Ht & Hm & evs1 & He1 & Hi1 & Hl1).
    destruct (stops (tool step) result).
    + cbn. repeat split; try done. exists evs1. done.
    + specialize (IH st1).
      destruct (_execute_sequence env rest st1) as [[rest' results] st2].
      cbn in *. destruct IH as (Hv' & Hr' & Ht' & Hm' & evs2 & He2 & Hi2 & Hl2).
      repeat split; try congruence.
      exists (evs1 ++ evs2). rewrite He2, He1, app_assoc. split; [done|].
      rewrite forallb_app, Hi1, Hi2, length_app. split; [done|lia].
Qed.

(** C2. [_execute_sequence] returns one result per step it ran, in input
    order, and never more results than steps: with [n] results, they are
    the results of running the first [n] steps and nothing else was run
    (the final state is the state after those [n] steps, and the only calls
    made are at most [n] operation invocations); a result that meets the
    stop condition (not a success, or a success of the consent check with
    [consent_granted] false) is the last one; and the run ends before the
    end of the input only on such a result. *)
Theorem execute_sequence_stops_on_first_failure (sequence : list Step) (st : State D X) :
  let '(sequence', results, st') := _execute_sequence env sequence st in
  let n := length results in
  n <= length sequence
  /\ invoke_all env (take n sequence) st = (take n sequence', results, st')
  /\ (forall i s r, sequence !! i = Some s -> results !! i = Some r ->
        stop_condition s r -> S i = n)
  /\ (n < length sequence ->
        exists s r, sequence !! (n - 1) = Some s /\ results !! (n - 1) = Some r /\
                    stop_condition s r)
  /\ (exists evs, events st' = events st ++ evs /\
                  forallb is_invoke evs = true /\ length evs <= n).
Proof.
  pose proof (execute_sequence_prefix sequence st) as Hp.
  pose proof (execute_sequence_frame sequence st) as Hf.
  destruct (_execute_sequence env sequence st) as [[sequence' results] st'].
  cbn in Hf. destruct Hp as (Hlen & Hall & _ & Hlast & Hearly).
  destruct Hf as (_ & _ & _ & _ & Hev).
  split; [done|]. split; [done|]. split; [|split; [|done]].
  - intros i s r Hs Hr Hst. apply (Hlast i s r); [done..|]. by apply stops_iff.
  - intros Hlt. destruct (Hearly Hlt) as (s & r & Hs & Hr & Hst).
    exists s, r. split; [done|]. split; [done|]. by apply stops_iff.
Qed.

End PipelineFacts.

(** * Properties of the policy gate *)

Section GateFacts.
Context {D X : Type}.
Variable config : Config.
Variable env : Env D X.

Lemma validate_planned_execution_frame (sequence : list Step) (context : dict)
    (st : State D X) :
  let st' := (validate_planned_execution env sequence context st).2 in
  data st' = data st /\
  retry_count st' = retry_count st /\
  violation_count st <= violation_count st' <= violation_count st + 1 /\
  current_session_token st' = current_session_token st /\
  memory st' = memory st /\
  events st' = events st ++ [EvValidatePlanned sequence].
Proof.
  unfold validate_planned_execution.
  destruct (validate_oracle env sequence context (ext st)) as [[v|e|e t] x]; cbn;
    [destruct (truthy (get (fields v) "valid")); cbn|..];
    repeat split; try done; lia.
Qed.

Lemma validate_execution_result_frame (sequence : list Step) (results : list dict)
    (st : State D X) :
  let st' := (validate_execution_result env sequence results st).2 in
  data st' = data st /\
  retry_count st' = retry_count st /\
  violation_count st' = violation_count st /\
  current_session_token st' = current_session_token st /\
  memory st' = memory st /\
  events st' = events st ++ [EvValidateExecuted sequence results].
Proof.
  unfold validate_execution_result.
  destruct (post_oracle env sequence results (ext st)) as [[v|e|e t] x]; cbn;
    [destruct (truthy (get (fields v) "valid")); cbn|..];
    repeat split; done.
Qed.

Lemma no_sequence_false (corrected : option (list Step)) :
  no_sequence corrected = false <-> exists s l, corrected = Some (s :: l).
Proof.
  destruct corrected as [[|s l]|]; cbn; split; try done.
  - intros (s & l & Heq). discriminate.
  - eauto.
  - intros (s & l & Heq). discriminate.
Qed.

Lemma handle_retry_frame (sequence : list Step) (violation_info : Validation)
    (st : State D X) :
  let ri := (handle_retry config env sequence violation_info st).1 in
  let st' := (handle_retry config env sequence violation_info st).2 in
  data st' = data st /\
  violation_count st' = violation_count st /\
  current_session_token st' = current_session_token st /\
  memory st' = memory st /\
  (events st' = events st \/ events st' = events st ++ [EvCorrect sequence]) /\
  ((allow_retry ri = false /\ corrected_request ri = None /\
    retry_count st' = retry_count st)
   \/
   (allow_retry ri = true /\ no_sequence (corrected_request ri) = false /\
    retry_count st' = retry_count st + 1 /\
    retry_count st < FILTER_MAX_RETRIES config /\
    is_str "critical" (get_default (fields violation_info) "severity" (VStr "error")) = false /\
    events st' = events st ++ [EvCorrect sequence])).
Proof.
  unfold handle_retry.
  destruct (is_str "critical" _) eqn:Hcrit; cbn.
  { repeat split; try done; auto. }
  destruct (Nat.leb_spec (FILTER_MAX_RETRIES config) (retry_count st)); cbn.
  { repeat split; try done; auto. }
  unfold generate_corrected_sequence.
  destruct (correct_oracle env sequence violation_info (ext st)) as [corrected x].
  destruct (no_sequence corrected) eqn:Hno; cbn.
  - repeat split; try done; auto.
  - repeat split; try done; auto. right. repeat split; try done.
Qed.

Lemma recall_context_frame (token : string) (clinician_id patient_id : option string)
    (st : State D X) :
  let st' := (recall_context config env token clinician_id patient_id st).2 in
  data st' = data st /\
  ext st' = ext st /\
  retry_count st' = retry_count st /\
  violation_count st' = violation_count st /\
  current_session_token st' = current_session_token st /\
  memory st' = memory st /\
  (events st' = events st \/ events st' = events st ++ [EvRecall token]).
Proof.
  unfold recall_context.
  destruct (MEMORY_ENABLED config && _); [|cbn; repeat split; auto].
  pose proof (MemoryFacts.recall_leaves_store
                (utcnow env (ext st)) token (memory st)) as Hsame.
  destruct (MemoryManager.recall _ _ _) as [[row|] c]; cbn in *; subst c;
    repeat split; auto.
Qed.

Lemma update_memory_frame (token user_query : string)
    (clinician_id patient_id : option string) (st : State D X) :
  let st' := update_memory config env token user_query clinician_id patient_id st in
  data st' = data st /\
  ext st' = ext st /\
  retry_count st' = retry_count st /\
  violation_count st' = violation_count st /\
  current_session_token st' = current_session_token st /\
  (events st' = events st \/ events st' = events st ++ [EvRemember token]).
Proof.
  unfold update_memory.
  destruct (MEMORY_ENABLED config && _ && _); [|cbn; repeat split; auto].
  destruct (MemoryManager.remember _ _ _ _ _ _ _) as [ok c]; cbn.
  repeat split; auto.
Qed.

(** What [_handle_retry] does, in one statement: it asks for at most one
    confirmation and at most one correction, then either rejects without
    running anything or runs the corrected sequence and returns. *)
Lemma handle_retry_path (original_plan : list Step) (validation : Validation)
    (context : dict) (st : State D X) :
  let resp := (_handle_retry config env original_plan validation context st).1 in
  let st' := (_handle_retry config env original_plan validation context st).2 in
  violation_count st' = violation_count st /\
  current_session_token st' = current_session_token st /\
  memory st' = memory st /\
  retry_count st <= retry_count st' <= retry_count st + 1 /\
  exists pre st1,
    events st1 = events st ++ pre /\
    forallb (fun e => is_confirm e || is_correct e) pre = true /\
    count is_correct pre <= 1 /\
    count is_confirm pre <= 1 /\
    data st1 = data st /\
    match resp with
    | Formatted success token executed results v message =>
        v = retry_marker /\
        exists corrected,
          no_sequence (Some corrected) = false /\
          (corrected_sequence validation = Some corrected \/
           (no_sequence (corrected_sequence validation) = true /\
            exists st0, corrected_request
                          (handle_retry config env original_plan validation st0).1
                        = Some corrected)) /\
          _execute_sequence env corrected st1 = (executed, results, st')
    | Rejected _ _ _ => st' = st1
    | Crashed _ => False
    end.
Proof.
  unfold _handle_retry.
  set (asked := if FILTER_REQUIRE_USER_CONSENT config then _ else _).
  assert (exists consent st0 pre0,
            asked = (consent, st0) /\ events st0 = events st ++ pre0 /\
            forallb (fun e => is_confirm e || is_correct e) pre0 = true /\
            count is_correct pre0 = 0 /\ count is_confirm pre0 <= 1 /\
            data st0 = data st /\ violation_count st0 = violation_count st /\
            retry_count st0 = retry_count st /\
            current_session_token st0 = current_session_token st /\
            memory st0 = memory st)
    as (consent & st0 & pre0 & -> & He0 & Hp0 & Hc0 & Hk0 & Hd0 & Hv0 & Hr0 & Ht0 & Hm0).
  { subst asked. destruct (FILTER_REQUIRE_USER_CONSENT config).
    - destruct (get_user_confirmation env _ (ext st)) as [consent x].
      eexists _, _, [_]. cbn.
      repeat split; try reflexivity; try (unfold count; cbn; lia).
    - eexists _, _, []. cbn. rewrite app_nil_r.
      repeat split; try reflexivity; try (unfold count; cbn; lia). }
  destruct consent; cbn [negb].
  2:{ cbn. repeat split; try done; try lia. exists pre0, st0. repeat split; try done. lia. }
  destruct (no_sequence (corrected_sequence validation)) eqn:Hno.
  - pose proof (handle_retry_frame original_plan validation st0) as Hf.
    destruct (handle_retry config env original_plan validation st0) as [ri st1] eqn:Hhr.
    cbn in Hf. destruct Hf as (Hd1 & Hv1 & Ht1 & Hm1 & Hev1 & Hcases).
    assert (exists pre1, events st1 = events st ++ pre1 /\
              forallb (fun e => is_confirm e || is_correct e) pre1 = true /\
              count is_correct pre1 <= 1 /\ count is_confirm pre1 <= 1)
      as (pre1 & He1 & Hp1 & Hc1 & Hk1).
    { destruct Hev1 as [-> | ->].
      - exists pre0. repeat split; try done. lia.
      - exists (pre0 ++ [EvCorrect original_plan]). rewrite He0, app_assoc.
        rewrite forallb_app, Hp0, !count_app, Hc0.
        repeat split; try done.
        change (count is_confirm [EvCorrect original_plan]) with 0. lia. }
    destruct Hcases as [(Ha & Hcr & Hr1) | (Ha & Hcr & Hr1 & _)].
    + rewrite Hcr. cbn. repeat split; try congruence; try lia.
      exists pre1, st1. repeat split; try done. congruence.
    + destruct (corrected_request ri) as [[|s l]|] eqn:Hc; try discriminate.
      pose proof (execute_sequence_frame env (s :: l) st1) as Hx.
      destruct (_execute_sequence env (s :: l) st1) as [[executed results] st2] eqn:Hex.
      cbn in Hx. destruct Hx as (Hv2 & Hr2 & Ht2 & Hm2 & _).
      cbn. repeat split; try congruence; try lia.
      exists pre1, st1. repeat split; try done; try congruence.
      exists (s :: l). split; [done|]. split; [|done].
      right. split; [done|]. exists st0. by rewrite Hhr.
  - destruct (corrected_sequence validation) as [[|s l]|] eqn:Hc; try discriminate.
    pose proof (execute_sequence_frame env (s :: l) st0) as Hx.
    destruct (_execute_sequence env (s :: l) st0) as [[executed results] st2] eqn:Hex.
    cbn in Hx. destruct Hx as (Hv2 & Hr2 & Ht2 & Hm2 & _).
    cbn. repeat split; try congruence; try lia.
    exists pre0, st0. repeat split; try done; try lia.
    exists (s :: l). split; [done|]. split; [|done]. by left.
Qed.

End GateFacts.

Section RequestTrace.
Context {D X : Type}.
Variable config : Config.
Variable env : Env D X.

Lemma count_none (p q : Event -> bool) (evs : list Event) :
  forallb q evs = true ->
  (forall e, q e = true -> p e = false) ->
  count p evs = 0.
Proof.
  intros Hq Hpq. induction evs as [|e evs IH]; [done|].
  cbn in Hq. apply andb_true_iff in Hq as [Hqe Hq].
  unfold count in *. cbn. rewrite (Hpq e Hqe). by apply IH.
Qed.

Lemma count_cons (p : Event -> bool) (e : Event) (evs : list Event) :
  count p (e :: evs) = (if p e then 1 else 0) + count p evs.
Proof. unfold count. cbn. by destruct (p e). Qed.

Lemma count_nil (p : Event -> bool) : count p [] = 0.
Proof. reflexivity. Qed.

Ltac split6 := split; [|split; [|split; [|split; [|split]]]].

Ltac count_simpl :=
  repeat first [rewrite count_app | rewrite count_cons | rewrite count_nil].

Lemma memory_access_under_own_key (token : string) :
  is_memory_access_not_under token (EvRecall token) = false /\
  is_memory_access_not_under token (EvRemember token) = false.
Proof. cbn. by rewrite String.eqb_refl. Qed.

(** The calls one request makes: at most one pre-execution validation, one
    confirmation, one correction and one post-execution validation; memory
    is reached under the minted token only; the retry counter moves by at
    most one and never down. *)
Lemma process_request_trace (user_query : string) (clinician_id patient_id : option string)
    (context : dict) (st : State D X) :
  exists evs,
    events (process_request config env user_query clinician_id patient_id context st).2
      = events st ++ evs /\
    count is_validate_planned evs <= 1 /\
    count is_correct evs <= 1 /\
    count is_confirm evs <= 1 /\
    count is_validate_executed evs <= 1 /\
    (forall token, (token_generator_tool env (ext st)).1 = Some token ->
       count (is_memory_access_not_under token) evs = 0) /\
    retry_count st
      <= retry_count (process_request config env user_query clinician_id patient_id context st).2
      <= retry_count st + 1.
Proof.
  unfold process_request.
  destruct (token_generator_tool env (ext st)) as [[token|] x0]; cbn [fst snd].
  2:{ exists [EvToken None]. cbn. repeat split; try (unfold count; cbn -[count]; lia); done. }
  set (st1 := with_token _ _).
  pose proof (recall_context_frame config env token clinician_id patient_id st1) as Hrc.
  destruct (recall_context config env token clinician_id patient_id st1)
    as [[cl p] st2]. cbn in Hrc.
  destruct Hrc as (_ & _ & Hr2 & _ & _ & _ & He2).
  assert (exists rec, events st2 = events st ++ EvToken (Some token) :: rec /\
            (rec = [] \/ rec = [EvRecall token])) as (rec & Hev2 & Hrec).
  { destruct He2 as [-> | ->]; subst st1; cbn; [exists [] | exists [EvRecall token]];
      rewrite <- ?app_assoc; auto. }
  clear He2.
  assert (forall q, (forall k, q (EvRecall k) = false) -> count q rec = 0) as Hqrec.
  { intros q Hq. destruct Hrec as [-> | ->]; [done|]. rewrite count_cons, Hq. done. }
  assert (count (is_memory_access_not_under token) rec = 0) as Hmrec.
  { destruct Hrec as [-> | ->]; [done|].
    rewrite count_cons. by rewrite (proj1 (memory_access_under_own_key token)). }
  destruct (plan_oracle env user_query cl p token (ext st2)) as [[planned|e|e t] x3];
    cbn [fst snd].
  2,3: (eexists; split; [cbn [events emit with_ext with_world]; rewrite Hev2, <- app_assoc; reflexivity|];
        count_simpl; rewrite !Hqrec by done;
        split6; [cbn -[count]; lia.. | intros ? [= <-]; count_simpl; rewrite Hmrec; cbn -[count]; lia
                | subst st1; cbn in *; lia]).
  set (st3 := emit _ _).
  set (ctx := request_context _ _ _ _ _).
  pose proof (validate_planned_execution_frame env planned ctx st3) as Hvp.
  destruct (validate_planned_execution env planned ctx st3) as [validation st4].
  cbn in Hvp. destruct Hvp as (_ & Hr4 & _ & _ & _ & He4).
  assert (events st4 = events st ++ EvToken (Some token) :: rec ++
            [EvPlan cl p token; EvValidatePlanned planned]) as Hev4.
  { rewrite He4. subst st3. cbn. rewrite Hev2, <- !app_assoc. reflexivity. }
  assert (retry_count st4 = retry_count st) as Hrc4.
  { rewrite Hr4. subst st3 st1. cbn in *. lia. }
  clear He4 Hr4.
  destruct (negb (truthy (get (fields validation) "valid"))).
  - destruct (truthy (get (fields validation) "allow_retry")).
    + pose proof (handle_retry_path config env planned validation ctx st4) as Hp.
      destruct (_handle_retry config env planned validation ctx st4) as [resp st5].
      cbn in Hp.
      destruct Hp as (_ & _ & _ & Hr5 & pre & st' & He' & Hpre & Hcpre & Hkpre & _ & Hresp).
      cbn [fst snd].
      assert (exists inv, events st5 = events st4 ++ pre ++ inv /\ forallb is_invoke inv = true)
        as (inv & He5 & Hinv).
      { destruct resp as [? ? executed results v m | |]; [| |done].
        - destruct Hresp as (_ & corrected & _ & _ & Hex).
          pose proof (execute_sequence_frame env corrected st') as Hx.
          rewrite Hex in Hx. cbn in Hx. destruct Hx as (_ & _ & _ & _ & inv & Hi & Hinv & _).
          exists inv. rewrite Hi, He', app_assoc. done.
        - subst st5. exists []. rewrite app_nil_r. done. }
      eexists. split; [rewrite He5, Hev4, <- app_assoc; reflexivity|].
      count_simpl.
      rewrite !Hqrec by done.
      rewrite !(count_none _ _ inv Hinv) by (by intros []).
      rewrite (count_none is_validate_planned _ pre Hpre) by (by intros []).
      rewrite (count_none is_validate_executed _ pre Hpre) by (by intros []).
      split6; [cbn -[count]; lia.. | | lia].
      intros ? [= <-]. count_simpl. rewrite Hmrec.
      rewrite (count_none (is_memory_access_not_under token) _ pre Hpre) by (by intros []).
      rewrite (count_none (is_memory_access_not_under token) _ inv Hinv) by (by intros []).
      cbn -[count]. lia.
    + cbn [fst snd]. eexists. split; [rewrite Hev4; reflexivity|].
      count_simpl. rewrite !Hqrec by done.
      split6; [cbn -[count]; lia.. | | lia].
      intros ? [= <-]. count_simpl. rewrite Hmrec. cbn -[count]. lia.
  - pose proof (execute_sequence_frame env planned st4) as Hx.
    destruct (_execute_sequence env planned st4) as [[executed results] st5].
    cbn in Hx. destruct Hx as (_ & Hr5 & _ & _ & inv & He5 & Hinv & _).
    pose proof (validate_execution_result_frame env executed results st5) as Hpv.
    destruct (validate_execution_result env executed results st5) as [post st6].
    cbn in Hpv. destruct Hpv as (_ & Hr6 & _ & _ & _ & He6).
    pose proof (update_memory_frame config env token user_query cl p st6) as Hum.
    cbn in Hum. destruct Hum as (_ & _ & Hr7 & _ & _ & He7).
    cbn [fst snd].
    assert (exists mem, events (update_memory config env token user_query cl p st6)
                        = events st6 ++ mem /\ (mem = [] \/ mem = [EvRemember token]))
      as (mem & Hev7 & Hmem).
    { destruct He7 as [-> | ->]; [exists [] | exists [EvRemember token]];
        rewrite ?app_nil_r; auto. }
    assert (forall q, (forall k, q (EvRemember k) = false) -> count q mem = 0) as Hqmem.
    { intros q Hq. destruct Hmem as [-> | ->]; [done|]. rewrite count_cons, Hq. done. }
    assert (count (is_memory_access_not_under token) mem = 0) as Hmmem.
    { destruct Hmem as [-> | ->]; [done|].
      rewrite count_cons. by rewrite (proj2 (memory_access_under_own_key token)). }
    eexists. split; [rewrite Hev7, He6, He5, Hev4, <- !app_assoc; reflexivity|].
    count_simpl.
    rewrite !Hqrec, !Hqmem by done.
    rewrite !(count_none _ _ inv Hinv) by (by intros []).
    split6; [cbn -[count]; lia.. | | lia].
    intros ? [= <-]. count_simpl. rewrite Hmrec, Hmmem.
    rewrite (count_none (is_memory_access_not_under token) _ inv Hinv) by (by intros []).
    cbn -[count]. lia.
Qed.

End RequestTrace.

Section GateClaims.
Context {D X : Type}.
Variable config : Config.
Variable env : Env D X.

(** The state in which [process_request] asks for the plan, and the one in
    which it asks for the verdict. *)
Lemma process_request_unfold (user_query : string) (clinician_id patient_id : option string)
    (context : dict) (st : State D X)
    (token : string) (x0 : X) (cl p : option string) (st2 : State D X)
    (planned : list Step) (x3 : X) (validation : Validation) (st4 : State D X) :
  token_generator_tool env (ext st) = (Some token, x0) ->
  recall_context config env token clinician_id patient_id
    (with_token (Some token) (emit (EvToken (Some token)) (with_ext x0 st)))
    = (cl, p, st2) ->
  plan_oracle env user_query cl p token (ext st2) = (Parsed planned, x3) ->
  validate_planned_execution env planned
    (request_context user_query cl p context (emit (EvPlan cl p token) (with_ext x3 st2)))
    (emit (EvPlan cl p token) (with_ext x3 st2)) = (validation, st4) ->
  process_request config env user_query clinician_id patient_id context st =
    if negb (truthy (get (fields validation) "valid")) then
      if truthy (get (fields validation) "allow_retry") then
        _handle_retry config env planned validation
          (request_context user_query cl p context (emit (EvPlan cl p token) (with_ext x3 st2)))
          st4
      else
        (_error_response (PolicyViolation (get (fields validation) "explanation"))
           (Some validation) st4, st4)
    else
      let '(executed, results, st5) := _execute_sequence env planned st4 in
      let '(post, st6) := validate_execution_result env executed results st5 in
      let st7 := update_memory config env token user_query cl p st6 in
      (_format_response executed results post st7, st7).
Proof.
  intros Htok Hrec Hplan Hval. unfold process_request.
  rewrite Htok, Hrec, Hplan, Hval. reflexivity.
Qed.

(** What is left of [_handle_retry] once the operator has agreed (or was
    not asked), when a corrected sequence is at hand, the verdict's own or
    else the one [handle_retry] supplies: the corrected sequence is not
    empty, at most one correction was asked for and nothing else, and the
    pipeline runs it from there; the response is built from what the
    pipeline returns. *)
Lemma retry_tail_runs_correction (original_plan : list Step) (validation : Validation)
    (st0 : State D X) (corrected : list Step) :
  let asked := handle_retry config env original_plan validation st0 in
  let st1 := if no_sequence (corrected_sequence validation) then asked.2 else st0 in
  (if no_sequence (corrected_sequence validation)
   then corrected_request asked.1 else corrected_sequence validation) = Some corrected ->
  (let '(corrected, st) :=
     if no_sequence (corrected_sequence validation) then
       let '(retry_info, st) := handle_retry config env original_plan validation st0 in
       (corrected_request retry_info, st)
     else (corrected_sequence validation, st0) in
   match corrected with
   | Some ((_ :: _) as corrected) =>
       let '(corrected, execution_results, st) := _execute_sequence env corrected st in
       (_format_response corrected execution_results retry_marker st, st)
   | _ =>
       (_error_response (Literal "Unable to generate corrected sequence") None st, st)
   end)
  = (let '(executed, results, st') := _execute_sequence env corrected st1 in
     (_format_response executed results retry_marker st', st')) /\
  corrected <> [] /\
  (events st1 = events st0 \/ events st1 = events st0 ++ [EvCorrect original_plan]).
Proof.
  intros asked st1 Hobtained. subst asked st1.
  destruct (no_sequence (corrected_sequence validation)) eqn:Hno.
  - pose proof (handle_retry_frame config env original_plan validation st0) as Hf.
    destruct (handle_retry config env original_plan validation st0) as [ri st1].
    cbn [fst snd] in *. destruct Hf as (_ & _ & _ & _ & Hev & Hcases).
    rewrite Hobtained.
    destruct Hcases as [(_ & Hnone & _) | (_ & Hsome & _)]; [congruence|].
    rewrite Hobtained in Hsome.
    destruct corrected as [|s l]; [discriminate|]. done.
  - rewrite Hobtained. rewrite Hobtained in Hno.
    destruct corrected as [|s l]; [discriminate|]. split; [done|]. split; [done|]. by left.
Qed.

(** C4.  A request whose plan the verdict refuses with a retry allowed, for
    which the operator's consent is given where it is required and a
    corrected sequence is obtained (the verdict's own or, when the verdict
    has none, the one [handle_retry] supplies), is answered by running that
    corrected sequence: the response and the final state of the request are
    those of the pipeline run on the corrected sequence, with the retry
    marker in the place of a verdict.  Between the verdict and that run
    there are at most one confirmation and at most one request for a
    correction, and no pre-execution validation; from the start of the run
    to the return of the request the only calls are operation invocations,
    at most one per result, whatever the results are. *)
Theorem corrected_sequence_executed_directly
    (user_query : string) (clinician_id patient_id : option string)
    (context : dict) (st : State D X)
    (token : string) (x0 : X) (cl p : option string) (st2 : State D X)
    (planned : list Step) (x3 : X) (validation : Validation) (st4 : State D X)
    (corrected : list Step) :
  token_generator_tool env (ext st) = (Some token, x0) ->
  recall_context config env token clinician_id patient_id
    (with_token (Some token) (emit (EvToken (Some token)) (with_ext x0 st)))
    = (cl, p, st2) ->
  plan_oracle env user_query cl p token (ext st2) = (Parsed planned, x3) ->
  validate_planned_execution env planned
    (request_context user_query cl p context (emit (EvPlan cl p token) (with_ext x3 st2)))
    (emit (EvPlan cl p token) (with_ext x3 st2)) = (validation, st4) ->
  truthy (get (fields validation) "valid") = false ->
  truthy (get (fields validation) "allow_retry") = true ->
  (FILTER_REQUIRE_USER_CONSENT config = true ->
   (get_user_confirmation env (get (fields validation) "violation_type") (ext st4)).1 = true) ->
  let st0 :=
    if FILTER_REQUIRE_USER_CONSENT config then
      emit (EvConfirm true)
        (with_ext (get_user_confirmation env (get (fields validation) "violation_type")
                     (ext st4)).2 st4)
    else st4 in
  let asked := handle_retry config env planned validation st0 in
  let st1 := if no_sequence (corrected_sequence validation) then asked.2 else st0 in
  (if no_sequence (corrected_sequence validation)
   then corrected_request asked.1 else corrected_sequence validation) = Some corrected ->
  corrected <> [] /\
  process_request config env user_query clinician_id patient_id context st
    = (let '(executed, results, st') := _execute_sequence env corrected st1 in
       (_format_response executed results retry_marker st', st')) /\
  (exists pre,
     events st1 = events st4 ++ pre /\
     count is_validate_planned pre = 0 /\
     count is_invoke pre = 0 /\
     count is_correct pre <= 1 /\
     count is_confirm pre <= 1) /\
  (exists inv,
     events (process_request config env user_query clinician_id patient_id context st).2
       = events st1 ++ inv /\
     forallb is_invoke inv = true /\
     length inv <= length (_execute_sequence env corrected st1).1.2).
Proof.
  intros Htok Hrec Hplan Hval Hinvalid Hretry Hconsent st0 asked st1 Hobtained.
  pose proof (retry_tail_runs_correction planned validation st0 corrected Hobtained)
    as (Htail & Hne & Hev1).
  fold asked in Hev1, Htail. fold st1 in Hev1, Htail.
  assert (process_request config env user_query clinician_id patient_id context st
          = (let '(executed, results, st') := _execute_sequence env corrected st1 in
             (_format_response executed results retry_marker st', st'))) as Hrun.
  { rewrite (process_request_unfold _ _ _ _ _ _ _ _ _ _ _ _ _ _ Htok Hrec Hplan Hval).
    rewrite Hinvalid, Hretry. cbn [negb]. unfold _handle_retry.
    rewrite <- Htail. subst st0.
    destruct (FILTER_REQUIRE_USER_CONSENT config).
    - specialize (Hconsent eq_refl).
      destruct (get_user_confirmation env _ (ext st4)) as [consent x].
      cbn [fst snd] in *. subst consent. reflexivity.
    - reflexivity. }
  split; [exact Hne|]. split; [exact Hrun|]. split.
  - assert (events st0 = events st4 \/ events st0 = events st4 ++ [EvConfirm true]) as Hev0.
    { subst st0. destruct (FILTER_REQUIRE_USER_CONSENT config); [by right|by left]. }
    destruct Hev0 as [He0 | He0], Hev1 as [He1 | He1]; rewrite He1, He0.
    + exists []. rewrite app_nil_r. repeat split; try done; cbn; lia.
    + exists [EvCorrect planned]. repeat split; try done; cbn; lia.
    + exists [EvConfirm true]. repeat split; try done; cbn; lia.
    + exists [EvConfirm true; EvCorrect planned]. rewrite <- app_assoc.
      repeat split; try done; cbn; lia.
  - rewrite Hrun.
    pose proof (execute_sequence_frame env corrected st1) as Hx.
    destruct (_execute_sequence env corrected st1) as [[executed results] st'].
    cbn [fst snd] in *. destruct Hx as (_ & _ & _ & _ & inv & Hi & Hinv & Hlen).
    by exists inv.
Qed.

(** C5, as the code has it.  When the verdict on the plan is valid, the
    pipeline runs, then post-execution validation is asked exactly once,
    whether the pipeline ran to the end or stopped early; its verdict is
    returned next to the execution results as the pipeline produced them,
    nothing is invoked after it, the data the operations persisted are as
    the pipeline left them, and the memory update follows whatever the
    verdict. *)
Theorem post_validation_is_advisory
    (user_query : string) (clinician_id patient_id : option string)
    (context : dict) (st : State D X)
    (token : string) (x0 : X) (cl p : option string) (st2 : State D X)
    (planned : list Step) (x3 : X) (validation : Validation) (st4 : State D X) :
  token_generator_tool env (ext st) = (Some token, x0) ->
  recall_context config env token clinician_id patient_id
    (with_token (Some token) (emit (EvToken (Some token)) (with_ext x0 st)))
    = (cl, p, st2) ->
  plan_oracle env user_query cl p token (ext st2) = (Parsed planned, x3) ->
  validate_planned_execution env planned
    (request_context user_query cl p context (emit (EvPlan cl p token) (with_ext x3 st2)))
    (emit (EvPlan cl p token) (with_ext x3 st2)) = (validation, st4) ->
  truthy (get (fields validation) "valid") = true ->
  let '(executed, results, st5) := _execute_sequence env planned st4 in
  let '(post, st6) := validate_execution_result env executed results st5 in
  let st7 := update_memory config env token user_query cl p st6 in
  process_request config env user_query clinician_id patient_id context st
    = (_format_response executed results post st7, st7) /\
  data st7 = data st5 /\
  exists mem,
    events st7 = events st5 ++ EvValidateExecuted executed results :: mem /\
    (mem = [] \/ mem = [EvRemember token]).
Proof.
  intros Htok Hrec Hplan Hval Hvalid.
  rewrite (process_request_unfold _ _ _ _ _ _ _ _ _ _ _ _ _ _ Htok Hrec Hplan Hval).
  rewrite Hvalid. cbn [negb].
  destruct (_execute_sequence env planned st4) as [[executed results] st5].
  pose proof (validate_execution_result_frame env executed results st5) as Hpv.
  destruct (validate_execution_result env executed results st5) as [post st6].
  cbn in Hpv. destruct Hpv as (Hd6 & _ & _ & _ & _ & He6).
  pose proof (update_memory_frame config env token user_query cl p st6) as Hum.
  cbn in Hum. destruct Hum as (Hd7 & _ & _ & _ & _ & He7).
  cbn zeta. split; [done|]. split; [congruence|].
  destruct He7 as [He7 | He7]; rewrite He7, He6, <- ?app_assoc;
    [exists [] | exists [EvRemember token]]; auto.
Qed.

(** On the retry path no post-execution validation is asked, and a response
    built there carries the fixed marker in place of a verdict. *)
Lemma retry_path_skips_post_validation (original_plan : list Step)
    (validation : Validation) (context : dict) (st : State D X) :
  let resp := (_handle_retry config env original_plan validation context st).1 in
  let st' := (_handle_retry config env original_plan validation context st).2 in
  count is_validate_executed (events st') = count is_validate_executed (events st) /\
  forall success token executed results v message,
    resp = Formatted success token executed results v message -> v = retry_marker.
Proof.
  intros resp st'. subst resp st'.
  pose proof (handle_retry_path config env original_plan validation context st) as Hp.
  cbn in Hp.
  destruct Hp as (_ & _ & _ & _ & pre & st1 & He1 & Hpre & _ & _ & _ & Hresp).
  destruct (_handle_retry config env original_plan validation context st) as [resp st'].
  cbn [fst snd] in *. split.
  - destruct resp as [? ? executed results v m | |]; [| |done].
    + destruct Hresp as (_ & corrected & _ & _ & Hex).
      pose proof (execute_sequence_frame env corrected st1) as Hx.
      rewrite Hex in Hx. cbn in Hx. destruct Hx as (_ & _ & _ & _ & inv & Hi & Hinv & _).
      rewrite Hi, He1, !count_app.
      rewrite (count_none is_validate_executed _ pre Hpre) by (by intros []).
      rewrite (count_none is_validate_executed _ inv Hinv) by (by intros []).
      lia.
    + subst st'. rewrite He1, count_app.
      rewrite (count_none is_validate_executed _ pre Hpre) by (by intros []).
      lia.
  - intros success token executed results v message ->. by destruct Hresp.
Qed.

(** A corrected sequence that comes with the verdict is run once the operator
    has confirmed (or no confirmation is required), whatever the severity of
    the verdict and whatever the retry counter: neither is read. *)
Lemma verdict_correction_runs_unchecked (original_plan : list Step)
    (validation : Validation) (context : dict) (st : State D X) (s : Step) (l : list Step) :
  corrected_sequence validation = Some (s :: l) ->
  (FILTER_REQUIRE_USER_CONSENT config = true ->
   (get_user_confirmation env (get (fields validation) "violation_type") (ext st)).1 = true) ->
  let st0 :=
    if FILTER_REQUIRE_USER_CONSENT config then
      emit (EvConfirm true)
        (with_ext (get_user_confirmation env (get (fields validation) "violation_type")
                     (ext st)).2 st)
    else st in
  _handle_retry config env original_plan validation context st =
    let '(executed, results, st') := _execute_sequence env (s :: l) st0 in
    (_format_response executed results retry_marker st', st').
Proof.
  intros Hcorr Hconsent st0. subst st0. unfold _handle_retry.
  destruct (FILTER_REQUIRE_USER_CONSENT config).
  - specialize (Hconsent eq_refl).
    destruct (get_user_confirmation env _ (ext st)) as [consent x]. cbn in Hconsent.
    subst consent. cbn [negb fst snd]. by rewrite Hcorr.
  - cbn [negb]. by rewrite Hcorr.
Qed.

(** C3, as the code has it.  The retry counter belongs to the one filter
    agent of the process: a request leaves it as it was or adds one to it and
    never resets it; once it has reached [FILTER_MAX_RETRIES], [handle_retry]
    grants no retry and supplies no correction, whatever the request; a retry
    it grants is one below the limit and adds one; only [reset_counters]
    brings the counter back to zero. *)
Theorem retry_counter_is_process_wide :
  (forall (user_query : string) (clinician_id patient_id : option string)
      (context : dict) (st : State D X),
    retry_count st
      <= retry_count (process_request config env user_query clinician_id patient_id context st).2
      <= retry_count st + 1)
  /\
  (forall (sequence : list Step) (violation_info : Validation) (st : State D X),
    FILTER_MAX_RETRIES config <= retry_count st ->
    allow_retry (handle_retry config env sequence violation_info st).1 = false /\
    corrected_request (handle_retry config env sequence violation_info st).1 = None /\
    (handle_retry config env sequence violation_info st).2 = st)
  /\
  (forall (sequence : list Step) (violation_info : Validation) (st : State D X),
    allow_retry (handle_retry config env sequence violation_info st).1 = true ->
    retry_count st < FILTER_MAX_RETRIES config /\
    retry_count (handle_retry config env sequence violation_info st).2 = retry_count st + 1)
  /\
  (forall st : State D X, retry_count (reset_counters st) = 0).
Proof.
  split; [|split; [|split]].
  - intros user_query clinician_id patient_id context st.
    by destruct (process_request_trace config env user_query clinician_id patient_id
                   context st) as (evs & _ & _ & _ & _ & _ & _ & Hr).
  - intros sequence violation_info st Hmax. unfold handle_retry.
    destruct (is_str "critical" _); [done|].
    destruct (Nat.leb_spec (FILTER_MAX_RETRIES config) (retry_count st)); [done|lia].
  - intros sequence violation_info st Hallow.
    pose proof (handle_retry_frame config env sequence violation_info st) as Hf.
    cbn in Hf. destruct Hf as (_ & _ & _ & _ & _ & [(Ha & _) | (_ & _ & Hr & Hlt & _)]).
    + congruence.
    + done.
  - done.
Qed.

End GateClaims.

(** * The orchestrator on concrete requests *)

Module ScenarioRuns.
Import Scenario.

(** On the path through the filter agent, a critical violation is refused
    before the retry budget is looked at. *)
Lemma handle_retry_refuses_critical {D X : Type} (config : Config) (env : Env D X)
    (sequence : list Step) (violation_info : Validation) (st : State D X) :
  is_str "critical" (get_default (fields violation_info) "severity" (VStr "error")) = true ->
  handle_retry config env sequence violation_info st =
    ({| allow_retry := false; reason := Some CriticalNoRetry;
        corrected_request := None; retry_number := None |}, st).
Proof. intros Hcrit. unfold handle_retry. by rewrite Hcrit. Qed.

(** C1, evaluated on a concrete request.  The verdict is invalid with severity
    ["critical"], the oracle marks it retryable and supplies the corrected
    sequence itself, and the operator confirms: the corrected sequence is
    executed and the request completes, without the retry counter being
    read or changed.  The same verdict without a corrected sequence goes
    through the filter agent and is rejected. *)
Theorem critical_violation_is_retried :
  let run :=
    process_request config_template (scripted_env registry script_critical)
      "Fetch PT_0001" (Some "DR_0001") (Some "PT_0001") ∅ (boot ["T1"]) in
  let bare :=
    process_request config_template (scripted_env registry script_critical_bare)
      "Fetch PT_0001" (Some "DR_0001") (Some "PT_0001") ∅ (boot ["T1"]) in
  is_str "critical" (get (fields verdict_critical) "severity") = true /\
  truthy (get (fields verdict_critical) "valid") = false /\
  match run.1 with
  | Formatted success _ executed results v _ =>
      success = VBool true /\ map tool executed = map tool compliant_plan /\
      length results = 4 /\ v = retry_marker
  | _ => False
  end /\
  data run.2 = map tool compliant_plan /\
  retry_count run.2 = 0 /\
  bare.1 = Rejected (Literal "Unable to generate corrected sequence") None (Some "T1") /\
  data bare.2 = [].
Proof. vm_compute. repeat split; reflexivity. Qed.

(** C3 does not hold.  Three requests by three clinicians were each granted a
    retry.  A fourth request by another clinician, for a violation of its
    own, is then refused its correction; the same request in the same state
    with the counters reset is retried and completes. *)
Lemma retry_budget_consumed_by_other_requests :
  let env := scripted_env registry script_error in
  retry_count after_three_retries = FILTER_MAX_RETRIES config_template /\
  (process_request config_template env "Fetch PT_0004" (Some "DR_0004") (Some "PT_0004") ∅
     after_three_retries).1
    = Rejected (Literal "Unable to generate corrected sequence") None (Some "T4") /\
  match (process_request config_template env "Fetch PT_0004" (Some "DR_0004")
           (Some "PT_0004") ∅ (reset_counters after_three_retries)).1 with
  | Formatted success _ executed results _ _ =>
      success = VBool true /\ map tool executed = map tool [verify; consent; fetch]
  | _ => False
  end.
Proof. vm_compute. repeat split; reflexivity. Qed.

(** C5 does not hold after a retry.  The corrected sequence runs and leaves
    its effects, no post-execution validation is asked, and the response
    says valid although the oracle's post-execution verdict would be
    invalid. *)
Lemma no_post_validation_after_retry :
  let run :=
    process_request config_template (scripted_env registry script_error)
      "Fetch PT_0001" (Some "DR_0001") (Some "PT_0001") ∅ (boot ["T1"]) in
  data run.2 = map tool [verify; consent; fetch] /\
  count is_invoke (events run.2) = 3 /\
  count is_validate_executed (events run.2) = 0 /\
  post_verdict script_error = Parsed verdict_post_invalid /\
  truthy (get (fields verdict_post_invalid) "valid") = false /\
  match run.1 with
  | Formatted success _ _ results v _ =>
      success = VBool true /\ length results = 3 /\ v = retry_marker
  | _ => False
  end.
Proof. vm_compute. repeat split; reflexivity. Qed.

(** C6, evaluated on two concrete requests.  A first request with both ids stores them
    under its token ["T1"], where a recall would find them.  A follow-up
    request of the same clinician without a patient id mints ["T2"], recalls
    under ["T2"], finds nothing and asks for a plan without a patient. *)
Theorem memory_keyed_by_fresh_token :
  let first :=
    serve script_ok "Access the record of PT_0001" (Some "DR_0001") (Some "PT_0001")
      (boot ["T1"; "T2"]) in
  let second := serve script_ok "Summarise that record" (Some "DR_0001") None first in
  (last_patient_id <$> (MemoryManager.recall 1000 "T1" (memory first)).1)
    = Some (Some "PT_0001") /\
  (MemoryManager.recall 1000 "T2" (memory first)).1 = None /\
  List.filter is_memory_or_plan (events second) =
    [ EvPlan (Some "DR_0001") (Some "PT_0001") "T1"; EvRemember "T1";
      EvRecall "T2"; EvPlan (Some "DR_0001") None "T2" ].
Proof. vm_compute. repeat split; reflexivity. Qed.

Lemma corrected_sequence_executed_directly_witness :
  [verify; consent; fetch] <> [] /\
  process_request config_template (scripted_env registry script_error)
    "Fetch PT_0001" (Some "DR_0001") (Some "PT_0001") ∅ (boot ["T1"])
    = (let '(executed, results, st') :=
         _execute_sequence (scripted_env registry script_error)
           [verify; consent; fetch] (corrected_by_agent script_error) in
       (_format_response executed results retry_marker st', st')) /\
  (exists pre,
     events (corrected_by_agent script_error) = events (judged script_error) ++ pre /\
     count is_validate_planned pre = 0 /\
     count is_invoke pre = 0 /\
     count is_correct pre <= 1 /\
     count is_confirm pre <= 1) /\
  (exists inv,
     events (process_request config_template (scripted_env registry script_error)
               "Fetch PT_0001" (Some "DR_0001") (Some "PT_0001") ∅ (boot ["T1"])).2
       = events (corrected_by_agent script_error) ++ inv /\
     forallb is_invoke inv = true /\
     length inv <= length (_execute_sequence (scripted_env registry script_error)
                             [verify; consent; fetch]
                             (corrected_by_agent script_error)).1.2).
Proof.
  exact (corrected_sequence_executed_directly config_template
           (scripted_env registry script_error)
           "Fetch PT_0001" (Some "DR_0001") (Some "PT_0001") ∅ (boot ["T1"])
           "T1" [] (Some "DR_0001") (Some "PT_0001") minted
           [verify; fetch] [] verdict_error (judged script_error)
           [verify; consent; fetch]
           eq_refl eq_refl eq_refl eq_refl eq_refl eq_refl (fun _ => eq_refl) eq_refl).
Defined.

(** The retried request of the scenario, run: the three corrected steps are
    invoked, in order, after one confirmation and one correction, and the
    response carries their three results. *)
Example corrected_sequence_run :
  events (process_request config_template (scripted_env registry script_error)
            "Fetch PT_0001" (Some "DR_0001") (Some "PT_0001") ∅ (boot ["T1"])).2
    = events (judged script_error) ++
      [ EvConfirm true; EvCorrect [verify; fetch];
        EvInvoke "verify_clinician_credentials" {[ "clinician_id" := VStr "DR_0001" ]};
        EvInvoke "check_patient_consent_status"
          {[ "patient_id" := VStr "PT_0001"; "clinician_id" := VStr "DR_0001" ]};
        EvInvoke "fetch_patient_record" {[ "patient_id" := VStr "PT_0001" ]} ] /\
  data (process_request config_template (scripted_env registry script_error)
          "Fetch PT_0001" (Some "DR_0001") (Some "PT_0001") ∅ (boot ["T1"])).2
    = [ "verify_clinician_credentials"; "check_patient_consent_status";
        "fetch_patient_record" ].
Proof. vm_compute. split; reflexivity. Qed.

Lemma retry_counter_is_process_wide_witness :
  allow_retry (handle_retry config_template (scripted_env registry script_error)
                 [verify; fetch] verdict_error after_three_retries).1 = false /\
  corrected_request (handle_retry config_template (scripted_env registry script_error)
                       [verify; fetch] verdict_error after_three_retries).1 = None /\
  (handle_retry config_template (scripted_env registry script_error)
     [verify; fetch] verdict_error after_three_retries).2 = after_three_retries.
Proof.
  destruct (retry_counter_is_process_wide config_template
              (scripted_env registry script_error)) as (_ & Hmax & _).
  apply Hmax. vm_compute. lia.
Defined.

Lemma post_validation_is_advisory_witness :
  let env := scripted_env registry script_ok in
  let '(executed, results, st5) := _execute_sequence env compliant_plan (judged script_ok) in
  let '(post, st6) := validate_execution_result env executed results st5 in
  let st7 := update_memory config_template env "T1" "Fetch PT_0001"
               (Some "DR_0001") (Some "PT_0001") st6 in
  process_request config_template env "Fetch PT_0001" (Some "DR_0001") (Some "PT_0001") ∅
    (boot ["T1"]) = (_format_response executed results post st7, st7) /\
  data st7 = data st5 /\
  exists mem,
    events st7 = events st5 ++ EvValidateExecuted executed results :: mem /\
    (mem = [] \/ mem = [EvRemember "T1"]).
Proof.
  exact (post_validation_is_advisory config_template (scripted_env registry script_ok)
           "Fetch PT_0001" (Some "DR_0001") (Some "PT_0001") ∅ (boot ["T1"])
           "T1" [] (Some "DR_0001") (Some "PT_0001") minted
           compliant_plan [] verdict_ok (judged script_ok)
           eq_refl eq_refl eq_refl eq_refl eq_refl).
Defined.

(** The pipeline on the design document's scenarios: a consent denial on the
    second of four steps, and a fault raised by the third. *)
Example pipeline_stops_on_denial :
  let run := _execute_sequence (scripted_env registry_denying script_ok)
               compliant_plan minted in
  length run.1.2 = 2 /\
  run.1.2 !! 1 = Some {[ "success" := VBool true; "consent_granted" := VBool false ]} /\
  data run.2 = ["verify_clinician_credentials"; "check_patient_consent_status"].
Proof. vm_compute. repeat split; reflexivity. Qed.

Example pipeline_stops_on_fault :
  let run := _execute_sequence (scripted_env registry_raising script_ok)
               compliant_plan minted in
  run.1.2 = [ {[ "success" := VBool true ]}; {[ "success" := VBool true ]};
              {[ "success" := VBool false; "error" := VStr "boom" ]} ] /\
  count is_invoke (events run.2) = 3.
Proof. vm_compute. repeat split; reflexivity. Qed.

(** The audit step, planned without a token, is run with the request's. *)
Example audit_step_gets_session_token :
  let run := _execute_sequence (scripted_env registry script_ok) [audit] minted in
  (fun s => (fun ps => get ps "token_id") <$> params s) <$> run.1.1
    = [Some (VStr "T1")].
Proof. vm_compute. reflexivity. Qed.

End ScenarioRuns.

(** * Further properties of the session memory store *)

Module MemoryExtras.
Import MemoryManager StoreRuns MemoryFacts.

Lemma count_active_open now c :
  closed c = false ->
  get_active_sessions_count now c =
    (size (filter (fun kr => (now < expires_at kr.2)%Z) (rows c)), c).
Proof.
  intros Hopen.
  unfold get_active_sessions_count, Sql.try_except, Sql.bind, Sql.count_active, Sql.ret,
    Sql.execute.
  rewrite Hopen. destruct c as [rs cl]; cbn in *. by subst cl.
Qed.

Lemma statistics_open config now c :
  closed c = false ->
  get_statistics config now c =
    (Some {| total_sessions := size (rows c);
             active_sessions := size (filter (fun kr => (now < expires_at kr.2)%Z) (rows c));
             expired_sessions :=
               (Z.of_nat (size (rows c))
                - Z.of_nat (size (filter (fun kr => (now < expires_at kr.2)%Z) (rows c))))%Z;
             memory_duration_hours := MEMORY_DURATION_HOURS config |}, c).
Proof.
  intros Hopen.
  unfold get_statistics, Sql.try_except, Sql.bind, Sql.count_all, Sql.count_active, Sql.ret,
    Sql.execute.
  rewrite Hopen. destruct c as [rs cl]; cbn in *. subst cl. cbn. reflexivity.
Qed.

Lemma clear_open c :
  closed c = false -> clear_all_memory c = (true, {| rows := ∅; closed := false |}).
Proof.
  intros Hopen.
  unfold clear_all_memory, Sql.try_except, Sql.bind, Sql.delete_all, Sql.commit, Sql.ret,
    Sql.execute.
  rewrite Hopen. reflexivity.
Qed.

Lemma closed_after_op (c : Conn) (closed_before : closed c = true) config now sid p cl a :
  remember config now sid p cl a c = (false, c) /\
  recall now sid c = (None, c) /\
  forget sid c = (false, c) /\
  cleanup_expired_sessions now c = (0, c) /\
  get_active_sessions_count now c = (0, c) /\
  clear_all_memory c = (false, c) /\
  get_statistics config now c = (None, c).
Proof.
  split; [by apply remember_closed|]. split; [by apply recall_closed|].
  split; [by apply forget_closed|]. split; [by apply cleanup_closed|].
  unfold get_active_sessions_count, clear_all_memory, get_statistics, Sql.try_except,
    Sql.bind, Sql.count_active, Sql.count_all, Sql.delete_all, Sql.execute.
  rewrite closed_before. done.
Qed.

(** Round trip with sliding expiry.  After a [remember] at [now] on an open
    connection, with an expiry instant [now + TTL] that a [datetime] can
    hold, [remember] reports success, and [recall] returns the session's row
    at every instant before [now + TTL] and nothing from that instant on,
    whatever expiry the row had before; the row holds the merged fields and
    keeps its creation stamp, or is a new row with the given fields, stamped
    by SQLite in whole seconds. *)
Theorem remember_then_recall (config : Config) (now : Z) (sid : string)
    (p cl a : option string) (c : Conn) :
  closed c = false ->
  representable (now + hours (MEMORY_DURATION_HOURS config)) ->
  let c' := (remember config now sid p cl a c).2 in
  let deadline := (now + hours (MEMORY_DURATION_HOURS config))%Z in
  (remember config now sid p cl a c).1 = true /\
  (forall t, (deadline <= t)%Z -> (recall t sid c').1 = None) /\
  exists r,
    (forall t, (t < deadline)%Z -> (recall t sid c').1 = Some r) /\
    expires_at r = deadline /\
    match rows c !! sid with
    | Some old =>
        clinician_id r = COALESCE cl (clinician_id old) /\
        last_patient_id r = COALESCE p (last_patient_id old) /\
        last_action r = COALESCE a (last_action old) /\
        created_at r = created_at old
    | None =>
        clinician_id r = cl /\ last_patient_id r = p /\ last_action r = a /\
        created_at r = Sql.CURRENT_TIMESTAMP now /\
        (now - 1000000 < created_at r <= now)%Z /\
        conversation_history r = initial_history now p cl a
    end.
Proof.
  intros Hopen _ c' deadline. subst c' deadline.
  rewrite (remember_open _ _ _ _ _ _ _ Hopen). cbn [fst snd].
  split; [done|].
  set (r := match rows c !! sid with Some _ => _ | None => _ end).
  assert (expires_at r = (now + hours (MEMORY_DURATION_HOURS config))%Z) as Hexp.
  { subst r. by destruct (rows c !! sid). }
  split.
  - intros t Ht. rewrite recall_open by done. cbn. rewrite lookup_insert_eq, Hexp.
    destruct (Z.ltb_spec t (now + hours (MEMORY_DURATION_HOURS config))); [lia|done].
  - exists r. split; [|split; [done|]].
    + intros t Ht. rewrite recall_open by done. cbn. rewrite lookup_insert_eq, Hexp.
      destruct (Z.ltb_spec t (now + hours (MEMORY_DURATION_HOURS config))); [done|lia].
    + subst r. destruct (rows c !! sid); cbn; [done|].
      repeat split; try done; unfold Sql.CURRENT_TIMESTAMP.
      * pose proof (Z.mod_pos_bound now 1000000 ltac:(lia)).
        pose proof (Z.div_mod now 1000000 ltac:(lia)). lia.
      * pose proof (Z.mod_pos_bound now 1000000 ltac:(lia)).
        pose proof (Z.div_mod now 1000000 ltac:(lia)). lia.
Qed.

Lemma remember_then_recall_witness :
  (recall (hours 12 + 999) "S1"
     (remember config_template 1000 "S1" (Some "PT_0001") None (Some "access")
        empty_conn).2).1
  = Some (Sql.new_row "S1" None (Some "PT_0001") (Some "access")
            (initial_history 1000 (Some "PT_0001") None (Some "access"))
            (1000 + hours 12) 1000).
Proof.
  assert (representable (1000 + hours (MEMORY_DURATION_HOURS config_template))) as Hrep.
  { split; vm_compute; discriminate. }
  destruct (remember_then_recall config_template 1000 "S1" (Some "PT_0001") None
              (Some "access") empty_conn eq_refl Hrep) as (_ & _ & r & Hr & _).
  rewrite (Hr (hours 12 + 999)%Z) by (vm_compute; reflexivity).
  rewrite <- (Hr 0%Z) by (vm_compute; reflexivity).
  vm_compute. reflexivity.
Defined.

(** [remember] and [forget] touch one session: the rows of every other
    session, and what [recall] returns for them, stay as they were. *)
Theorem remember_and_forget_touch_one_session (config : Config) (now : Z)
    (sid other : string) (p cl a : option string) (c : Conn) :
  sid <> other ->
  rows (remember config now sid p cl a c).2 !! other = rows c !! other /\
  rows (forget sid c).2 !! other = rows c !! other /\
  (forall t, (recall t other (remember config now sid p cl a c).2).1
             = (recall t other c).1) /\
  (forall t, (recall t other (forget sid c).2).1 = (recall t other c).1).
Proof.
  intros Hne. destruct (closed c) eqn:Hc.
  - rewrite remember_closed, forget_closed by done. done.
  - rewrite remember_open, forget_open by done. cbn [snd rows].
    rewrite lookup_insert_ne, lookup_delete_ne by done.
    split; [done|]. split; [done|].
    split; intros t; rewrite !recall_open by done; cbn;
      [by rewrite lookup_insert_ne | by rewrite lookup_delete_ne].
Qed.

Lemma remember_and_forget_touch_one_session_witness :
  rows (remember config_template 5 "S2" None None None
          (remember config_template 1 "S1" None (Some "DR_0001") None empty_conn).2).2
    !! "S1"
  = rows (remember config_template 1 "S1" None (Some "DR_0001") None empty_conn).2 !! "S1".
Proof.
  apply (remember_and_forget_touch_one_session config_template 5 "S2" "S1").
  intros Heq. discriminate Heq.
Defined.

(** [remember] does not look at the expiry of the row it finds.  With a
    positive TTL, a row that [recall] no longer returns, and that no sweep
    has removed, is brought back by the next [remember] with its old fields
    merged in and its old history continued. *)
Theorem remember_revives_expired_row (config : Config) (now : Z) (sid : string)
    (p cl a : option string) (c : Conn) (old : Row) :
  (0 < MEMORY_DURATION_HOURS config)%Z ->
  closed c = false ->
  rows c !! sid = Some old ->
  (expires_at old <= now)%Z ->
  (recall now sid c).1 = None /\
  exists r,
    (recall now sid (remember config now sid p cl a c).2).1 = Some r /\
    clinician_id r = COALESCE cl (clinician_id old) /\
    last_patient_id r = COALESCE p (last_patient_id old) /\
    last_action r = COALESCE a (last_action old) /\
    conversation_history r = updated_history config now p cl a (conversation_history old).
Proof.
  intros Httl Hopen Hold Hexp.
  rewrite recall_open by done. cbn. rewrite Hold.
  destruct (Z.ltb_spec now (expires_at old)); [lia|]. split; [done|].
  rewrite remember_open by done. cbn [snd].
  rewrite recall_open by done. cbn. rewrite lookup_insert_eq, Hold. cbn.
  destruct (Z.ltb_spec now (now + hours (MEMORY_DURATION_HOURS config))) as [_|Hge].
  - eauto 10.
  - unfold hours in Hge. lia.
Qed.

Lemma remember_revives_expired_row_witness :
  let c := (remember config_template 0 "S1" None (Some "DR_0001") (Some "access")
              empty_conn).2 in
  (recall (hours 13) "S1" c).1 = None /\
  exists r,
    (recall (hours 13) "S1"
       (remember config_template (hours 13) "S1" (Some "PT_0002") None None c).2).1
      = Some r /\
    clinician_id r = Some "DR_0001" /\
    last_patient_id r = Some "PT_0002" /\
    last_action r = Some "access" /\
    length (conversation_history r) = 1.
Proof.
  intros c.
  destruct (remember_revives_expired_row config_template (hours 13) "S1"
              (Some "PT_0002") None None c
              (Sql.new_row "S1" (Some "DR_0001") None (Some "access")
                 (initial_history 0 None (Some "DR_0001") (Some "access"))
                 (hours 12) 0)
              eq_refl eq_refl eq_refl)
    as (Hgone & r & Hr & Hcl & Hp & Ha & Hh).
  { vm_compute. discriminate. }
  split; [exact Hgone|]. exists r. rewrite Hcl, Hp, Ha, Hh. done.
Defined.

(** A sweep is invisible to [recall]: for every session and every instant
    not before the sweep's, [recall] returns the same after the sweep as
    before it; and a second sweep at the same or an earlier instant removes
    nothing. *)
Theorem cleanup_invisible_to_recall (now t : Z) (sid : string) (c : Conn) :
  (now <= t)%Z ->
  (recall t sid (cleanup_expired_sessions now c).2).1 = (recall t sid c).1 /\
  forall earlier, (earlier <= now)%Z ->
    (cleanup_expired_sessions earlier (cleanup_expired_sessions now c).2).1 = 0.
Proof.
  intros Hle. destruct (closed c) eqn:Hc.
  - rewrite !cleanup_closed by done. split; [done|]. intros. by rewrite cleanup_closed.
  - rewrite cleanup_open by done. cbn [snd]. split.
    + rewrite !recall_open by done. cbn.
      destruct (rows c !! sid) as [r|] eqn:Hr.
      * destruct (decide (expires_at r < now)%Z) as [Hexp|Hexp].
        -- rewrite (proj2 (map_lookup_filter_None _ _ _)).
           ++ destruct (Z.ltb_spec t (expires_at r)); [lia|done].
           ++ right. intros r' Hr'. cbn. rewrite Hr in Hr'. injection Hr' as <-. tauto.
        -- rewrite (proj2 (map_lookup_filter_Some _ _ _ r)); [done|]. done.
      * rewrite (proj2 (map_lookup_filter_None _ _ _)); [done|]. by left.
    + intros earlier Hearlier. rewrite cleanup_open by done. cbn [fst rows].
      apply map_size_empty_iff, map_empty_filter.
      intros sid' r Hl. cbn. apply map_lookup_filter_Some in Hl as [_ Hl]. cbn in Hl. lia.
Qed.

Lemma cleanup_invisible_to_recall_witness :
  let c := (remember config_template 0 "S1" None (Some "DR_0001") None empty_conn).2 in
  (recall (hours 5) "S1" (cleanup_expired_sessions (hours 4) c).2).1
  = (recall (hours 5) "S1" c).1.
Proof.
  intros c. apply (cleanup_invisible_to_recall (hours 4) (hours 5) "S1" c).
  vm_compute. discriminate.
Defined.

(** A present but empty action.  [remember(id, action="")] on an existing
    row replaces [last_action] by the empty string, because the UPDATE tests
    for NULL, and appends nothing to the history, because [if action:] tests
    for truth. *)
Theorem empty_action_overwrites_without_history (config : Config) (now : Z)
    (sid : string) (p cl : option string) (c : Conn) (old : Row) :
  closed c = false ->
  rows c !! sid = Some old ->
  exists r,
    rows (remember config now sid p cl (Some "") c).2 !! sid = Some r /\
    last_action r = Some "" /\
    conversation_history r = conversation_history old.
Proof.
  intros Hopen Hold. rewrite remember_open by done. cbn [snd rows].
  rewrite lookup_insert_eq, Hold. eexists. split; [reflexivity|]. done.
Qed.

Lemma empty_action_overwrites_without_history_witness :
  exists r,
    rows (remember config_template 2 "S1" None None (Some "")
            (remember config_template 1 "S1" None None (Some "access") empty_conn).2).2
      !! "S1" = Some r /\
    last_action r = Some "" /\
    conversation_history r
      = conversation_history
          (Sql.new_row "S1" None None (Some "access")
             (initial_history 1 None None (Some "access")) (1 + hours 12) 1).
Proof.
  exact (empty_action_overwrites_without_history config_template 2 "S1" None None
           (remember config_template 1 "S1" None None (Some "access") empty_conn).2
           _ eq_refl eq_refl).
Defined.

(** [get_statistics] on an open connection: the total is the number of rows,
    the active count is what [get_active_sessions_count] returns, and the
    expired count is the number of rows whose [expires_at] is not after the
    current instant, so total = active + expired.  A sweep at the same
    instant removes at most that many rows (it keeps a row expiring exactly
    now) and leaves the active count as it was. *)
Theorem statistics_partition_rows (config : Config) (now : Z) (c : Conn) :
  closed c = false ->
  exists s,
    (get_statistics config now c).1 = Some s /\
    (get_statistics config now c).2 = c /\
    total_sessions s = size (rows c) /\
    active_sessions s = (get_active_sessions_count now c).1 /\
    expired_sessions s
      = Z.of_nat (size (filter (fun kr => (expires_at kr.2 <= now)%Z) (rows c))) /\
    (Z.of_nat (total_sessions s) = Z.of_nat (active_sessions s) + expired_sessions s)%Z /\
    (Z.of_nat (cleanup_expired_sessions now c).1 <= expired_sessions s)%Z /\
    (get_active_sessions_count now (cleanup_expired_sessions now c).2).1
      = active_sessions s.
Proof.
  intros Hopen. rewrite statistics_open, count_active_open, cleanup_open by done.
  rewrite count_active_open by done. cbn [fst snd rows].
  eexists. split; [reflexivity|]. cbn [total_sessions active_sessions expired_sessions].
  assert (size (rows c)
          = size (filter (fun kr => (now < expires_at kr.2)%Z) (rows c))
            + size (filter (fun kr => (expires_at kr.2 <= now)%Z) (rows c))) as Hsplit.
  { rewrite <- (map_filter_union_complement
                  (fun kr : string * Row => (now < expires_at kr.2)%Z) (rows c)) at 1.
    rewrite map_size_disj_union by apply map_disjoint_filter_complement.
    f_equal. f_equal. apply map_filter_ext. intros sid r _. cbn. lia. }
  split; [done|]. split; [done|]. split; [done|]. split; [lia|]. split; [lia|]. split.
  - assert (size (filter (fun kr : string * Row => (expires_at kr.2 < now)%Z) (rows c))
            <= size (filter (fun kr : string * Row => (expires_at kr.2 <= now)%Z) (rows c)))
      as Hle.
    { apply map_subseteq_size, map_filter_subseteq_ext. intros sid r _. cbn. lia. }
    lia.
  - f_equal. apply map_filter_filter_l. intros sid r _. cbn. lia.
Qed.

Lemma statistics_partition_rows_witness :
  let c := (remember config_template 0 "S2" None None None
              (remember config_template (- hours 12) "S1" None None None empty_conn).2).2 in
  exists s,
    (get_statistics config_template 0 c).1 = Some s /\
    total_sessions s = 2 /\ active_sessions s = 1 /\ expired_sessions s = 1%Z /\
    (cleanup_expired_sessions 0 c).1 = 0.
Proof.
  intros c.
  destruct (statistics_partition_rows config_template 0 c eq_refl)
    as (s & Hs & _ & Ht & Ha & He & _).
  exists s. rewrite Ht, Ha, He. split; [exact Hs|]. vm_compute. repeat split; reflexivity.
Defined.

(** [clear_all_memory] on an open connection empties the table: afterwards
    no session can be recalled, nothing is counted, and a [remember] (with
    an expiry instant that a [datetime] can hold) starts the session anew:
    the row has the given fields, the history has at most the one new entry,
    and the creation stamp is SQLite's, in whole seconds. *)
Theorem clear_all_memory_empties_store (config : Config) (c : Conn) :
  closed c = false ->
  (clear_all_memory c).1 = true /\
  (forall t sid, (recall t sid (clear_all_memory c).2).1 = None) /\
  (forall t, (total_sessions <$> (get_statistics config t (clear_all_memory c).2).1)
             = Some 0) /\
  (forall now sid p cl a,
     representable (now + hours (MEMORY_DURATION_HOURS config)) ->
     exists r,
       rows (remember config now sid p cl a (clear_all_memory c).2).2 !! sid = Some r /\
       session_id r = sid /\
       clinician_id r = cl /\ last_patient_id r = p /\ last_action r = a /\
       conversation_history r = initial_history now p cl a /\
       expires_at r = (now + hours (MEMORY_DURATION_HOURS config))%Z /\
       created_at r = Sql.CURRENT_TIMESTAMP now).
Proof.
  intros Hopen. rewrite clear_open by done. cbn [fst snd].
  split; [done|]. split; [|split].
  - intros t sid. by rewrite recall_open.
  - intros t. by rewrite statistics_open.
  - intros now sid p cl a _. rewrite remember_open by done. cbn [snd rows].
    rewrite lookup_insert_eq, lookup_empty. eexists. split; [reflexivity|]. done.
Qed.

Lemma clear_all_memory_empties_store_witness :
  (recall 5 "S1"
     (clear_all_memory
        (remember config_template 1 "S1" None (Some "DR_0001") None empty_conn).2).2).1
  = None.
Proof.
  destruct (clear_all_memory_empties_store config_template
              (remember config_template 1 "S1" None (Some "DR_0001") None empty_conn).2
              eq_refl) as (_ & Hrecall & _).
  apply Hrecall.
Defined.

(** After [close()], every operation fails softly: the writes report
    [False], the reads report nothing, the counts report zero, the statistics
    are empty, and the rows are left as they were. *)
Theorem closed_store_fails_softly (config : Config) (now : Z) (sid : string)
    (p cl a : option string) (c : Conn) :
  let c' := close c in
  rows c' = rows c /\
  remember config now sid p cl a c' = (false, c') /\
  recall now sid c' = (None, c') /\
  forget sid c' = (false, c') /\
  cleanup_expired_sessions now c' = (0, c') /\
  get_active_sessions_count now c' = (0, c') /\
  clear_all_memory c' = (false, c') /\
  get_statistics config now c' = (None, c') /\
  is_expired now sid c' = (true, c') /\
  get_last_patient now sid c' = (None, c') /\
  get_last_clinician now sid c' = (None, c') /\
  get_conversation_history now sid c' = ([], c').
Proof.
  intros c'. assert (closed c' = true) as Hc by done.
  destruct (closed_after_op c' Hc config now sid p cl a)
    as (Hrem & Hrec & Hfor & Hcl & Hcnt & Hclr & Hst).
  unfold is_expired, get_last_patient, get_last_clinician, get_conversation_history.
  rewrite Hrec. done.
Qed.

(** Once the TTL has elapsed since the last [remember] of a session, every
    read helper reports the session as gone, and the active count leaves it
    out, while it is still in the table and in the total of the statistics
    until a sweep. *)
Theorem expired_session_reads_as_absent (config : Config) (now t : Z) (sid : string)
    (p cl a : option string) (c : Conn) :
  closed c = false ->
  (now + hours (MEMORY_DURATION_HOURS config) <= t)%Z ->
  let c' := (remember config now sid p cl a c).2 in
  (is_expired t sid c').1 = true /\
  (get_last_patient t sid c').1 = None /\
  (get_last_clinician t sid c').1 = None /\
  (get_conversation_history t sid c').1 = [] /\
  is_Some (rows c' !! sid) /\
  (get_active_sessions_count t c').1 < size (rows c') /\
  (total_sessions <$> (get_statistics config t c').1) = Some (size (rows c')).
Proof.
  intros Hopen Hlate c'. subst c'.
  rewrite remember_open by done. cbn [snd].
  set (r := match rows c !! sid with Some _ => _ | None => _ end).
  assert (expires_at r = (now + hours (MEMORY_DURATION_HOURS config))%Z) as Hexp.
  { subst r. by destruct (rows c !! sid). }
  unfold is_expired, get_last_patient, get_last_clinician, get_conversation_history.
  rewrite recall_open, count_active_open, statistics_open by done.
  cbn [fst snd rows]. rewrite lookup_insert_eq.
  destruct (Z.ltb_spec t (expires_at r)); [lia|].
  split; [done|]. split; [done|]. split; [done|]. split; [done|]. split; [eauto|].
  split; [|done].
  assert (filter (fun kr : string * Row => (t < expires_at kr.2)%Z) (<[sid:=r]> (rows c))
          ⊆ delete sid (<[sid:=r]> (rows c))) as Hsub.
  { apply map_subseteq_spec. intros k v Hkv.
    apply map_lookup_filter_Some in Hkv as [Hkv Hact]. cbn in Hact.
    destruct (decide (k = sid)) as [->|Hne].
    - rewrite lookup_insert_eq in Hkv. injection Hkv as <-. lia.
    - by rewrite lookup_delete_ne. }
  apply map_subseteq_size in Hsub.
  rewrite map_size_delete, lookup_insert_eq in Hsub.
  assert (size (<[sid:=r]> (rows c)) <> 0).
  { apply map_size_non_empty_iff. intros He.
    assert ((<[sid:=r]> (rows c)) !! sid = Some r) as Hl by apply lookup_insert_eq.
    rewrite He in Hl. by rewrite lookup_empty in Hl. }
  lia.
Qed.

Lemma expired_session_reads_as_absent_witness :
  let c := (remember config_template 0 "S1" (Some "PT_0001") None None empty_conn).2 in
  (is_expired (hours 12) "S1" c).1 = true /\
  (get_last_patient (hours 12) "S1" c).1 = None /\
  is_Some (rows c !! "S1").
Proof.
  intros c.
  destruct (expired_session_reads_as_absent config_template 0 (hours 12) "S1"
              (Some "PT_0001") None None empty_conn eq_refl)
    as (H1 & H2 & _ & _ & H5 & _).
  { vm_compute. discriminate. }
  split; [exact H1|]. split; [exact H2|exact H5].
Defined.

(** [forget] followed by [remember] (with an expiry instant that a
    [datetime] can hold) starts the session anew: the new row has exactly the
    given fields, its history has at most the one new entry, its creation
    stamp is SQLite's at the [remember], in whole seconds, and nothing of the
    forgotten row is merged in. *)
Theorem forget_then_remember_starts_anew (config : Config) (now : Z) (sid : string)
    (p cl a : option string) (c : Conn) :
  closed c = false ->
  representable (now + hours (MEMORY_DURATION_HOURS config)) ->
  exists r,
    rows (remember config now sid p cl a (forget sid c).2).2 !! sid = Some r /\
    session_id r = sid /\
    clinician_id r = cl /\ last_patient_id r = p /\ last_action r = a /\
    conversation_history r = initial_history now p cl a /\
    expires_at r = (now + hours (MEMORY_DURATION_HOURS config))%Z /\
    created_at r = Sql.CURRENT_TIMESTAMP now.
Proof.
  intros Hopen _. rewrite forget_open by done. cbn [snd].
  rewrite remember_open by done. cbn [snd rows].
  rewrite lookup_insert_eq, lookup_delete_eq. eexists. split; [reflexivity|]. done.
Qed.

Lemma forget_then_remember_starts_anew_witness :
  exists r,
    rows (remember config_template 2000000 "S1" (Some "PT_0002") None None
            (forget "S1"
               (remember config_template 1 "S1" None (Some "DR_0001") (Some "access")
                  empty_conn).2).2).2 !! "S1" = Some r /\
    session_id r = "S1" /\
    clinician_id r = None /\ last_patient_id r = Some "PT_0002" /\ last_action r = None /\
    conversation_history r = initial_history 2000000 (Some "PT_0002") None None /\
    expires_at r = (2000000 + hours (MEMORY_DURATION_HOURS config_template))%Z /\
    created_at r = Sql.CURRENT_TIMESTAMP 2000000.
Proof.
  apply (forget_then_remember_starts_anew config_template 2000000 "S1" (Some "PT_0002")
           None None
           (remember config_template 1 "S1" None (Some "DR_0001") (Some "access")
              empty_conn).2
           eq_refl).
  split; vm_compute; discriminate.
Defined.

Lemma updated_history_entries config now p cl a h :
  Forall (fun e => entry_action e <> "") h ->
  Forall (fun e => entry_action e <> "") (updated_history config now p cl a h).
Proof.
  intros Hh. unfold updated_history. destruct a as [s|]; [|done].
  cbn. destruct (String.eqb_spec s "") as [->|Hs]; cbn; [done|].
  assert (Forall (fun e => entry_action e <> "") (h ++ [new_entry now p cl s])) as Hall.
  { apply Forall_app. split; [done|]. by constructor. }
  destruct (_ <? _)%Z; [|done]. unfold py_slice_from. by apply Forall_drop.
Qed.

Lemma updated_history_nonempty config now p cl a h :
  updated_history config now p cl a h <> [] -> h <> [] \/ is_Some a.
Proof.
  unfold updated_history. destruct a as [s|]; [eauto|]. by left.
Qed.

Lemma remember_well_formed config now sid p cl a c :
  well_formed c -> well_formed (remember config now sid p cl a c).2.
Proof.
  intros Hwf. destruct (closed c) eqn:Hc.
  { by rewrite remember_closed. }
  rewrite remember_open by done. cbn [snd]. intros sid' r. cbn [rows].
  destruct (decide (sid = sid')) as [<-|Hne]; [|rewrite lookup_insert_ne by done; apply Hwf].
  rewrite lookup_insert_eq. intros [= <-].
  destruct (rows c !! sid) as [old|] eqn:Hold.
  - destruct (Hwf sid old Hold) as (Hkey & Hent & Hlast). split; [done|]. cbn. split.
    + by apply updated_history_entries.
    + intros Hne. apply updated_history_nonempty in Hne as [Hne | [s ->]]; [|by eauto].
      destruct (Hlast Hne) as [s Hs]. rewrite Hs. destruct a; eauto.
  - split; [done|]. cbn. unfold initial_history. destruct a as [s|]; [|done]. cbn.
    destruct (String.eqb_spec s "") as [->|Hs]; cbn; [done|].
    split; [|eauto]. constructor; [done|constructor].
Qed.

(** Invariants of the store.  In every store reached from the empty table by
    [remember], [recall], [forget], sweeps and [close], each row is stored
    under its own [session_id], every history entry has a non-empty action,
    and a row with a non-empty history has a [last_action]. *)
Theorem reachable_store_well_formed (config : Config) (os : list StoreOp) :
  well_formed (run_ops config os empty_conn).
Proof.
  assert (forall c, well_formed c -> well_formed (run_ops config os c)) as Hrun.
  { induction os as [|o os IH]; intros c Hwf; [done|].
    change (run_ops config (o :: os) c) with (run_ops config os (run_op config c o)).
    apply IH. destruct o as [k|now sid|sid|now|]; cbn.
    - by apply remember_well_formed.
    - by rewrite recall_leaves_store.
    - destruct (closed c) eqn:Hc;
        [by rewrite forget_closed | rewrite forget_open by done].
      intros sid' r. cbn. intros Hl. apply lookup_delete_Some in Hl as [_ Hl].
      by apply Hwf.
    - destruct (closed c) eqn:Hc;
        [by rewrite cleanup_closed | rewrite cleanup_open by done].
      intros sid' r. cbn. intros Hl. apply map_lookup_filter_Some in Hl as [Hl _].
      by apply Hwf.
    - exact Hwf. }
  apply Hrun. intros sid r. cbn. by rewrite lookup_empty.
Qed.

End MemoryExtras.

(** * Further properties of the pipeline *)

Section PipelineExtras.
Context {D X : Type}.
Variable env : Env D X.

Lemma truthy_success_default (r : dict) :
  truthy (get_default r "success" (VBool false)) = truthy (get r "success").
Proof. unfold get_default, get. by destruct (r !! "success"). Qed.

Lemma run_step_shape (step : Step) (st : State D X) :
  let step' := (run_step env step st).1.1 in
  tool step' = tool step /\
  (tool step <> "log_access_to_audit_trail" -> step' = step) /\
  (params step = None -> step' = step) /\
  (tools env !! tool step = None -> step' = step).
Proof.
  unfold run_step. destruct (tools env !! tool step) as [f|] eqn:Hf; [|done].
  destruct (f _ _ _) as [[out d] x]. cbn. split; [done|].
  destruct step as [name ps]. cbn in *. split; [|split; [|done]].
  - intros Hne. destruct ps as [ps|]; [|done]. cbn. unfold normalize_params.
    destruct (String.eqb_spec name "log_access_to_audit_trail"); [done|]. done.
  - by intros ->.
Qed.

(** The success flag of a response.  Every result of the pipeline before
    the last is a success that is not a consent denial, so all results are
    successes exactly when the last one is; a run that a consent denial
    stopped therefore counts as all-successful. *)
Theorem pipeline_results_succeed_before_last (sequence : list Step) (st : State D X) :
  let results := (_execute_sequence env sequence st).1.2 in
  (forall i r, results !! i = Some r -> S i < length results ->
     truthy (get r "success") = true) /\
  forallb (fun r => truthy (get_default r "success" (VBool false))) results
    = match last results with
      | Some r => truthy (get r "success")
      | None => true
      end.
Proof.
  revert st. induction sequence as [|step rest IH]; intros st.
  - cbn. split; [|done]. intros i r Hl. done.
  - cbn [_execute_sequence].
    destruct (run_step env step st) as [[step' result] st1].
    destruct (stops (tool step) result) eqn:Hstop.
    + cbn -[truthy get get_default]. split.
      * intros [|i] r Hl Hi; cbn in *; [lia|done].
      * rewrite truthy_success_default. by destruct (truthy _).
    + specialize (IH st1).
      destruct (_execute_sequence env rest st1) as [[rest' results] st2].
      cbn -[truthy get get_default] in IH. destruct IH as [IHa IHb].
      cbn -[truthy get get_default].
      assert (truthy (get result "success") = true) as Hok.
      { unfold stops in Hstop. by destruct (truthy (get result "success")). }
      split.
      * intros [|i] r Hl Hi; cbn in *.
        -- by injection Hl as <-.
        -- apply (IHa i r Hl). lia.
      * rewrite truthy_success_default, Hok, IHb.
        destruct results as [|r results]; cbn -[truthy get get_default];
          [by rewrite Hok | done].
Qed.

(** The executed sequence returned next to the results is the planned one
    step for step: same length, same operations in the same order; a step
    differs from the planned one only if it is an audit-logging step with a
    parameter dictionary. *)
Theorem executed_sequence_keeps_the_plan (sequence : list Step) (st : State D X) :
  let executed := (_execute_sequence env sequence st).1.1 in
  length executed = length sequence /\
  map tool executed = map tool sequence /\
  forall i s s', sequence !! i = Some s -> executed !! i = Some s' ->
    s' <> s -> tool s = "log_access_to_audit_trail" /\ is_Some (params s).
Proof.
  revert st. induction sequence as [|step rest IH]; intros st.
  - cbn. split; [done|]. split; [done|]. intros i s s' Hl. done.
  - cbn [_execute_sequence].
    pose proof (run_step_shape step st) as Hshape.
    destruct (run_step env step st) as [[step' result] st1].
    cbn in Hshape. destruct Hshape as (Htool & Hother & Hnone & _).
    assert (step' <> step ->
            tool step = "log_access_to_audit_trail" /\ is_Some (params step)) as Hdiff.
    { intros Hne. split.
      - destruct (decide (tool step = "log_access_to_audit_trail")); [done|].
        by destruct Hne; apply Hother.
      - destruct (params step) eqn:Hp; [eauto|]. by destruct Hne; apply Hnone. }
    destruct (stops (tool step) result).
    + cbn. split; [done|]. split; [by rewrite Htool|].
      intros [|i] s s' Hs Hs' Hne; cbn in *.
      * injection Hs as <-. injection Hs' as <-. by apply Hdiff.
      * rewrite Hs in Hs'. injection Hs' as <-. done.
    + specialize (IH st1).
      destruct (_execute_sequence env rest st1) as [[rest' results] st2].
      cbn in IH. destruct IH as (IHl & IHt & IHd). cbn.
      split; [by rewrite IHl|]. split; [by rewrite Htool, IHt|].
      intros [|i] s s' Hs Hs' Hne; cbn in *.
      * injection Hs as <-. injection Hs' as <-. by apply Hdiff.
      * by apply (IHd i s s').
Qed.

(** An operation name that is not registered halts the pipeline with a
    synthesized failure: nothing is invoked for it or after it, the state is
    left as it was, and the rest of the plan is returned untouched. *)
Theorem unregistered_tool_halts_pipeline (step : Step) (rest : list Step)
    (st : State D X) :
  tools env !! tool step = None ->
  _execute_sequence env (step :: rest) st
  = (step :: rest,
     [ {[ "success" := VBool false;
          "error" := VStr ("Tool '" +:+ tool step +:+ "' not found") ]} ],
     st).
Proof.
  intros Hnone. cbn [_execute_sequence]. unfold run_step. cbv zeta.
  destruct (tools env !! tool step) as [f|] eqn:Hf; [congruence|].
  unfold stops, get. rewrite lookup_insert_eq. done.
Qed.


End PipelineExtras.

Module PipelineRuns.
Import Scenario.

Lemma unregistered_tool_halts_pipeline_witness :
  _execute_sequence (scripted_env registry script_ok)
    [step_of "export_all_records" []; fetch] (boot [])
  = ([step_of "export_all_records" []; fetch],
     [ {[ "success" := VBool false;
          "error" := VStr ("Tool '" +:+ "export_all_records" +:+ "' not found") ]} ],
     boot []).
Proof.
  apply (unregistered_tool_halts_pipeline (scripted_env registry script_ok)
           (step_of "export_all_records" []) [fetch] (boot [])).
  vm_compute. reflexivity.
Defined.

End PipelineRuns.

(** * Properties of the helpers and of the registered operations *)

Module ToolExtras.
Import Utils Tools.

Lemma is_str_spec (s : string) (v : value) : is_str s v = true <-> v = VStr s.
Proof.
  destruct v as [| | |s'| |]; cbn; try (split; discriminate).
  rewrite String.eqb_eq. split; [by intros ->|by intros [= ->]].
Qed.

Lemma prefix_append (p s : string) : String.prefix p (p +:+ s) = true.
Proof.
  induction p as [|a p IH]; [by destruct s|].
  simpl. destruct (ascii_dec a a); [exact IH|congruence].
Qed.

Lemma length_append (a b : string) :
  String.length (a +:+ b) = String.length a + String.length b.
Proof. induction a as [|c a IH]; simpl; [reflexivity|by rewrite IH]. Qed.

Lemma append_nonempty (a b : string) (c : ascii) :
  String.eqb (a +:+ String c b) "" = false.
Proof. by destruct a. Qed.

Lemma split_nonnil (sep : ascii) (s : string) : split sep s <> [].
Proof.
  destruct s as [|c s]; cbn; [done|].
  destruct (Ascii.eqb c sep); [done|]. by destruct (split sep s).
Qed.

Lemma split_one (sep : ascii) (s a : string) :
  split sep s = [a] -> s = a /\ has_char sep a = false.
Proof.
  revert a. induction s as [|c s IH]; intros a; cbn.
  - by intros [= <-].
  - destruct (Ascii.eqb c sep) eqn:Hc.
    + intros [= _ Hnil]. by apply split_nonnil in Hnil.
    + destruct (split sep s) as [|part parts] eqn:Hs; [by apply split_nonnil in Hs|].
      intros [= <- ->]. destruct (IH part eq_refl) as [-> Hno].
      cbn. by rewrite Hc, Hno.
Qed.

Lemma split_two (sep : ascii) (s a b : string) :
  split sep s = [a; b] ->
  s = a +:+ String sep b /\ has_char sep a = false /\ has_char sep b = false.
Proof.
  revert a. induction s as [|c s IH]; intros a; cbn; [done|].
  destruct (Ascii.eqb_spec c sep) as [->|Hc].
  - intros [= <- Hb]. apply split_one in Hb as [-> Hno]. done.
  - destruct (split sep s) as [|part parts] eqn:Hs; [done|].
    intros [= <- ->]. destruct (IH part eq_refl) as (-> & Hna & Hnb).
    cbn. apply Ascii.eqb_neq in Hc. by rewrite Hc, Hna, Hnb.
Qed.

Lemma split_without_sep (sep : ascii) (s : string) :
  has_char sep s = false -> split sep s = [s].
Proof.
  induction s as [|c s IH]; cbn; [done|].
  intros [Hc Hs]%orb_false_iff. by rewrite Hc, (IH Hs).
Qed.

Lemma split_around_sep (sep : ascii) (a b : string) :
  has_char sep a = false -> has_char sep b = false ->
  split sep (a +:+ String sep b) = [a; b].
Proof.
  intros Ha Hb. induction a as [|c a IH].
  - change (split sep (String sep b) = [""; b]). cbn [split].
    by rewrite Ascii.eqb_refl, (split_without_sep sep b Hb).
  - change (split sep (String c (a +:+ String sep b)) = [String c a; b]). cbn [split].
    cbn in Ha. apply orb_false_iff in Ha as [Hc Ha]. by rewrite Hc, (IH Ha).
Qed.

Lemma validate_id_format_iff (isdigit : string -> bool) (id_string expected_prefix : string) :
  validate_id_format isdigit id_string expected_prefix = true <->
  exists number,
    id_string = expected_prefix +:+ "_" +:+ number /\
    has_char "_" expected_prefix = false /\
    has_char "_" number = false /\
    isdigit number = true.
Proof.
  unfold validate_id_format. split.
  - destruct (String.eqb id_string ""); [done|].
    destruct (split "_" id_string) as [|pre [|number [|? ?]]] eqn:Hsplit; try done.
    intros [Hpre Hdig]%andb_true_iff. apply String.eqb_eq in Hpre as ->.
    apply split_two in Hsplit as (-> & Hna & Hnb). by exists number.
  - intros (number & -> & Hna & Hnb & Hdig).
    change ("_" +:+ number) with (String "_" number).
    rewrite append_nonempty, (split_around_sep _ _ _ Hna Hnb).
    by rewrite String.eqb_refl, Hdig.
Qed.

Lemma find_by_id_Some (data : list dict) (id_field id_value : string) (item : dict) :
  find_by_id data id_field id_value = Some item ->
  item ∈ data /\ get item id_field = VStr id_value.
Proof.
  induction data as [|d data IH]; cbn; [done|].
  destruct (is_str id_value (get d id_field)) eqn:Hd.
  - intros [= <-]. split; [by left|]. by apply is_str_spec.
  - intros [Hin Hget]%IH. split; [by right|done].
Qed.

Lemma found_not_missing (item : dict) (k : string) (v : value) :
  get item k = v -> v <> VNone -> missing (Some item) = false.
Proof.
  intros Hget Hv. cbn. apply negb_false_iff, negb_true_iff, Nat.eqb_neq.
  intros Hz. apply map_size_empty_iff in Hz. subst item.
  unfold get in Hget. rewrite lookup_empty in Hget. cbn in Hget. congruence.
Qed.

Lemma find_by_id_missing (data : list dict) (id_field id_value : string) :
  missing (find_by_id data id_field id_value)
  = negb (bool_decide (is_Some (find_by_id data id_field id_value))).
Proof.
  destruct (find_by_id data id_field id_value) as [item|] eqn:Hfind.
  - apply find_by_id_Some in Hfind as [_ Hget].
    rewrite (found_not_missing item id_field _ Hget) by done.
    by rewrite bool_decide_eq_true_2 by eauto.
  - reflexivity.
Qed.

Lemma get_consent_record_Some (consents : list dict) (patient_id clinician_id : string)
    (consent : dict) :
  get_consent_record consents patient_id clinician_id = Some consent ->
  consent ∈ consents /\
  get consent "patient_id" = VStr patient_id /\
  get consent "clinician_id" = VStr clinician_id.
Proof.
  induction consents as [|d consents IH]; cbn; [done|].
  destruct (is_str patient_id (get d "patient_id")
            && is_str clinician_id (get d "clinician_id")) eqn:Hd.
  - intros [= <-]. apply andb_true_iff in Hd as [Hp Hc].
    split; [by left|]. split; by apply is_str_spec.
  - intros (Hin & Hp & Hc)%IH. split; [by right|done].
Qed.

Lemma get_consent_record_missing (consents : list dict) (patient_id clinician_id : string) :
  missing (get_consent_record consents patient_id clinician_id)
  = negb (bool_decide (is_Some (get_consent_record consents patient_id clinician_id))).
Proof.
  destruct (get_consent_record consents patient_id clinician_id) as [item|] eqn:Hfind.
  - apply get_consent_record_Some in Hfind as (_ & Hget & _).
    rewrite (found_not_missing item "patient_id" _ Hget) by done.
    by rewrite bool_decide_eq_true_2 by eauto.
  - reflexivity.
Qed.

(** A token made by [generate_session_token] passes [validate_token_format]
    for the same prefix, whatever the prefix, the random part and the
    timestamp. *)
Theorem generated_token_passes_format_check (TOKEN_PREFIX random_part timestamp : string) :
  validate_token_format TOKEN_PREFIX
    (TokenGenerator.generate_session_token TOKEN_PREFIX random_part timestamp) = true.
Proof.
  unfold validate_token_format, TokenGenerator.generate_session_token.
  change ("_" +:+ random_part +:+ "_" +:+ timestamp)
    with (String "_" (random_part +:+ "_" +:+ timestamp)).
  rewrite append_nonempty, prefix_append, length_append. cbn [String.length].
  apply andb_true_iff. split; [done|]. apply Nat.ltb_lt. lia.
Qed.

(** [find_by_id] returns the first item of the list whose [id_field] is the
    string asked for, and [None] exactly when no item has it. *)
Theorem find_by_id_first_match (data : list dict) (id_field id_value : string) :
  match find_by_id data id_field id_value with
  | Some item =>
      exists i, data !! i = Some item /\
                get item id_field = VStr id_value /\
                forall j other, j < i -> data !! j = Some other ->
                                get other id_field <> VStr id_value
  | None => forall other, other ∈ data -> get other id_field <> VStr id_value
  end.
Proof.
  induction data as [|d data IH]; cbn.
  - intros other Hin. by apply elem_of_nil in Hin.
  - destruct (is_str id_value (get d id_field)) eqn:Hd.
    + exists 0. split; [done|]. split; [by apply is_str_spec|]. intros j other Hj. lia.
    + assert (get d id_field <> VStr id_value) as Hne.
      { intros Heq. apply is_str_spec in Heq. congruence. }
      destruct (find_by_id data id_field id_value) as [item|].
      * destruct IH as (i & Hi & Hget & Hbefore). exists (S i).
        split; [done|]. split; [done|].
        intros [|j] other Hj Hl; cbn in Hl.
        -- by injection Hl as <-.
        -- apply (Hbefore j other); [lia|done].
      * intros other [->|Hin]%elem_of_cons; [done|by apply IH].
Qed.

(** An identifier is accepted for a prefix exactly when it is the prefix,
    one underscore and a part that [str.isdigit] accepts, with no other
    underscore anywhere; so a prefix that itself contains an underscore
    accepts nothing. *)
Theorem validate_id_format_spec (isdigit : string -> bool)
    (id_string expected_prefix : string) :
  (validate_id_format isdigit id_string expected_prefix = true <->
   exists number,
     id_string = expected_prefix +:+ "_" +:+ number /\
     has_char "_" expected_prefix = false /\
     has_char "_" number = false /\
     isdigit number = true) /\
  (has_char "_" expected_prefix = true ->
   validate_id_format isdigit id_string expected_prefix = false).
Proof.
  split; [apply validate_id_format_iff|].
  intros Hp. apply not_true_is_false. intros Hv.
  apply validate_id_format_iff in Hv as (number & _ & Hna & _). congruence.
Qed.

Section WithLibrary.
Variable isdigit : string -> bool.
Variable fromisoformat : string -> option Z.
Variable py_str : value -> string.
Variable clinicians patients consents : list dict.

Ltac lookup_literal :=
  unfold get, get_default;
  repeat first [rewrite lookup_insert_eq | rewrite lookup_insert_ne by done
               | rewrite lookup_singleton_eq | rewrite lookup_singleton_ne by done];
  cbn [default from_option id].

(** Credential verification and the pipeline.  The result says [verified]
    exactly when the identifier is well formed and the first clinician
    record with that identifier is active; the pipeline stops on the result
    only when the identifier is malformed: an unknown or inactive clinician
    is reported with [success] true, so the steps after the verification
    still run. *)
Theorem unverified_clinician_does_not_halt_pipeline (clinician_id : string) :
  let result := verify_clinician_credentials isdigit py_str clinicians clinician_id in
  (truthy (get result "verified") = true <->
   validate_clinician_id isdigit clinician_id = true /\
   exists clinician,
     find_by_id clinicians "clinician_id" clinician_id = Some clinician /\
     truthy (get_default clinician "active" (VBool false)) = true) /\
  stops "verify_clinician_credentials" result
    = negb (validate_clinician_id isdigit clinician_id).
Proof.
  unfold verify_clinician_credentials.
  destruct (validate_clinician_id isdigit clinician_id); cbn [negb].
  2:{ unfold stops. lookup_literal. cbn. split; [|done].
      split; [done|intros [? _]; done]. }
  rewrite find_by_id_missing.
  destruct (find_by_id clinicians "clinician_id" clinician_id) as [clinician|].
  2:{ rewrite bool_decide_eq_false_2 by (by intros [? ?]). cbn [negb].
      unfold stops. lookup_literal. cbn. split; [|done].
      split; [done|]. intros (_ & c & Hc & _). done. }
  rewrite bool_decide_eq_true_2 by eauto. cbn [negb default from_option id].
  destruct (truthy (get_default clinician "active" (VBool false))) eqn:Hact; cbn [negb].
  - unfold stops. lookup_literal. cbn. split; [|done].
    split; [|done]. intros _. split; [done|]. by exists clinician.
  - unfold stops. lookup_literal. cbn. split; [|done].
    split; [done|]. intros (_ & c & [= <-] & Hc).
    unfold get_default in *. cbn [default from_option id] in *. congruence.
Qed.

(** The consent check and the pipeline.  The pipeline goes on after the
    consent check exactly when the result says [consent_granted], and that
    is the case exactly when both identifiers are well formed, the patient
    and the clinician are on file, and the first consent record of the pair
    is active with an expiry date that parses and lies after [now]. *)
Theorem pipeline_proceeds_only_on_granted_consent (now : Z)
    (patient_id clinician_id : string) :
  let result :=
    check_patient_consent_status isdigit fromisoformat py_str clinicians patients consents
      now patient_id clinician_id in
  stops "check_patient_consent_status" result
    = negb (truthy (get result "consent_granted")) /\
  (truthy (get result "consent_granted") = true <->
   validate_patient_id isdigit patient_id = true /\
   validate_clinician_id isdigit clinician_id = true /\
   is_Some (find_by_id patients "patient_id" patient_id) /\
   is_Some (find_by_id clinicians "clinician_id" clinician_id) /\
   exists consent expiry_str expiry_date,
     get_consent_record consents patient_id clinician_id = Some consent /\
     get consent "status" = VStr "active" /\
     get consent "expiry_date" = VStr expiry_str /\
     expiry_str <> "" /\
     fromisoformat expiry_str = Some expiry_date /\
     (now < expiry_date)%Z).
Proof.
  unfold check_patient_consent_status.
  destruct (validate_patient_id isdigit patient_id); cbn [negb].
  2:{ unfold stops. lookup_literal. cbn. split; [done|].
      split; [done|intros [? _]; done]. }
  destruct (validate_clinician_id isdigit clinician_id); cbn [negb].
  2:{ unfold stops. lookup_literal. cbn. split; [done|].
      split; [done|intros (_ & ? & _); done]. }
  rewrite !find_by_id_missing, get_consent_record_missing.
  destruct (find_by_id patients "patient_id" patient_id) as [patient|].
  2:{ rewrite bool_decide_eq_false_2 by (by intros [? ?]). cbn [negb].
      unfold stops. lookup_literal. cbn. split; [done|].
      split; [done|]. intros (_ & _ & [? ?] & _). done. }
  rewrite bool_decide_eq_true_2 by eauto. cbn [negb].
  destruct (find_by_id clinicians "clinician_id" clinician_id) as [clinician|].
  2:{ rewrite bool_decide_eq_false_2 by (by intros [? ?]). cbn [negb].
      unfold stops. lookup_literal. cbn. split; [done|].
      split; [done|]. intros (_ & _ & _ & [? ?] & _). done. }
  rewrite bool_decide_eq_true_2 by eauto. cbn [negb].
  destruct (get_consent_record consents patient_id clinician_id) as [consent|].
  2:{ rewrite bool_decide_eq_false_2 by (by intros [? ?]). cbn [negb].
      unfold stops. lookup_literal. cbn. split; [done|].
      split; [done|]. intros (_ & _ & _ & _ & c & ? & ? & ? & _). done. }
  rewrite bool_decide_eq_true_2 by eauto. cbn [negb default from_option id].
  assert (is_consent_valid fromisoformat now consent = true <->
          exists expiry_str expiry_date,
            get consent "status" = VStr "active" /\
            get consent "expiry_date" = VStr expiry_str /\
            expiry_str <> "" /\
            fromisoformat expiry_str = Some expiry_date /\
            (now < expiry_date)%Z) as Hvalid.
  { unfold is_consent_valid.
    destruct (is_str "active" (get consent "status")) eqn:Hst; cbn [negb].
    2:{ split; [done|]. intros (? & ? & Hs & _). apply is_str_spec in Hs. congruence. }
    apply is_str_spec in Hst.
    destruct (get consent "expiry_date") as [| | |s| |] eqn:Hex;
      try (destruct (negb (truthy _)); (split; [done|]); intros (? & ? & _ & ? & _); done).
    cbn [truthy]. rewrite negb_involutive.
    destruct (String.eqb_spec s "") as [->|Hne].
    - split; [done|]. intros (? & ? & _ & [= <-] & ? & _). done.
    - destruct (fromisoformat s) as [t|] eqn:Ht.
      + rewrite Z.ltb_lt. split.
        * intros Hlt. by exists s, t.
        * intros (s' & t' & _ & [= <-] & _ & Ht' & Hlt). congruence.
      + split; [done|]. intros (s' & t' & _ & [= <-] & _ & Ht' & _). congruence. }
  destruct (is_consent_valid fromisoformat now consent) eqn:Hv; cbn [negb].
  - unfold stops. lookup_literal. cbn. split; [done|].
    split; [|done]. intros _.
    destruct (proj1 Hvalid eq_refl) as (s & t & ? & ? & ? & ? & ?).
    repeat split; eauto. exists consent, s, t. done.
  - unfold stops. lookup_literal. cbn. split; [done|].
    split; [done|]. intros (_ & _ & _ & _ & c & s & t & [= <-] & ? & ? & ? & ? & ?).
    assert (false = true) as Habs; [|done].
    apply Hvalid. by exists s, t.
Qed.

(** [include_sensitive=False] removes nothing: the result is the one for
    [include_sensitive=True] with the entry ["_note"] added to the patient
    data, every other field of the record (the social security number
    included) being returned as before. *)
Theorem sensitive_filter_removes_nothing (patient_id : string)
    (fields : option (list string)) :
  fetch_patient_record isdigit py_str patients patient_id fields false =
    match fetch_patient_record isdigit py_str patients patient_id fields true
            !! "patient_data" with
    | Some (VDict patient_data) =>
        <["patient_data" :=
            VDict (<["_note" := VStr "Sensitive data filtering applied"]> patient_data)]>
          (fetch_patient_record isdigit py_str patients patient_id fields true)
    | _ => fetch_patient_record isdigit py_str patients patient_id fields true
    end.
Proof.
  unfold fetch_patient_record.
  destruct (validate_patient_id isdigit patient_id); cbn [negb]; [|done].
  destruct (missing (find_by_id patients "patient_id" patient_id)); [done|].
  set (pd := match fields with Some ((_ :: _) as fs) => _ | _ => _ end).
  cbv zeta.
  rewrite lookup_insert_ne by done. rewrite lookup_insert_ne by done.
  rewrite lookup_insert_eq.
  assert (get (<["_note" := VStr "Sensitive data filtering applied"]> pd) "full_name"
          = get pd "full_name") as ->.
  { unfold get. by rewrite lookup_insert_ne. }
  apply map_eq. intros k.
  destruct (decide (k = "patient_data")) as [->|Hk].
  - rewrite lookup_insert_eq. do 2 rewrite lookup_insert_ne by done.
    by rewrite lookup_insert_eq.
  - rewrite (lookup_insert_ne _ "patient_data" k) by done.
    destruct (decide (k = "success")) as [->|Hs]; [by rewrite !lookup_insert_eq|].
    rewrite !(lookup_insert_ne _ "success" k) by done.
    destruct (decide (k = "patient_id")) as [->|Hp]; [by rewrite !lookup_insert_eq|].
    rewrite !(lookup_insert_ne _ "patient_id" k) by done.
    by rewrite !(lookup_insert_ne _ "patient_data" k) by done.
Qed.

Lemma filter_fields_lookup (fields : list string) (patient_data : dict) (k : string) :
  filter_fields fields patient_data !! k =
    if bool_decide (k ∈ fields /\ is_Some (patient_data !! k)) then patient_data !! k
    else if bool_decide (k = "patient_id") then Some (get patient_data "patient_id")
    else None.
Proof.
  unfold filter_fields.
  set (init := {[ "patient_id" := get patient_data "patient_id" ]} : dict).
  assert (forall acc : dict,
            foldl (fun filtered_data field =>
                     match patient_data !! field with
                     | Some v => <[field := v]> filtered_data
                     | None => filtered_data
                     end) acc fields !! k
            = if bool_decide (k ∈ fields /\ is_Some (patient_data !! k))
              then patient_data !! k else acc !! k) as Hfold.
  { induction fields as [|f fields IH]; intros acc; cbn [foldl].
    - rewrite bool_decide_eq_false_2; [done|]. intros [Hin _]. by apply elem_of_nil in Hin.
    - rewrite IH.
      destruct (decide (k ∈ fields /\ is_Some (patient_data !! k))) as [[Hin Hs]|Hno].
      + rewrite !bool_decide_eq_true_2; [done|..]; split; try done. by right.
      + rewrite (bool_decide_eq_false_2 _ Hno).
        destruct (decide (k = f)) as [->|Hkf].
        * destruct (patient_data !! f) as [v|] eqn:Hf.
          -- rewrite lookup_insert_eq.
             rewrite bool_decide_eq_true_2; [done|]. split; [by left|eauto].
          -- rewrite bool_decide_eq_false_2; [done|]. intros [_ [? ?]]. done.
        * rewrite bool_decide_eq_false_2.
          -- destruct (patient_data !! f); [by rewrite lookup_insert_ne|done].
          -- intros [[->|Hin]%elem_of_cons Hs]; [done|]. by apply Hno. }
  rewrite Hfold. destruct (bool_decide (k ∈ fields /\ _)); [done|].
  subst init. destruct (decide (k = "patient_id")) as [->|Hk].
  - by rewrite bool_decide_eq_true_2, lookup_singleton_eq.
  - by rewrite bool_decide_eq_false_2, lookup_singleton_ne.
Qed.

(** What a successful fetch returns.  The patient data are those of the
    first record on file whose identifier is the one asked for: they carry
    that identifier, every entry other than ["_note"] is an entry of that
    record, and under a non-empty field list only listed fields and the
    identifier are returned. *)
Theorem fetched_record_is_the_requested_one (patient_id : string)
    (fields : option (list string)) (include_sensitive : bool) (patient_data : dict) :
  fetch_patient_record isdigit py_str patients patient_id fields include_sensitive
    !! "patient_data" = Some (VDict patient_data) ->
  get patient_data "patient_id" = VStr patient_id /\
  exists patient,
    find_by_id patients "patient_id" patient_id = Some patient /\
    (forall k v, k <> "_note" -> patient_data !! k = Some v -> patient !! k = Some v) /\
    (forall f fs k, fields = Some (f :: fs) -> k <> "_note" ->
       is_Some (patient_data !! k) -> k ∈ f :: fs \/ k = "patient_id").
Proof.
  unfold fetch_patient_record.
  destruct (validate_patient_id isdigit patient_id); cbn [negb].
  2:{ lookup_literal. done. }
  rewrite find_by_id_missing.
  destruct (find_by_id patients "patient_id" patient_id) as [patient|] eqn:Hfind.
  2:{ rewrite bool_decide_eq_false_2 by (by intros [? ?]). cbn [negb].
      lookup_literal. done. }
  rewrite bool_decide_eq_true_2 by eauto. cbn [negb default from_option id].
  apply find_by_id_Some in Hfind as [_ Hid].
  set (pd := match fields with Some ((_ :: _) as fs) => _ | _ => _ end).
  cbv zeta.
  rewrite lookup_insert_ne by done. rewrite lookup_insert_ne by done.
  rewrite lookup_insert_eq. intros [= <-].
  assert (forall k v, pd !! k = Some v -> patient !! k = Some v) as Hsub.
  { intros k v. subst pd. destruct fields as [[|f fs]|]; try done.
    rewrite filter_fields_lookup.
    destruct (decide (k ∈ f :: fs /\ is_Some (patient !! k))) as [Hin|Hno].
    { by rewrite (bool_decide_eq_true_2 _ Hin). }
    rewrite (bool_decide_eq_false_2 _ Hno).
    destruct (decide (k = "patient_id")) as [->|Hk].
    2:{ by rewrite (bool_decide_eq_false_2 _ Hk). }
    rewrite bool_decide_eq_true_2 by done. intros [= <-].
    unfold get in *. destruct (patient !! "patient_id"); [done|]. cbn in Hid. done. }
  assert (get pd "patient_id" = VStr patient_id) as Hpid.
  { subst pd. destruct fields as [[|f fs]|]; try done.
    unfold get at 1. rewrite filter_fields_lookup.
    destruct (decide ("patient_id" ∈ f :: fs /\ is_Some (patient !! "patient_id")))
      as [Hin|Hno].
    - by rewrite (bool_decide_eq_true_2 _ Hin).
    - rewrite (bool_decide_eq_false_2 _ Hno). rewrite bool_decide_eq_true_2 by done. done. }
  assert (forall f fs k, fields = Some (f :: fs) -> is_Some (pd !! k) ->
            k ∈ f :: fs \/ k = "patient_id") as Hlisted.
  { intros f fs k -> [v Hv]. subst pd. cbv beta iota in Hv.
    rewrite filter_fields_lookup in Hv.
    destruct (decide (k ∈ f :: fs /\ is_Some (patient !! k))) as [[Hin _]|Hno];
      [by left|].
    rewrite (bool_decide_eq_false_2 _ Hno) in Hv.
    destruct (decide (k = "patient_id")) as [Hk|Hk]; [by right|].
    by rewrite (bool_decide_eq_false_2 _ Hk) in Hv. }
  split.
  - destruct include_sensitive; cbn [negb]; [done|].
    unfold get. rewrite lookup_insert_ne by done. exact Hpid.
  - exists patient. split; [done|]. split.
    + intros k v Hk. destruct include_sensitive; cbn [negb]; [apply Hsub|].
      rewrite lookup_insert_ne by done. apply Hsub.
    + intros f fs k Hf Hk. destruct include_sensitive; cbn [negb]; [by apply Hlisted|].
      rewrite lookup_insert_ne by done. by apply Hlisted.
Qed.

End WithLibrary.

Lemma fetched_record_is_the_requested_one_witness :
  get {[ "patient_id" := VStr "PT_0002"; "blood_type" := VStr "A-";
         "_note" := VStr "Sensitive data filtering applied" ]} "patient_id"
  = VStr "PT_0002" /\
  exists patient,
    find_by_id Fixtures.sample_patients "patient_id" "PT_0002" = Some patient /\
    (forall k v, k <> "_note" ->
       ({[ "patient_id" := VStr "PT_0002"; "blood_type" := VStr "A-";
           "_note" := VStr "Sensitive data filtering applied" ]} : dict) !! k = Some v ->
       patient !! k = Some v) /\
    (forall f fs k, Some ["blood_type"; "allergies"] = Some (f :: fs) -> k <> "_note" ->
       is_Some (({[ "patient_id" := VStr "PT_0002"; "blood_type" := VStr "A-";
                    "_note" := VStr "Sensitive data filtering applied" ]} : dict) !! k) ->
       k ∈ f :: fs \/ k = "patient_id").
Proof.
  apply (fetched_record_is_the_requested_one Fixtures.isdigit Fixtures.py_str
           Fixtures.sample_patients "PT_0002" (Some ["blood_type"; "allergies"]) false).
  vm_compute. reflexivity.
Defined.

End ToolExtras.

(** * Further properties of a request *)

Section RequestExtras.
Context {D X : Type}.
Variable config : Config.
Variable env : Env D X.

(** What is left of [_handle_retry] once the operator has agreed. *)
Lemma handle_retry_tail (original_plan : list Step) (validation : Validation)
    (st0 : State D X) :
  let out :=
    (let '(corrected, st) :=
       if no_sequence (corrected_sequence validation) then
         let '(retry_info, st) := handle_retry config env original_plan validation st0 in
         (corrected_request retry_info, st)
       else (corrected_sequence validation, st0) in
     match corrected with
     | Some ((_ :: _) as corrected) =>
         let '(corrected, execution_results, st) := _execute_sequence env corrected st in
         (_format_response corrected execution_results retry_marker st, st)
     | _ =>
         (_error_response (Literal "Unable to generate corrected sequence") None st, st)
     end) in
  (retry_count out.2 = retry_count st0 \/
   (retry_count st0 < FILTER_MAX_RETRIES config /\
    retry_count out.2 = retry_count st0 + 1)) /\
  match out.1 with
  | Formatted _ t _ _ _ _ => t = current_session_token out.2
  | Rejected _ _ t =>
      t = current_session_token out.2 /\ data out.2 = data st0 /\
      count is_invoke (events out.2) = count is_invoke (events st0)
  | Crashed _ => False
  end.
Proof.
  destruct (no_sequence (corrected_sequence validation)) eqn:Hno.
  - pose proof (handle_retry_frame config env original_plan validation st0) as Hf.
    destruct (handle_retry config env original_plan validation st0) as [ri st1].
    cbn [fst snd] in Hf. destruct Hf as (Hd1 & _ & _ & _ & Hev1 & Hcases).
    assert (count is_invoke (events st1) = count is_invoke (events st0)) as Hinv.
    { destruct Hev1 as [-> | ->]; [done|]. rewrite count_app. cbn. lia. }
    destruct Hcases as [(_ & Hcr & Hr1) | (_ & Hcr & Hr1 & Hlt & _)].
    + rewrite Hcr. cbn. auto.
    + destruct (corrected_request ri) as [[|s l]|]; try discriminate.
      pose proof (execute_sequence_frame env (s :: l) st1) as Hx.
      destruct (_execute_sequence env (s :: l) st1) as [[executed results] st2].
      cbn [fst snd] in Hx. destruct Hx as (_ & Hr2 & _).
      cbn. split; [|done]. right. split; [done|]. congruence.
  - destruct (corrected_sequence validation) as [[|s l]|]; try discriminate.
    pose proof (execute_sequence_frame env (s :: l) st0) as Hx.
    destruct (_execute_sequence env (s :: l) st0) as [[executed results] st2].
    cbn [fst snd] in Hx. destruct Hx as (_ & Hr2 & _).
    cbn. split; [|done]. by left.
Qed.

Lemma handle_retry_budget (original_plan : list Step) (validation : Validation)
    (context : dict) (st : State D X) :
  let resp := (_handle_retry config env original_plan validation context st).1 in
  let st' := (_handle_retry config env original_plan validation context st).2 in
  (retry_count st' = retry_count st \/
   (retry_count st < FILTER_MAX_RETRIES config /\
    retry_count st' = retry_count st + 1)) /\
  match resp with
  | Formatted _ t _ _ _ _ => t = current_session_token st'
  | Rejected _ _ t =>
      t = current_session_token st' /\ data st' = data st /\
      count is_invoke (events st') = count is_invoke (events st)
  | Crashed _ => False
  end.
Proof.
  unfold _handle_retry.
  destruct (FILTER_REQUIRE_USER_CONSENT config).
  - destruct (get_user_confirmation env _ (ext st)) as [[|] x]; cbn [negb].
    + pose proof (handle_retry_tail original_plan validation
                    (emit (EvConfirm true) (with_ext x st))) as Ht.
      cbv zeta in Ht. cbv zeta.
      destruct (let '(corrected, st1) := _ in _) as [resp st'].
      cbn [fst snd] in *. destruct Ht as [Hr Hresp]. split; [exact Hr|].
      destruct resp as [? t ? ? ? ?|? ? t|?]; [done| |done].
      destruct Hresp as (Ht & Hd & Hi). split; [done|]. split; [done|].
      rewrite Hi. rewrite count_emit. cbn [events with_ext with_world is_invoke]. lia.
    + cbn -[count]. split; [by left|]. split; [done|]. split; [done|].
      rewrite count_app. cbn. lia.
  - cbn [negb].
    pose proof (handle_retry_tail original_plan validation st) as Ht.
    cbv zeta in Ht. cbv zeta.
    destruct (let '(corrected, st1) := _ in _) as [resp st'].
    cbn [fst snd] in *. exact Ht.
Qed.

(** One request, end to end: the token the agent holds afterwards, the
    retry budget, the token in the response, and what a request that is
    turned down leaves untouched. *)
Lemma process_request_frame (user_query : string) (clinician_id patient_id : option string)
    (context : dict) (st : State D X) :
  let resp := (process_request config env user_query clinician_id patient_id context st).1 in
  let st' := (process_request config env user_query clinician_id patient_id context st).2 in
  current_session_token st'
    = match (token_generator_tool env (ext st)).1 with
      | Some token => Some token
      | None => current_session_token st
      end /\
  (retry_count st' = retry_count st \/
   (retry_count st < FILTER_MAX_RETRIES config /\
    retry_count st' = retry_count st + 1)) /\
  match resp with
  | Formatted _ t _ _ _ _ => t = current_session_token st'
  | Rejected _ _ t =>
      t = current_session_token st' /\ data st' = data st /\ memory st' = memory st /\
      count is_invoke (events st') = count is_invoke (events st)
  | Crashed _ =>
      data st' = data st /\ memory st' = memory st /\
      count is_invoke (events st') = count is_invoke (events st)
  end.
Proof.
  unfold process_request.
  destruct (token_generator_tool env (ext st)) as [[token|] x0]; cbn [fst snd].
  2:{ cbn -[count]. split; [done|]. split; [by left|]. repeat split; try done.
      rewrite count_app. cbn. lia. }
  set (st1 := with_token _ _).
  assert (data st1 = data st /\ memory st1 = memory st /\
          retry_count st1 = retry_count st /\
          current_session_token st1 = Some token /\
          count is_invoke (events st1) = count is_invoke (events st))
    as (Hd1 & Hm1 & Hr1 & Ht1 & Hi1).
  { subst st1. cbn -[count]. repeat split; try done. rewrite count_app. cbn. lia. }
  clearbody st1.
  pose proof (recall_context_frame config env token clinician_id patient_id st1) as Hrc.
  destruct (recall_context config env token clinician_id patient_id st1)
    as [[cl p] st2]. cbn [fst snd] in Hrc.
  destruct Hrc as (Hd2 & _ & Hr2 & _ & Ht2 & Hm2 & He2).
  assert (count is_invoke (events st2) = count is_invoke (events st)) as Hi2.
  { destruct He2 as [-> | ->]; [done|]. rewrite count_app. cbn. lia. }
  clear He2.
  destruct (plan_oracle env user_query cl p token (ext st2)) as [plan x3].
  set (st3 := emit _ _).
  assert (data st3 = data st /\ memory st3 = memory st /\
          retry_count st3 = retry_count st /\
          current_session_token st3 = Some token /\
          count is_invoke (events st3) = count is_invoke (events st))
    as (Hd3 & Hm3 & Hr3 & Ht3 & Hi3).
  { subst st3. cbn -[count]. repeat split; try congruence. rewrite count_app. cbn. lia. }
  clearbody st3.
  destruct plan as [planned|e|e t].
  2,3: (cbn; split; [done|]; split; [by left|]; repeat split; done).
  set (ctx := request_context _ _ _ _ _). clearbody ctx.
  pose proof (validate_planned_execution_frame env planned ctx st3) as Hvp.
  destruct (validate_planned_execution env planned ctx st3) as [validation st4].
  cbn [fst snd] in Hvp. destruct Hvp as (Hd4 & Hr4 & _ & Ht4 & Hm4 & He4).
  assert (count is_invoke (events st4) = count is_invoke (events st)) as Hi4.
  { rewrite He4, count_app. cbn. lia. }
  clear He4.
  destruct (negb (truthy (get (fields validation) "valid"))).
  - destruct (truthy (get (fields validation) "allow_retry")).
    + pose proof (handle_retry_budget planned validation ctx st4) as Hb.
      pose proof (handle_retry_path config env planned validation ctx st4) as Hp.
      destruct (_handle_retry config env planned validation ctx st4) as [resp st5].
      cbn [fst snd] in *. destruct Hb as [Hr5 Hresp].
      destruct Hp as (_ & Ht5 & Hm5 & _).
      split; [congruence|]. split; [rewrite <- Hr3, <- Hr4; exact Hr5|].
      destruct resp as [? t ? ? ? ?|? ? t|?]; [done| |done].
      destruct Hresp as (Ht & Hd & Hi). repeat split; congruence.
    + cbn. split; [congruence|]. split; [left; congruence|].
      repeat split; congruence.
  - pose proof (execute_sequence_frame env planned st4) as Hx.
    destruct (_execute_sequence env planned st4) as [[executed results] st5].
    cbn [fst snd] in Hx. destruct Hx as (_ & Hr5 & Ht5 & _).
    pose proof (validate_execution_result_frame env executed results st5) as Hpv.
    destruct (validate_execution_result env executed results st5) as [post st6].
    cbn [fst snd] in Hpv. destruct Hpv as (_ & Hr6 & _ & Ht6 & _).
    pose proof (update_memory_frame config env token user_query cl p st6) as Hum.
    cbn zeta in Hum. destruct Hum as (_ & _ & Hr7 & _ & Ht7 & _).
    cbn. split; [congruence|]. split; [left; congruence|done].
Qed.

(** The retry counter over the life of an agent.  Over any run of requests
    that starts with the counter at or below [FILTER_MAX_RETRIES], the
    counter never goes down and never passes [FILTER_MAX_RETRIES].  (It
    counts the corrections [handle_retry] grants; a corrected sequence that
    comes with the verdict is run without being counted.) *)
Theorem retry_budget_never_exceeded (requests : list Request) (st : State D X) :
  retry_count st <= FILTER_MAX_RETRIES config ->
  retry_count st <= retry_count (serve_requests config env requests st)
                 <= FILTER_MAX_RETRIES config.
Proof.
  unfold serve_requests. revert st.
  induction requests as [|r requests IH]; intros st Hle; [cbn; lia|].
  cbn [foldl].
  pose proof (process_request_frame (req_query r) (req_clinician r) (req_patient r)
                (req_context r) st) as Hf.
  cbv zeta in Hf. destruct Hf as (_ & Hr & _).
  fold (serve_request config env st r) in Hr.
  specialize (IH (serve_request config env st r)). lia.
Qed.

(** A request that is turned down, at whatever stage (no token, no plan, a
    planner failure, a refused plan, a refused or impossible retry), has
    invoked no operation and has left the persisted data and the session
    memory as they were. *)
Theorem rejected_request_runs_nothing (user_query : string)
    (clinician_id patient_id : option string) (context : dict) (st : State D X) :
  let '(resp, st') := process_request config env user_query clinician_id patient_id context st in
  match resp with
  | Formatted _ _ _ _ _ _ => True
  | Rejected _ _ _ | Crashed _ =>
      data st' = data st /\ memory st' = memory st /\
      count is_invoke (events st') = count is_invoke (events st)
  end.
Proof.
  pose proof (process_request_frame user_query clinician_id patient_id context st) as Hf.
  destruct (process_request config env user_query clinician_id patient_id context st)
    as [resp st'].
  cbn [fst snd] in Hf. destruct Hf as (_ & _ & Hresp).
  destruct resp as [? t ? ? ? ?|? ? t|?]; [done| |done].
  by destruct Hresp as (_ & ? & ? & ?).
Qed.

(** The session token of a response.  After a request the agent holds the
    token minted for it, or, when minting failed, the token of the request
    before; a formatted or rejecting response carries the token the agent
    then holds, so the response to a request for which no token could be
    minted carries the previous request's token. *)
Theorem response_carries_latest_token (user_query : string)
    (clinician_id patient_id : option string) (context : dict) (st : State D X) :
  let '(resp, st') := process_request config env user_query clinician_id patient_id context st in
  current_session_token st'
    = match (token_generator_tool env (ext st)).1 with
      | Some token => Some token
      | None => current_session_token st
      end /\
  match resp with
  | Formatted _ t _ _ _ _ | Rejected _ _ t => t = current_session_token st'
  | Crashed _ => True
  end.
Proof.
  pose proof (process_request_frame user_query clinician_id patient_id context st) as Hf.
  destruct (process_request config env user_query clinician_id patient_id context st)
    as [resp st'].
  cbn [fst snd] in Hf. destruct Hf as (Htok & _ & Hresp). split; [exact Htok|].
  destruct resp as [? t ? ? ? ?|? ? t|?]; [done| |done].
  by destruct Hresp.
Qed.

(** The gate fails closed.  When the filter model gives no usable verdict
    on the plan (an exception, or text that is not JSON), the request is
    rejected as a policy violation with the substitute verdict attached:
    nothing more is asked, nothing is run, the counters stay as they were
    and no violation is logged. *)
Theorem unusable_verdict_rejects_request
    (user_query : string) (clinician_id patient_id : option string)
    (context : dict) (st : State D X)
    (token : string) (x0 : X) (cl p : option string) (st2 : State D X)
    (planned : list Step) (x3 : X) :
  token_generator_tool env (ext st) = (Some token, x0) ->
  recall_context config env token clinician_id patient_id
    (with_token (Some token) (emit (EvToken (Some token)) (with_ext x0 st)))
    = (cl, p, st2) ->
  plan_oracle env user_query cl p token (ext st2) = (Parsed planned, x3) ->
  let st3 := emit (EvPlan cl p token) (with_ext x3 st2) in
  let asked := validate_oracle env planned
                 (request_context user_query cl p context st3) x3 in
  (forall v, asked.1 <> Parsed v) ->
  exists v,
    process_request config env user_query clinician_id patient_id context st
      = (Rejected (PolicyViolation (get (fields v) "explanation")) (Some v) (Some token),
         emit (EvValidatePlanned planned) (with_ext asked.2 st3)) /\
    truthy (get (fields v) "valid") = false /\
    truthy (get (fields v) "allow_retry") = false /\
    corrected_sequence v = None.
Proof.
  intros Htok Hrec Hplan st3 asked Hbad.
  assert (current_session_token st3 = Some token) as Ht3.
  { pose proof (recall_context_frame config env token clinician_id patient_id
                  (with_token (Some token) (emit (EvToken (Some token)) (with_ext x0 st))))
      as Hf.
    rewrite Hrec in Hf. cbn [fst snd] in Hf. destruct Hf as (_ & _ & _ & _ & Ht & _).
    subst st3. cbn. by rewrite Ht. }
  assert (ext st3 = x3) as Hx3 by done.
  unfold process_request. rewrite Htok, Hrec, Hplan.
  fold st3. unfold validate_planned_execution. rewrite Hx3.
  subst asked.
  set (o := validate_oracle env planned (request_context user_query cl p context st3) x3) in *.
  clearbody o. clearbody st3.
  destruct o as [[v|e|e t] x4]; cbn [fst snd] in *.
  - by destruct (Hbad v).
  - exists decode_error_validation. unfold _error_response. cbn. rewrite Ht3. done.
  - exists (error_validation e t "validate_planned_execution").
    unfold _error_response. cbn. rewrite Ht3. done.
Qed.

(** After the run the gate fails open.  When the filter model gives no
    usable verdict on the execution, nothing is logged and the response
    reports success whenever every result is a success: the substitute
    verdict has no ["valid"] entry, and a missing entry counts as valid. *)
Theorem unusable_post_verdict_is_ignored (executed : list Step) (results : list dict)
    (st : State D X) :
  (forall v, (post_oracle env executed results (ext st)).1 <> Parsed v) ->
  let '(post, st') := validate_execution_result env executed results st in
  let all_success :=
    forallb (fun r => truthy (get_default r "success" (VBool false))) results in
  st' = emit (EvValidateExecuted executed results)
          (with_ext (post_oracle env executed results (ext st)).2 st) /\
  forall st'' : State D X,
    _format_response executed results post st''
    = Formatted (VBool all_success) (current_session_token st'') executed results post
        (if all_success then "Request completed" else "Request completed with errors").
Proof.
  intros Hbad. unfold validate_execution_result.
  destruct (post_oracle env executed results (ext st)) as [[v|e|e t] x]; cbn [fst snd] in *.
  - by destruct (Hbad v).
  - split; [done|]. intros st''. unfold _format_response.
    by destruct (forallb _ results).
  - split; [done|]. intros st''. unfold _format_response.
    by destruct (forallb _ results).
Qed.

(** Context recall only fills blanks.  An identifier the caller supplied
    (not empty) is passed on as it is; when both are supplied the memory is
    not read at all; an identifier that differs from the caller's is a
    non-empty one taken from the row recalled under the token. *)
Theorem recall_fills_only_missing_ids (token : string)
    (clinician_id patient_id : option string) (st : State D X) :
  let '(cl, p, st') := recall_context config env token clinician_id patient_id st in
  (py_true clinician_id = true -> cl = clinician_id) /\
  (py_true patient_id = true -> p = patient_id) /\
  (py_true clinician_id = true -> py_true patient_id = true -> st' = st) /\
  (cl <> clinician_id ->
   py_true cl = true /\
   exists row,
     (MemoryManager.recall (utcnow env (ext st)) token (memory st)).1 = Some row /\
     cl = Schema.clinician_id row) /\
  (p <> patient_id ->
   py_true p = true /\
   exists row,
     (MemoryManager.recall (utcnow env (ext st)) token (memory st)).1 = Some row /\
     p = last_patient_id row).
Proof.
  unfold recall_context.
  destruct (MEMORY_ENABLED config); cbn [andb].
  2:{ repeat split; done. }
  destruct (py_true patient_id) eqn:Hp, (py_true clinician_id) eqn:Hc; cbn [negb orb andb].
  - repeat split; done.
  - destruct (MemoryManager.recall _ _ _) as [[row|] c]; cbn [fst snd].
    + destruct (py_true (Schema.clinician_id row)) eqn:Hrow.
      * repeat split; try done. by exists row.
      * repeat split; done.
    + repeat split; done.
  - destruct (MemoryManager.recall _ _ _) as [[row|] c]; cbn [fst snd].
    + destruct (py_true (last_patient_id row)) eqn:Hrow.
      * repeat split; try done. by exists row.
      * repeat split; done.
    + repeat split; done.
  - destruct (MemoryManager.recall _ _ _) as [[row|] c]; cbn [fst snd].
    + destruct (py_true (last_patient_id row)) eqn:Hrowp,
               (py_true (Schema.clinician_id row)) eqn:Hrowc;
        repeat split; try done; by exists row.
    + repeat split; done.
Qed.

End RequestExtras.

Module RequestRuns.
Import Scenario.

Lemma retry_budget_never_exceeded_witness :
  retry_count (boot ["T1"; "T2"; "T3"; "T4"])
    <= retry_count (serve_requests config_template (scripted_env registry script_error)
                      Fixtures.four_requests (boot ["T1"; "T2"; "T3"; "T4"]))
    <= FILTER_MAX_RETRIES config_template.
Proof.
  apply (retry_budget_never_exceeded config_template (scripted_env registry script_error)
           Fixtures.four_requests (boot ["T1"; "T2"; "T3"; "T4"])).
  vm_compute. lia.
Defined.

Lemma unusable_verdict_rejects_request_witness :
  exists v,
    process_request config_template unreachable_validator_env
      "Fetch PT_0001" (Some "DR_0001") (Some "PT_0001") ∅ (boot ["T1"])
    = (Rejected (PolicyViolation (get (fields v) "explanation")) (Some v) (Some "T1"),
       emit (EvValidatePlanned compliant_plan) (with_ext [] asked_plan)) /\
    truthy (get (fields v) "valid") = false /\
    truthy (get (fields v) "allow_retry") = false /\
    corrected_sequence v = None.
Proof.
  apply (unusable_verdict_rejects_request config_template unreachable_validator_env
           "Fetch PT_0001" (Some "DR_0001") (Some "PT_0001") ∅ (boot ["T1"])
           "T1" [] (Some "DR_0001") (Some "PT_0001") minted compliant_plan []
           eq_refl eq_refl eq_refl).
  intros v Hv. discriminate Hv.
Defined.

Lemma unusable_post_verdict_is_ignored_witness :
  let '(post, st') :=
    validate_execution_result (scripted_env registry script_post_unreachable)
      compliant_plan [ {[ "success" := VBool true ]} ] (boot []) in
  let all_success :=
    forallb (fun r => truthy (get_default r "success" (VBool false)))
      [ ({[ "success" := VBool true ]} : dict) ] in
  st' = emit (EvValidateExecuted compliant_plan [ {[ "success" := VBool true ]} ])
          (with_ext (post_oracle (scripted_env registry script_post_unreachable)
                       compliant_plan [ {[ "success" := VBool true ]} ]
                       (ext (boot []))).2 (boot [])) /\
  forall st'' : State (list string) (list string),
    _format_response compliant_plan [ {[ "success" := VBool true ]} ] post st''
    = Formatted (VBool all_success) (current_session_token st'') compliant_plan
        [ {[ "success" := VBool true ]} ] post
        (if all_success then "Request completed" else "Request completed with errors").
Proof.
  apply (unusable_post_verdict_is_ignored (scripted_env registry script_post_unreachable)
           compliant_plan [ {[ "success" := VBool true ]} ] (boot [])).
  intros v Hv. discriminate Hv.
Defined.

End RequestRuns.

(** * Properties of the audit trail *)

Module AuditExtras.
Import JsonFiles Tools.

Lemma append_written (f : File) (item : dict) :
  append_to_json_array Written f item
  = (true, Holds (VList (match f with Holds (VList l) => l | _ => [] end
                         ++ [VDict item]))).
Proof. by destruct f as [| |[]]. Qed.

Lemma append_all_from_list (items : list dict) : forall l : list value,
  append_all (Holds (VList l)) items = Holds (VList (l ++ map VDict items)).
Proof.
  induction items as [|item items IH]; intros l; cbn.
  - by rewrite app_nil_r.
  - fold (append_all (Holds (VList (l ++ [VDict item]))) items).
    by rewrite IH, <- app_assoc.
Qed.

(** The log file under appends that get written.  A file that holds a JSON
    list keeps its entries, in order, with the new ones after them.  A file
    that is missing, cannot be read or decoded, or holds anything but a
    list, is replaced by the list of the new entries: what it held is
    dropped without an error.  So after one write that fails inside
    [json.dump], the next append starts the log anew. *)
Theorem audit_log_keeps_or_resets (f : File) (item : dict) (items : list dict) :
  append_all f (item :: items)
    = Holds (VList (match f with Holds (VList l) => l | _ => [] end
                    ++ map VDict (item :: items))) /\
  (forall lost : dict,
     (append_to_json_array DumpFails f lost).1 = false /\
     append_all (append_to_json_array DumpFails f lost).2 (item :: items)
       = Holds (VList (map VDict (item :: items)))) /\
  (forall unwritten : dict, append_to_json_array OpenFails f unwritten = (false, f)).
Proof.
  assert (forall f0, append_all f0 (item :: items)
            = Holds (VList (match f0 with Holds (VList l) => l | _ => [] end
                            ++ map VDict (item :: items)))) as Hrun.
  { intros f0. unfold append_all. cbn [foldl]. rewrite append_written. cbn [snd].
    fold (append_all
            (Holds (VList (match f0 with Holds (VList l) => l | _ => [] end ++ [VDict item])))
            items).
    by rewrite append_all_from_list, <- app_assoc. }
  split; [apply Hrun|]. split; [|done].
  intros lost. split; [done|]. by rewrite Hrun.
Qed.

Ltac lookup_literal :=
  unfold get;
  repeat first [rewrite lookup_insert_eq | rewrite lookup_insert_ne by done
               | rewrite lookup_singleton_eq | rewrite lookup_singleton_ne by done];
  cbn [default from_option id].

(** One audit call.  A call with an empty clinician, patient or action
    writes nothing and fails.  Any other call, whoever the clinician and the
    patient are (neither identifier is validated or looked up for more than
    a name), appends exactly one entry when the write succeeds: the entry
    carries the identifiers, the action, the outcome flag and the token as
    given, and the call succeeds even when the flag says the action failed.
    When the write fails the call fails. *)
Theorem audit_call_appends_one_entry (py_str : value -> string)
    (clinicians patients : list dict) (w : WriteOutcome) (audit_log : File)
    (action_timestamp entry_timestamp timestamp : string)
    (clinician_id patient_id action : string) (success : bool)
    (token_id : option string) (details : option dict) :
  let '(result, audit_log') :=
    log_access_to_audit_trail py_str clinicians patients w audit_log
      action_timestamp entry_timestamp timestamp
      clinician_id patient_id action success token_id details in
  if String.eqb clinician_id "" || String.eqb patient_id "" || String.eqb action "" then
    get result "success" = VBool false /\ audit_log' = audit_log
  else
    match w with
    | Written =>
        get result "success" = VBool true /\
        exists entry,
          audit_log' = Holds (VList (match audit_log with
                                     | Holds (VList l) => l
                                     | _ => []
                                     end ++ [VDict entry])) /\
          get entry "clinician_id" = VStr clinician_id /\
          get entry "patient_id" = VStr patient_id /\
          get entry "action" = VStr action /\
          get entry "success" = VBool success /\
          get entry "token_id" = opt_value token_id /\
          get entry "timestamp" = VStr entry_timestamp
    | OpenFails => get result "success" = VBool false /\ audit_log' = audit_log
    | DumpFails => get result "success" = VBool false /\ audit_log' = Unreadable
    end.
Proof.
  unfold log_access_to_audit_trail. cbn [truthy]. rewrite !negb_involutive.
  destruct (String.eqb clinician_id "" || String.eqb patient_id "" || String.eqb action "").
  { split; [|done]. by lookup_literal. }
  cbv zeta. unfold log_to_audit_trail.
  destruct w.
  - rewrite append_written. cbn [negb]. split; [by lookup_literal|].
    eexists. split; [reflexivity|]. unfold audit_entry.
    repeat split; by lookup_literal.
  - cbn. split; [|done]. by lookup_literal.
  - cbn. split; [|done]. by lookup_literal.
Qed.

End AuditExtras.
